(** * Housing-share listings: a shallow embedding of the controller

    The development follows [src/controllers/housingShare.controller.js],
    the validation chains of [src/routes/housingShare.routes.js] and the
    schema of [src/models/housingShare.model.js]; then the guards of
    [src/middleware/auth.middleware.js] (module [Auth], put in front of
    the routes in [Secured]) and the create, update and delete handlers of
    [src/controllers/listing.controller.js] with the schema of
    [src/models/listing.model.js] (module [Listings], with a store of its
    own).

    Conventions of the embedding.
    - A JavaScript number is a rational [Q]; [NaN] is [None] where a
      computation can produce it.  Infinities and rounding are not modelled.
    - [undefined] is [None] of an [option].
    - The two external stores (Cloudinary and MongoDB) are fields of a
      [World]; every call to them is appended to a trace, and their faults
      are decided by oracles carried by the world.
    - [async] code is sequential here (every call is awaited), so a
      handler is a function from a world to a response and a world.
    - Left out: the logger, [populate] on reads, the rate limiter and
      multer's own limits.  The handlers take the caller identity as
      given; the guarded routes get it from [authenticate]. *)

From Stdlib Require Import ZArith QArith String Ascii Bool Lia.
From stdpp Require Import gmap strings list sorting.

Open Scope string_scope.
Open Scope list_scope.
Open Scope Z_scope.

Set Warnings "-clear-no-such-hyp".

(** ** JavaScript values and built-ins *)

(** A value of a numeric form field: a JSON body carries numbers, a
    multipart body carries the text the client typed. *)
Inductive jsval : Type :=
| JNum (q : Q)
| JStr (s : string).

(** The nested [preferences] object.  The controller reads a parsed value
    only through these fields; a value that is not an object has none. *)
Record Prefs : Type := mkPrefs {
  gender : option string;
  studyField : option string;
  yearOfStudy : option string
}.

(** Library functions whose full definition lives outside the repository:
    [Number] applied to a string ([None] is [NaN]); [JSON.parse] on the
    text of [preferences] ([None] is a thrown [SyntaxError]);
    [mongoose.Types.ObjectId.isValid]; and validator.js's
    [isFloat(text, { min })]. *)
Class JsLib : Type := {
  Number : string → option Q;
  JSON_parse : string → option Prefs;
  ObjectId_isValid : string → bool;
  isFloat_text : Q → string → bool
}.

Module Js.

(** ASCII white space, as skipped by [parseInt] and removed by [trim]. *)
Definition is_ws (c : ascii) : bool :=
  let n := N_of_ascii c in
  (n =? 32)%N || ((9 <=? n)%N && (n <=? 13)%N).

Fixpoint skip_ws (s : string) : string :=
  match s with
  | String c s' => if is_ws c then skip_ws s' else s
  | EmptyString => s
  end.

Definition digit10 (c : ascii) : option Z :=
  let n := Z.of_N (N_of_ascii c) in
  if (48 <=? n) && (n <=? 57) then Some (n - 48) else None.

Definition digit16 (c : ascii) : option Z :=
  let n := Z.of_N (N_of_ascii c) in
  if (48 <=? n) && (n <=? 57) then Some (n - 48)
  else if (97 <=? n) && (n <=? 102) then Some (n - 87)
  else if (65 <=? n) && (n <=? 70) then Some (n - 55)
  else None.

(** Value of the longest prefix of digits; [acc] is [None] until a first
    digit has been read. *)
Fixpoint digits (radix : Z) (digit : ascii → option Z)
         (acc : option Z) (s : string) : option Z :=
  match s with
  | String c s' =>
      match digit c with
      | Some d => digits radix digit (Some (radix * default 0 acc + d)) s'
      | None => acc
      end
  | EmptyString => acc
  end.

Definition strip_sign (s : string) : bool * string :=
  match s with
  | String "-" r => (true, r)
  | String "+" r => (false, r)
  | _ => (false, s)
  end.

(** [parseInt(x)] with no radix: white space, sign, an optional [0x]
    prefix, then the longest run of digits; [NaN] when there is none.
    [parseInt(undefined)] reads the text "undefined" and is [NaN]. *)
Definition parseInt (x : option string) : option Z :=
  match x with
  | None => None
  | Some s =>
      let '(neg, s1) := strip_sign (skip_ws s) in
      let n :=
        match s1 with
        | String "0" (String "x" r) => digits 16 digit16 None r
        | String "0" (String "X" r) => digits 16 digit16 None r
        | _ => digits 10 digit10 None s1
        end in
      (λ v, if neg then - v else v) <$> n
  end.

(** [x || d] on a number: [NaN] and [0] are falsy. *)
Definition num_or (x : option Z) (d : Z) : Z :=
  match x with
  | Some v => if v =? 0 then d else v
  | None => d
  end.

(** Truthiness of an optional string: [undefined] and the empty string
    are falsy. *)
Definition truthy (x : option string) : bool :=
  match x with
  | Some s => negb (String.eqb s "")
  | None => false
  end.

Definition rev_string (s : string) : string :=
  string_of_list_ascii (reverse (list_ascii_of_string s)).

(** [s.trim()], for ASCII white space. *)
Definition trim (s : string) : string :=
  rev_string (skip_ws (rev_string (skip_ws s))).

(** [list.includes(x)] on strings. *)
Definition includes (l : list string) (x : string) : bool :=
  existsb (String.eqb x) l.

Definition ToNumber {js : JsLib} (v : option jsval) : option Q :=
  match v with
  | Some (JNum q) => Some q
  | Some (JStr s) => Number s
  | None => None
  end.

(** [x <= y] on numbers; a comparison with [NaN] is false. *)
Definition num_le (x y : option Q) : bool :=
  match x, y with
  | Some a, Some b => Qle_bool a b
  | _, _ => false
  end.

(** [a <= b]: two strings are compared as strings, code unit by code
    unit; anything else is converted to numbers. *)
Definition le {js : JsLib} (a b : option jsval) : bool :=
  match a, b with
  | Some (JStr s), Some (JStr t) => String.leb s t
  | _, _ => num_le (ToNumber a) (ToNumber b)
  end.

End Js.

(** ** Pagination, [validatePagination] of both controllers *)

Definition validatePagination (page limit : option string) : Z * Z :=
  let page := Js.num_or (Js.parseInt page) 1 in
  let limit := Js.num_or (Js.parseInt limit) 10 in
  let page := if page <? 1 then 1 else page in
  let limit := if (limit <? 1) || (limit >? 100) then 10 else limit in
  (page, limit).

(** ** Data model *)

(** A photo entry of the schema: [{ url, publicId }]. *)
Record Photo : Type := mkPhoto {
  url : string;
  publicId : string
}.

(** A document of the [HousingShare] collection, after casting to the
    schema types of [housingShare.model.js].  [None] is an unset path. *)
Record Share : Type := mkShare {
  _id : string;
  student : option string;
  title : option string;
  description : option string;
  governorate : option string;
  city : option string;
  address : option string;
  university : option string;
  currentOccupants : option Q;
  totalCapacity : option Q;
  pricePerPerson : option Q;
  amenities : list string;
  photos : list Photo;
  preferences : Prefs;
  status : option string;
  createdAt : Z;
  updatedAt : Z
}.

(** [req.body.preferences]: an object, or the text of one (a multipart
    form sends JSON text). *)
Inductive PrefsIn : Type :=
| PrefObj (p : Prefs)
| PrefText (s : string).

(** [req.body], restricted to the keys that are paths of the schema (the
    schema is strict: other keys never reach the database).  Every key is
    optional; the client chooses which ones to send, [student] included. *)
Record Body : Type := mkBody {
  b_student : option string;
  b_title : option string;
  b_description : option string;
  b_governorate : option string;
  b_city : option string;
  b_address : option string;
  b_university : option string;
  b_currentOccupants : option jsval;
  b_totalCapacity : option jsval;
  b_pricePerPerson : option jsval;
  b_amenities : option (list string);
  b_photos : option (list Photo);
  b_preferences : option PrefsIn;
  b_status : option string
}.

Definition emptyBody : Body :=
  mkBody None None None None None None None None None None None None None None.

(** [req.query] of the list endpoint. *)
Record Query : Type := mkQuery {
  q_governorate : option string;
  q_minPrice : option string;
  q_maxPrice : option string;
  q_status : option string;
  q_gender : option string;
  q_page : option string;
  q_limit : option string
}.

(** The filter object handed to [find] and [countDocuments]. *)
Record Filter : Type := mkFilter {
  f_governorate : option string;
  f_status : option string;
  f_gender : option string;
  f_gte : option (option Q);   (* [$gte]; [Some None] is [NaN] *)
  f_lte : option (option Q)    (* [$lte] *)
}.

(** ** Errors, responses and the two stores *)

Inductive Err : Type :=
| AppError (message : string) (statusCode : Z) (errors : list string)
| SyntaxError                               (* JSON.parse *)
| UploadError (path : string)               (* cloudinary upload rejected *)
| DestroyError (pid : string)               (* cloudinary destroy rejected *)
| ValidationError (paths : list string)     (* mongoose document validation *)
| CastError (path : string)                 (* mongoose query casting *)
| MongoError.                               (* the database refused a write *)

Inductive Call : Type :=
| CloudUpload (path : string)
| CloudDestroy (pid : string)
| FsUnlink (path : string)
| DbFindOne (id user : string)
| DbFind (f : Filter) (skip limit : Z)
| DbCount (f : Filter)
| DbSave (id : string)
| DbDeleteOne (id : string).

Record World : Type := mkWorld {
  objects : gset string;                  (* live Cloudinary public ids *)
  collection : gmap string Share;         (* HousingShare documents by _id *)
  trace : list Call;                      (* calls so far, oldest first *)
  clock : Z;                              (* Date.now() *)
  new_id : string;                        (* _id given to a new document *)
  upload_result : string → option Photo;  (* by file path; None rejects *)
  destroy_fails : string → bool;          (* by public id *)
  write_fails : bool                      (* save and deleteOne reject *)
}.

Definition log (c : Call) (w : World) : World :=
  mkWorld (objects w) (collection w) (trace w ++ [c]) (clock w) (new_id w)
          (upload_result w) (destroy_fails w) (write_fails w).

Definition with_objects (o : gset string) (w : World) : World :=
  mkWorld o (collection w) (trace w) (clock w) (new_id w)
          (upload_result w) (destroy_fails w) (write_fails w).

Definition with_collection (c : gmap string Share) (w : World) : World :=
  mkWorld (objects w) c (trace w) (clock w) (new_id w)
          (upload_result w) (destroy_fails w) (write_fails w).

(** Computations that read and change the world and may throw. *)
Inductive Outcome (A : Type) : Type :=
| Ok (a : A)
| Throw (e : Err).
Arguments Ok {A} a.
Arguments Throw {A} e.

Definition M (A : Type) : Type := World → Outcome A * World.

#[global] Instance M_ret : MRet M := λ A a w, (Ok a, w).

#[global] Instance M_bind : MBind M := λ A B k m w,
  match m w with
  | (Ok a, w') => k a w'
  | (Throw e, w') => (Throw e, w')
  end.

Definition throw {A} (e : Err) : M A := λ w, (Throw e, w).

(** [try { m } catch (error) { h error }]. *)
Definition try_catch {A} (m : M A) (h : Err → M A) : M A := λ w,
  match m w with
  | (Ok a, w') => (Ok a, w')
  | (Throw e, w') => h e w'
  end.

Module Cloudinary.

(** [cloudinary.uploader.upload(path, { folder })]. *)
Definition upload (path : string) : M Photo := λ w,
  let w := log (CloudUpload path) w in
  match upload_result w path with
  | Some r => (Ok r, with_objects ({[ publicId r ]} ∪ objects w) w)
  | None => (Throw (UploadError path), w)
  end.

(** [cloudinary.uploader.destroy(publicId)]; destroying an absent object
    is not an error. *)
Definition destroy (pid : string) : M unit := λ w,
  let w := log (CloudDestroy pid) w in
  if destroy_fails w pid then (Throw (DestroyError pid), w)
  else (Ok tt, with_objects (objects w ∖ {[ pid ]}) w).

End Cloudinary.

(** [fs.unlinkSync(path)] on a temporary file written by multer. *)
Definition unlinkSync (path : string) : M unit := λ w,
  (Ok tt, log (FsUnlink path) w).

(** ** The model: schema of [housingShare.model.js] and the calls on it *)

Module Mongoose.

Definition TUNISIAN_GOVERNORATES : list string :=
  [ "Ariana"; "Béja"; "Ben Arous"; "Bizerte"; "Gabès"; "Gafsa"; "Jendouba";
    "Kairouan"; "Kasserine"; "Kébili"; "Kef"; "Mahdia"; "Manouba"; "Médenine";
    "Monastir"; "Nabeul"; "Sfax"; "Sidi Bouzid"; "Siliana"; "Sousse";
    "Tataouine"; "Tozeur"; "Tunis"; "Zaghouan" ].

Definition GENDERS : list string := [ "male"; "female"; "any" ].
Definition STATUSES : list string := [ "available"; "full"; "closed" ].

(** A document in memory: the cast values, and the paths whose last
    assignment could not be cast (they fail validation on [save]). *)
Record Doc : Type := mkDoc {
  doc : Share;
  cast_errors : list string
}.

(** Cast to [Number]: the empty text is [null], other text goes through
    [Number] and must not be [NaN]. *)
Definition cast_number {js : JsLib} (path : string) (v : jsval) (old : option Q)
  : option Q * list string :=
  match v with
  | JNum q => (Some q, [])
  | JStr s =>
      if String.eqb s "" then (None, [])
      else match Number s with
           | Some q => (Some q, [])
           | None => (old, [path])
           end
  end.

Definition cast_objectid {js : JsLib} (path : string) (v : string)
           (old : option string) : option string * list string :=
  if ObjectId_isValid v then (Some v, []) else (old, [path]).

(** A nested path takes an object; text is not one. *)
Definition cast_prefs (path : string) (v : PrefsIn) (old : Prefs)
  : Prefs * list string :=
  match v with
  | PrefObj p => (p, [])
  | PrefText _ => (old, [path])
  end.

(** Assignment of a key of the body that may be absent: an absent key
    leaves the path as it is. *)
Definition set_opt {A B} (cast : A → B → B * list string)
           (v : option A) (old : B) : B * list string :=
  match v with
  | Some a => cast a old
  | None => (old, [])
  end.

(** The same for a path whose cast cannot fail. *)
Definition set_plain {A} (v : option A) (old : option A) : option A :=
  match v with
  | Some a => Some a
  | None => old
  end.

(** [Object.assign(document, body)]: every key of the body is assigned
    to the path of the same name, through the cast of its schema type;
    [title] is declared [trim: true]. *)
Definition assign {js : JsLib} (d : Doc) (b : Body) : Doc :=
  let s := doc d in
  let r_student :=
    set_opt (cast_objectid "student") (b_student b) (student s) in
  let r_current :=
    set_opt (cast_number "currentOccupants") (b_currentOccupants b)
            (currentOccupants s) in
  let r_total :=
    set_opt (cast_number "totalCapacity") (b_totalCapacity b)
            (totalCapacity s) in
  let r_price :=
    set_opt (cast_number "pricePerPerson") (b_pricePerPerson b)
            (pricePerPerson s) in
  let r_prefs :=
    set_opt (cast_prefs "preferences") (b_preferences b) (preferences s) in
  mkDoc (mkShare (_id s)
                 r_student.1
                 (set_plain (Js.trim <$> b_title b) (title s))
                 (set_plain (b_description b) (description s))
                 (set_plain (b_governorate b) (governorate s))
                 (set_plain (b_city b) (city s))
                 (set_plain (b_address b) (address s))
                 (set_plain (b_university b) (university s))
                 r_current.1 r_total.1 r_price.1
                 (default (amenities s) (b_amenities b))
                 (default (photos s) (b_photos b))
                 r_prefs.1
                 (set_plain (b_status b) (status s))
                 (createdAt s) (updatedAt s))
        (cast_errors d ++ r_student.2 ++ r_current.2 ++ r_total.2
         ++ r_price.2 ++ r_prefs.2).

(** [new HousingShare(body)]: a fresh [_id], the defaults of the schema,
    then the keys of the body. *)
Definition new {js : JsLib} (b : Body) : M Doc := λ w,
  let blank :=
    mkShare (new_id w) None None None None None None None None None None
            [] [] (mkPrefs None None None) (Some "available")
            (clock w) (clock w) in
  (Ok (assign (mkDoc blank []) b), w).

Definition required {A} (path : string) (v : option A) : list string :=
  match v with Some _ => [] | None => [path] end.

Definition required_string (path : string) (v : option string) : list string :=
  match v with
  | Some s => if String.eqb s "" then [path] else []
  | None => [path]
  end.

Definition enum (path : string) (allowed : list string) (v : option string)
  : list string :=
  match v with
  | Some s => if Js.includes allowed s then [] else [path]
  | None => []
  end.

Definition min (path : string) (m : Q) (v : option Q) : list string :=
  match v with
  | Some q => if Qle_bool m q then [] else [path]
  | None => []
  end.

(** The validators declared by [housingShareSchema], path by path.  They
    are run here on every path; mongoose runs them on the required and
    the modified paths, which is the same on a document whose stored
    paths are valid. *)
Definition validate (s : Share) : list string :=
  required "student" (student s)
  ++ required_string "title" (title s)
  ++ required_string "description" (description s)
  ++ required_string "governorate" (governorate s)
  ++ enum "governorate" TUNISIAN_GOVERNORATES (governorate s)
  ++ required_string "city" (city s)
  ++ required_string "address" (address s)
  ++ required_string "university" (university s)
  ++ required "currentOccupants" (currentOccupants s)
  ++ min "currentOccupants" 1 (currentOccupants s)
  ++ required "totalCapacity" (totalCapacity s)
  ++ min "totalCapacity" 2 (totalCapacity s)
  ++ required "pricePerPerson" (pricePerPerson s)
  ++ required_string "preferences.gender" (gender (preferences s))
  ++ enum "preferences.gender" GENDERS (gender (preferences s))
  ++ enum "status" STATUSES (status s).

(** [document.save()]: validation first; a valid document is written
    under its [_id] unless the database rejects the write. *)
Definition save (d : Doc) : M unit := λ w,
  let w := log (DbSave (_id (doc d))) w in
  match cast_errors d ++ validate (doc d) with
  | [] =>
      if write_fails w then (Throw MongoError, w)
      else (Ok tt, with_collection (<[ _id (doc d) := doc d ]> (collection w)) w)
  | errs => (Throw (ValidationError errs), w)
  end.

(** [HousingShare.findOne({ _id: id, student: user })]; the condition on
    [student] is cast to an ObjectId. *)
Definition findOne {js : JsLib} (id user : string) : M (option Doc) := λ w,
  let w := log (DbFindOne id user) w in
  if ObjectId_isValid user then
    match collection w !! id with
    | Some s =>
        if bool_decide (student s = Some user) then (Ok (Some (mkDoc s [])), w)
        else (Ok None, w)
    | None => (Ok None, w)
    end
  else (Throw (CastError "student"), w).

(** [HousingShare.findById(id)].  The trace tells apart the calls of the
    handlers that write; a read by id leaves it as it is. *)
Definition findById (id : string) : M (option Share) := λ w,
  (Ok (collection w !! id), w).

(** [document.deleteOne()]. *)
Definition deleteOne (d : Doc) : M unit := λ w,
  let w := log (DbDeleteOne (_id (doc d))) w in
  if write_fails w then (Throw MongoError, w)
  else (Ok tt, with_collection (delete (_id (doc d)) (collection w)) w).

Definition eq_cond (c : option string) (v : option string) : bool :=
  match c with
  | Some x => match v with Some y => String.eqb x y | None => false end
  | None => true
  end.

Definition gte_cond (c : option (option Q)) (v : option Q) : bool :=
  match c with
  | Some (Some m) => match v with Some p => Qle_bool m p | None => false end
  | Some None => false
  | None => true
  end.

Definition lte_cond (c : option (option Q)) (v : option Q) : bool :=
  match c with
  | Some (Some m) => match v with Some p => Qle_bool p m | None => false end
  | Some None => false
  | None => true
  end.

(** Does a document satisfy the filter? *)
Definition matches (f : Filter) (s : Share) : bool :=
  eq_cond (f_governorate f) (governorate s)
  && eq_cond (f_status f) (status s)
  && eq_cond (f_gender f) (gender (preferences s))
  && gte_cond (f_gte f) (pricePerPerson s)
  && lte_cond (f_lte f) (pricePerPerson s).

(** Casting the filter: a [NaN] bound on a [Number] path is refused. *)
Definition cast_filter (f : Filter) : option Err :=
  match f_gte f, f_lte f with
  | Some None, _ | _, Some None => Some (CastError "pricePerPerson")
  | _, _ => None
  end.

Fixpoint insert_desc (s : Share) (l : list Share) : list Share :=
  match l with
  | x :: l' => if createdAt x <? createdAt s then s :: l
               else x :: insert_desc s l'
  | [] => [s]
  end.

(** [.sort({ createdAt: -1 })]; the order of documents created at the
    same instant is the database's choice. *)
Definition sort_desc (l : list Share) : list Share :=
  foldr insert_desc [] l.

Definition selected (f : Filter) (w : World) : list Share :=
  filter (λ s, matches f s = true) (snd <$> map_to_list (collection w)).

(** [HousingShare.find(f).sort({createdAt: -1}).skip(n).limit(m)]. *)
Definition find (f : Filter) (n m : Z) : M (list Share) := λ w,
  let w := log (DbFind f n m) w in
  match cast_filter f with
  | Some e => (Throw e, w)
  | None => (Ok (take (Z.to_nat m) (drop (Z.to_nat n) (sort_desc (selected f w)))), w)
  end.

(** [HousingShare.countDocuments(f)]. *)
Definition countDocuments (f : Filter) : M Z := λ w,
  let w := log (DbCount f) w in
  match cast_filter f with
  | Some e => (Throw e, w)
  | None => (Ok (Z.of_nat (length (selected f w))), w)
  end.

End Mongoose.

(** [await Promise.all([a, b])]: both calls are started, the first
    rejection is the one thrown. *)
Definition Promise_all {A B} (a : M A) (b : M B) : M (A * B) := λ w,
  let '(ra, w1) := a w in
  let '(rb, w2) := b w1 in
  match ra, rb with
  | Ok x, Ok y => (Ok (x, y), w2)
  | Throw e, _ => (Throw e, w2)
  | _, Throw e => (Throw e, w2)
  end.

(** ** Requests and responses *)

Record Req : Type := mkReq {
  user : string;              (* req.user.userId, set by [authenticate] *)
  params_id : string;         (* req.params.id *)
  body : Body;                (* req.body *)
  files : list string;        (* req.files, by temporary path *)
  query : Query;              (* req.query *)
  validation : list string    (* what validationResult(req) reads *)
}.

Definition emptyQuery : Query := mkQuery None None None None None None None.

Inductive Payload : Type :=
| PShare (s : Share)
| PPage (shares : list Share) (total pages currentPage : Z)
| PMessage (status message : string).

(** What a handler ends with: [res.status(code).json(payload)] or
    [next(error)]. *)
Inductive Response : Type :=
| Json (code : Z) (p : Payload)
| Next (e : Err).

(** The [try { ... } catch (error) { next(error) }] around every handler. *)
Definition handler (m : M Response) (w : World) : Response * World :=
  match m w with
  | (Ok r, w') => (r, w')
  | (Throw e, w') => (Next e, w')
  end.

(** [mongo-sanitize] removes keys that start with [$]; no key of the
    typed records above does. *)
Definition sanitize {A} (x : A) : A := x.

Definition now : M Z := λ w, (Ok (clock w), w).

Definition with_student (v : option string) (b : Body) : Body :=
  mkBody v (b_title b) (b_description b) (b_governorate b) (b_city b)
         (b_address b) (b_university b) (b_currentOccupants b)
         (b_totalCapacity b) (b_pricePerPerson b) (b_amenities b)
         (b_photos b) (b_preferences b) (b_status b).

Definition with_photos (v : option (list Photo)) (b : Body) : Body :=
  mkBody (b_student b) (b_title b) (b_description b) (b_governorate b)
         (b_city b) (b_address b) (b_university b) (b_currentOccupants b)
         (b_totalCapacity b) (b_pricePerPerson b) (b_amenities b)
         v (b_preferences b) (b_status b).

Definition with_preferences (v : option PrefsIn) (b : Body) : Body :=
  mkBody (b_student b) (b_title b) (b_description b) (b_governorate b)
         (b_city b) (b_address b) (b_university b) (b_currentOccupants b)
         (b_totalCapacity b) (b_pricePerPerson b) (b_amenities b)
         (b_photos b) v (b_status b).

Definition with_updatedAt (t : Z) (d : Mongoose.Doc) : Mongoose.Doc :=
  let s := Mongoose.doc d in
  Mongoose.mkDoc
    (mkShare (_id s) (student s) (title s) (description s) (governorate s)
             (city s) (address s) (university s) (currentOccupants s)
             (totalCapacity s) (pricePerPerson s) (amenities s) (photos s)
             (preferences s) (status s) (createdAt s) t)
    (Mongoose.cast_errors d).

(** ** The controller, [housingShare.controller.js] *)

Section Controller.

Context {js : JsLib}.

(** The loop of [handlePhotoUpload]; [photos] is the array built so far. *)
Fixpoint uploadEach (files : list string) (photos : list Photo)
  : M (list Photo) :=
  match files with
  | file :: rest =>
      result ← Cloudinary.upload file;
      _ ← unlinkSync file;
      uploadEach rest (photos ++ [result])
  | [] => mret photos
  end.

Definition handlePhotoUpload (files : list string) : M (list Photo) :=
  uploadEach files [].

Fixpoint deletePhotos (photos : list Photo) : M unit :=
  match photos with
  | photo :: rest =>
      _ ← Cloudinary.destroy (publicId photo);
      deletePhotos rest
  | [] => mret tt
  end.

(** [if (typeof req.body.preferences === 'string')
      req.body.preferences = JSON.parse(req.body.preferences)]. *)
Definition parsePreferences (b : Body) : M Body :=
  match b_preferences b with
  | Some (PrefText s) =>
      match JSON_parse s with
      | Some p => mret (with_preferences (Some (PrefObj p)) b)
      | None => throw SyntaxError
      end
  | _ => mret b
  end.

(** [req.body.preferences?.gender]. *)
Definition preferences_gender (b : Body) : option string :=
  match b_preferences b with
  | Some (PrefObj p) => gender p
  | _ => None
  end.

(** [['male', 'female', 'any'].includes(req.body.preferences?.gender)]. *)
Definition gender_ok (b : Body) : bool :=
  match preferences_gender b with
  | Some g => Js.includes [ "male"; "female"; "any" ] g
  | None => false
  end.

Definition createHousingShare (req : Req) : World → Response * World :=
  handler (
    if negb (bool_decide (validation req = [])) then
      throw (AppError "Validation error" 400 (validation req))
    else
      body ← parsePreferences (sanitize (body req));
      if negb (gender_ok body) then
        throw (AppError "Invalid gender preference" 400 [])
      else
        photos ← (if bool_decide (files req = []) then mret []
                  else handlePhotoUpload (files req));
        housingShare ←
          Mongoose.new (with_photos (Some photos)
                          (with_student (Some (user req)) body));
        _ ← Mongoose.save housingShare;
        mret (Json 201 (PShare (Mongoose.doc housingShare)))).

(** The filter built by [getHousingShares]. *)
Definition buildFilter (q : Query) : Filter :=
  let bound (x : option string) : option (option Q) :=
    match x with
    | Some s => if Js.truthy x then Some (Number s) else None
    | None => None
    end in
  mkFilter
    (if Js.truthy (q_governorate q) then q_governorate q else None)
    (if Js.truthy (q_status q) then q_status q else None)
    (if Js.truthy (q_gender q) then q_gender q else None)
    (if Js.truthy (q_minPrice q) || Js.truthy (q_maxPrice q)
     then bound (q_minPrice q) else None)
    (if Js.truthy (q_minPrice q) || Js.truthy (q_maxPrice q)
     then bound (q_maxPrice q) else None).

(** [Math.ceil(total / limit)]. *)
Definition Math_ceil_div (total limit : Z) : Z := - ((- total) / limit).

Definition getHousingShares (req : Req) : World → Response * World :=
  handler (
    let q := sanitize (query req) in
    let '(page, limit) := validatePagination (q_page (query req)) (q_limit (query req)) in
    let filter := buildFilter q in
    '(shares, total) ←
      Promise_all (Mongoose.find filter ((page - 1) * limit) limit)
                  (Mongoose.countDocuments filter);
    mret (Json 200 (PPage shares total (Math_ceil_div total limit) page))).

Definition getHousingShareById (req : Req) : World → Response * World :=
  handler (
    let id := sanitize (params_id req) in
    if negb (ObjectId_isValid id) then
      throw (AppError "Invalid housing share ID" 400 [])
    else
      found ← Mongoose.findById id;
      match found with
      | None => throw (AppError "Housing share not found" 404 [])
      | Some share => mret (Json 200 (PShare share))
      end).

(** Truthiness of [req.body.preferences]. *)
Definition preferences_truthy (b : Body) : bool :=
  match b_preferences b with
  | Some (PrefObj _) => true
  | Some (PrefText s) => negb (String.eqb s "")
  | None => false
  end.

Definition updateHousingShare (req : Req) : World → Response * World :=
  handler (
    let id := sanitize (params_id req) in
    if negb (ObjectId_isValid id) then
      throw (AppError "Invalid housing share ID" 400 [])
    else
      let body := sanitize (body req) in
      found ← Mongoose.findOne id (user req);
      match found with
      | None => throw (AppError "Housing share not found or unauthorized" 404 [])
      | Some share =>
          (* Handle photo updates *)
          body ← (if negb (bool_decide (files req = [])) then
                    try_catch
                      (_ ← deletePhotos (photos (Mongoose.doc share));
                       newPhotos ← handlePhotoUpload (files req);
                       mret (with_photos (Some newPhotos) body))
                      (λ _, throw (AppError "Error processing photos" 500 []))
                  else mret body);
          (* Validate preferences if updated *)
          body ← (if preferences_truthy body then
                    body ← parsePreferences body;
                    if negb (gender_ok body) then
                      throw (AppError "Invalid gender preference" 400 [])
                    else mret body
                  else mret body);
          let share := Mongoose.assign share body in
          t ← now;
          let share := with_updatedAt t share in
          _ ← Mongoose.save share;
          mret (Json 200 (PShare (Mongoose.doc share)))
      end).

Definition deleteHousingShare (req : Req) : World → Response * World :=
  handler (
    let id := sanitize (params_id req) in
    if negb (ObjectId_isValid id) then
      throw (AppError "Invalid housing share ID" 400 [])
    else
      found ← Mongoose.findOne id (user req);
      match found with
      | None => throw (AppError "Housing share not found or unauthorized" 404 [])
      | Some share =>
          (* Continue with deletion even if photo cleanup fails *)
          _ ← try_catch (deletePhotos (photos (Mongoose.doc share)))
                        (λ _, mret tt);
          _ ← Mongoose.deleteOne share;
          mret (Json 200 (PMessage "success" "Housing share deleted successfully"))
      end).

End Controller.

(** ** The routes, [housingShare.routes.js] *)

Module Routes.
Section Routes.

Context {js : JsLib}.

(** *** Validators of express-validator

    A standard validator sees the text of the value, a [.custom] one the
    value itself.  A chain that is marked optional skips an [undefined]
    field.  Lengths are counted on the UTF-8 text. *)

Definition is_digit (c : ascii) : bool :=
  match Js.digit10 c with Some _ => true | None => false end.

Definition is_hex (c : ascii) : bool :=
  match Js.digit16 c with Some _ => true | None => false end.

(** The integer denoted by a text of the shape [[-+]?[0-9]+]. *)
Definition int_text (s : string) : option Z :=
  let '(neg, r) := Js.strip_sign s in
  if forallb is_digit (list_ascii_of_string r) then
    (λ v, if neg then - v else v) <$> Js.digits 10 Js.digit10 None r
  else None.

Definition in_range (lo : Z) (hi : option Z) (n : Z) : bool :=
  (lo <=? n) && match hi with Some h => n <=? h | None => true end.

(** [isInt({ min, max })]; a number prints as an integer when it is one
    and is below [1e21]. *)
Definition isInt (lo : Z) (hi : option Z) (v : jsval) : bool :=
  match v with
  | JStr s =>
      match int_text s with
      | Some n => in_range lo hi n
      | None => false
      end
  | JNum q =>
      let r := Qred q in
      (Qden r =? 1)%positive && (Z.abs (Qnum r) <? 10 ^ 21)
      && in_range lo hi (Qnum r)
  end.

(** [isFloat({ min })]; every number prints as a float. *)
Definition isFloat (lo : Q) (v : jsval) : bool :=
  match v with
  | JStr s => isFloat_text lo s
  | JNum q => Qle_bool lo q
  end.

Definition isMongoId (s : string) : bool :=
  (String.length s =? 24)%nat && forallb is_hex (list_ascii_of_string s).

Definition notEmpty (path s : string) : list string :=
  if String.eqb s "" then [path] else [].

Definition isLength_max (path : string) (n : nat) (s : string) : list string :=
  if (n <? String.length s)%nat then [path] else [].

Definition isIn (path : string) (allowed : list string) (s : string)
  : list string :=
  if Js.includes allowed s then [] else [path].

(** A chain [body(path).trim(). ...] on a text field: the trimmed value
    is written back to the request, then [checks] run on it. *)
Definition text_chain (optional : bool) (checks : string → list string)
           (v : option string) : option string * list string :=
  match v with
  | Some s => let s' := Js.trim s in (Some s', checks s')
  | None => (None, if optional then [] else checks "")
  end.

(** A chain without sanitizer. *)
Definition value_chain {A} (optional : bool) (path : string)
           (check : A → bool) (v : option A) : list string :=
  match v with
  | Some a => if check a then [] else [path]
  | None => if optional then [] else [path]
  end.

(** The [.custom] validator of [totalCapacity]:
    [if (value <= req.body.currentOccupants) throw ...]. *)
Definition capacity_custom (optional : bool) (b : Body) : list string :=
  if optional && bool_decide (b_totalCapacity b = None) then []
  else if Js.le (b_totalCapacity b) (b_currentOccupants b)
       then [ "totalCapacity" ] else [].

Definition GOVERNORATES : list string :=
  [ "Ariana"; "Béja"; "Ben Arous"; "Bizerte" ].

Definition prefs_field (f : Prefs → option string) (b : Body) : option string :=
  match b_preferences b with
  | Some (PrefObj p) => f p
  | _ => None
  end.

(** [validateCreateShare], run on a body: the body as the sanitizers
    leave it, and the errors recorded for [validationResult].

    [optional] tells whether the chains are marked optional.  The PUT
    route marks them, by [validation.optional()] on the chain objects of
    this very array; POST is therefore stated for both values. *)
Definition validateCreateShare (optional : bool) (b : Body)
  : Body * list string :=
  let '(v_title, e_title) :=
    text_chain optional
      (λ s, notEmpty "title" s ++ isLength_max "title" 100 s) (b_title b) in
  let '(v_description, e_description) :=
    text_chain optional
      (λ s, notEmpty "description" s ++ isLength_max "description" 1000 s)
      (b_description b) in
  let '(v_governorate, e_governorate) :=
    text_chain optional
      (λ s, notEmpty "governorate" s ++ isIn "governorate" GOVERNORATES s)
      (b_governorate b) in
  let '(v_city, e_city) := text_chain optional (notEmpty "city") (b_city b) in
  let '(v_address, e_address) :=
    text_chain optional (notEmpty "address") (b_address b) in
  let '(v_university, e_university) :=
    text_chain optional (notEmpty "university") (b_university b) in
  let e_current :=
    value_chain optional "currentOccupants" (isInt 1 None) (b_currentOccupants b) in
  let e_total :=
    value_chain optional "totalCapacity" (isInt 2 None) (b_totalCapacity b)
    ++ capacity_custom optional b in
  let e_price :=
    value_chain optional "pricePerPerson" (isFloat 0) (b_pricePerPerson b) in
  let e_gender :=
    value_chain optional "preferences.gender"
      (Js.includes [ "male"; "female"; "any" ]) (prefs_field gender b) in
  let '(v_year, e_year) :=
    text_chain true (notEmpty "preferences.yearOfStudy")
      (prefs_field yearOfStudy b) in
  let '(v_field, e_field) :=
    text_chain true (notEmpty "preferences.studyField")
      (prefs_field studyField b) in
  let v_preferences :=
    match b_preferences b with
    | Some (PrefObj p) => Some (PrefObj (mkPrefs (gender p) v_field v_year))
    | other => other
    end in
  (mkBody (b_student b) v_title v_description v_governorate v_city v_address
          v_university (b_currentOccupants b) (b_totalCapacity b)
          (b_pricePerPerson b) (b_amenities b) (b_photos b) v_preferences
          (b_status b),
   e_title ++ e_description ++ e_governorate ++ e_city ++ e_address
   ++ e_university ++ e_current ++ e_total ++ e_price ++ e_gender
   ++ e_year ++ e_field).

(** The [.custom] validator of the [maxPrice] query parameter:
    [if (req.query.minPrice && Number(value) <= Number(req.query.minPrice))
      throw ...]. *)
Definition maxPrice_custom (q : Query) : list string :=
  match q_maxPrice q, q_minPrice q with
  | Some value, Some low =>
      if Js.truthy (Some low) && Js.num_le (Number value) (Number low)
      then [ "maxPrice" ] else []
  | _, _ => []
  end.

(** The chains of the list route. *)
Definition validateList (q : Query) : list string :=
  value_chain true "governorate" (Js.includes GOVERNORATES) (q_governorate q)
  ++ value_chain true "minPrice" (isFloat_text 0) (q_minPrice q)
  ++ value_chain true "maxPrice" (isFloat_text 0) (q_maxPrice q)
  ++ maxPrice_custom q
  ++ value_chain true "status"
       (Js.includes [ "available"; "occupied"; "closed" ]) (q_status q)
  ++ value_chain true "gender"
       (Js.includes [ "male"; "female"; "any" ]) (q_gender q)
  ++ value_chain true "page" (λ s, isInt 1 None (JStr s)) (q_page q)
  ++ value_chain true "limit" (λ s, isInt 1 (Some 100) (JStr s)) (q_limit q).

(** [router.post('/', ..., validateCreateShare, createHousingShare)]. *)
Definition POST (optional : bool) (caller : string) (b : Body)
           (uploads : list string) : World → Response * World :=
  let '(b', errors) := validateCreateShare optional b in
  createHousingShare (mkReq caller "" b' uploads emptyQuery errors).

(** [router.get('/', [...], getHousingShares)]. *)
Definition GET (q : Query) : World → Response * World :=
  getHousingShares (mkReq "" "" emptyBody [] q (validateList q)).

(** [router.get('/:id', param('id').isMongoId(), getHousingShareById)]. *)
Definition GET_id (id : string) : World → Response * World :=
  getHousingShareById
    (mkReq "" id emptyBody [] emptyQuery
           (if isMongoId id then [] else [ "id" ])).

(** [router.put('/:id', ..., [param('id').isMongoId(), ...], updateHousingShare)]. *)
Definition PUT (caller id : string) (b : Body) (uploads : list string)
  : World → Response * World :=
  let '(b', errors) := validateCreateShare true b in
  updateHousingShare
    (mkReq caller id b' uploads emptyQuery
           ((if isMongoId id then [] else [ "id" ]) ++ errors)).

(** [router.delete('/:id', ..., param('id').isMongoId(), deleteHousingShare)]. *)
Definition DELETE (caller id : string) : World → Response * World :=
  deleteHousingShare
    (mkReq caller id emptyBody [] emptyQuery
           (if isMongoId id then [] else [ "id" ])).

End Routes.
End Routes.

(** ** The guards of the routes, [auth.middleware.js] *)

Module Auth.

(** The payload of a token, as [auth.controller.js] signs it:
    [{ userId, role }]. *)
Record Decoded : Type := mkDecoded {
  userId : string;
  role : string
}.

(** [jwt.verify(token, secret)] with the secret of the server: the payload
    of the token, or [None] when it throws. *)
Class Jwt : Type := {
  jwt_verify : string → option Decoded
}.

(** What the body of [authenticate] can throw. *)
Inductive Thrown : Type :=
| ThrownAppError (message : string) (statusCode : Z)
| ThrownByVerify.

(** [s.split(' ')]: the pieces between the spaces, empty pieces included. *)
Fixpoint split (s : string) : list string :=
  match s with
  | EmptyString => [ "" ]
  | String c rest =>
      if Ascii.eqb c " "%char then "" :: split rest
      else match split rest with
           | piece :: pieces => String c piece :: pieces
           | [] => [ String c "" ]
           end
  end.

(** [req.headers.authorization?.split(' ')[1]]. *)
Definition bearer (authorization : option string) : option string :=
  header ← authorization; split header !! 1%nat.

(** The [try] block of [authenticate]: the payload put in [req.user]. *)
Definition decode {jwt : Jwt} (authorization : option string)
  : Thrown + Decoded :=
  let token := bearer authorization in
  if negb (Js.truthy token) then
    inl (ThrownAppError "Authentication required" 401)
  else
    match token ≫= jwt_verify with
    | Some decoded => inr decoded
    | None => inl ThrownByVerify
    end.

(** [authenticate]: [inr] is [next()] with [req.user] set, [inl] is
    [next(error)]; the [catch] answers every throw alike. *)
Definition authenticate {jwt : Jwt} (authorization : option string)
  : Err + Decoded :=
  match decode authorization with
  | inr decoded => inr decoded
  | inl _ => inl (AppError "Invalid token" 401 [])
  end.

(** [authorize(...roles)]: [None] is [next()]. *)
Definition authorize (roles : list string) (user : Decoded) : option Err :=
  if negb (Js.includes roles (role user)) then
    Some (AppError "Unauthorized access" 403 [])
  else None.

(** A route [authenticate, authorize(...roles), ..., handler]: the handler
    runs for [req.user.userId] once both guards have called [next()];
    [next(error)] ends the request. *)
Definition guarded {jwt : Jwt} {S R : Type} (next : Err → R)
           (roles : list string) (authorization : option string)
           (handler : string → S → R * S) : S → R * S := λ st,
  match authenticate authorization with
  | inl e => (next e, st)
  | inr decoded =>
      match authorize roles decoded with
      | Some e => (next e, st)
      | None => handler (userId decoded) st
      end
  end.

End Auth.

(** The guarded routes of [housingShare.routes.js], from the header of
    the request on; the rate limiter of the create route lets the
    request through. *)
Module Secured.
Section Secured.

Context {js : JsLib} {jwt : Auth.Jwt}.

Definition POST (authorization : option string) (optional : bool) (b : Body)
           (uploads : list string) : World → Response * World :=
  Auth.guarded Next [ "student" ] authorization
               (λ caller, Routes.POST optional caller b uploads).

Definition PUT (authorization : option string) (id : string) (b : Body)
           (uploads : list string) : World → Response * World :=
  Auth.guarded Next [ "student" ] authorization
               (λ caller, Routes.PUT caller id b uploads).

Definition DELETE (authorization : option string) (id : string)
  : World → Response * World :=
  Auth.guarded Next [ "student" ] authorization
               (λ caller, Routes.DELETE caller id).

End Secured.
End Secured.

(** ** The listing controller, [listing.controller.js], and its model *)

Module Listings.

(** A document of the [Listing] collection, after casting to the schema
    types of [listing.model.js]. *)
Record Listing : Type := mkListing {
  _id : string;
  owner : option string;
  title : option string;
  description : option string;
  propertyType : option string;
  state : option string;
  city : option string;
  address : option string;
  price : option Q;
  bedrooms : option Q;
  bathrooms : option Q;
  amenities : list string;
  images : list string;
  available : option bool;
  createdAt : Z
}.

(** [req.body], a JSON object, restricted to the keys below: the paths of
    the schema but [_id] and [createdAt], which a client is taken not to
    send.  Every key is optional and the client chooses which ones to
    send, [owner] included; a numeric field carries a number or a text. *)
Record Body : Type := mkBody {
  b_owner : option string;
  b_title : option string;
  b_description : option string;
  b_propertyType : option string;
  b_state : option string;
  b_city : option string;
  b_address : option string;
  b_price : option jsval;
  b_bedrooms : option jsval;
  b_bathrooms : option jsval;
  b_amenities : option (list string);
  b_images : option (list string);
  b_available : option bool
}.

Definition emptyBody : Body :=
  mkBody None None None None None None None None None None None None None.

Inductive Call : Type :=
| DbSave (id : string)
| DbFindOne (id user : string)
| DbFindOneAndDelete (id user : string).

Record Store : Type := mkStore {
  listings : gmap string Listing;   (* Listing documents by _id *)
  trace : list Call;                (* calls so far, oldest first *)
  clock : Z;                        (* Date.now() *)
  new_id : string;                  (* _id given to a new document *)
  write_fails : bool                (* save and findOneAndDelete reject *)
}.

Definition log (c : Call) (st : Store) : Store :=
  mkStore (listings st) (trace st ++ [c]) (clock st) (new_id st)
          (write_fails st).

Definition with_listings (c : gmap string Listing) (st : Store) : Store :=
  mkStore c (trace st) (clock st) (new_id st) (write_fails st).

Definition M (A : Type) : Type := Store → Outcome A * Store.

#[export] Instance M_ret : MRet M := λ A a st, (Ok a, st).

#[export] Instance M_bind : MBind M := λ A B k m st,
  match m st with
  | (Ok a, st') => k a st'
  | (Throw e, st') => (Throw e, st')
  end.

Definition throw {A} (e : Err) : M A := λ st, (Throw e, st).

Inductive Payload : Type :=
| PListing (l : Listing)
| PMessage (status message : string).

Inductive Response : Type :=
| Json (code : Z) (p : Payload)
| Next (e : Err).

(** The [try { ... } catch (error) { next(error) }] around every handler. *)
Definition handler (m : M Response) (st : Store) : Response * Store :=
  match m st with
  | (Ok r, st') => (r, st')
  | (Throw e, st') => (Next e, st')
  end.

Record Req : Type := mkReq {
  user : string;              (* req.user.userId, set by [authenticate] *)
  params_id : string;         (* req.params.id *)
  body : Body;                (* req.body *)
  validation : list string    (* what validationResult(req) reads *)
}.

Definition with_owner (v : option string) (b : Body) : Body :=
  mkBody v (b_title b) (b_description b) (b_propertyType b) (b_state b)
         (b_city b) (b_address b) (b_price b) (b_bedrooms b) (b_bathrooms b)
         (b_amenities b) (b_images b) (b_available b).

Section Listings.

Context {js : JsLib}.

(** Truthiness of a numeric field of the body: [undefined], [0] and the
    empty text are falsy. *)
Definition truthy (v : option jsval) : bool :=
  match v with
  | Some (JNum q) => negb (Qeq_bool q 0)
  | Some (JStr s) => negb (String.eqb s "")
  | None => false
  end.

(** [isNaN(v)]: is [Number(v)] not a number? *)
Definition isNaN (v : option jsval) : bool :=
  match Js.ToNumber v with
  | Some _ => false
  | None => true
  end.

Definition PROPERTY_TYPES : list string := [ "apartment"; "house"; "room" ].

Record Doc : Type := mkDoc {
  doc : Listing;
  cast_errors : list string
}.

(** [Object.assign(document, body)], through the casts of the schema. *)
Definition assign (d : Doc) (b : Body) : Doc :=
  let l := doc d in
  let r_owner :=
    Mongoose.set_opt (Mongoose.cast_objectid "owner") (b_owner b) (owner l) in
  let r_price :=
    Mongoose.set_opt (Mongoose.cast_number "price") (b_price b) (price l) in
  let r_bedrooms :=
    Mongoose.set_opt (Mongoose.cast_number "bedrooms") (b_bedrooms b)
                     (bedrooms l) in
  let r_bathrooms :=
    Mongoose.set_opt (Mongoose.cast_number "bathrooms") (b_bathrooms b)
                     (bathrooms l) in
  mkDoc (mkListing (_id l)
                   r_owner.1
                   (Mongoose.set_plain (b_title b) (title l))
                   (Mongoose.set_plain (b_description b) (description l))
                   (Mongoose.set_plain (b_propertyType b) (propertyType l))
                   (Mongoose.set_plain (b_state b) (state l))
                   (Mongoose.set_plain (b_city b) (city l))
                   (Mongoose.set_plain (b_address b) (address l))
                   r_price.1 r_bedrooms.1 r_bathrooms.1
                   (default (amenities l) (b_amenities b))
                   (default (images l) (b_images b))
                   (Mongoose.set_plain (b_available b) (available l))
                   (createdAt l))
        (cast_errors d ++ r_owner.2 ++ r_price.2 ++ r_bedrooms.2
         ++ r_bathrooms.2).

(** [new Listing(body)]: a fresh [_id], the defaults of the schema, then
    the keys of the body. *)
Definition new (b : Body) : M Doc := λ st,
  let blank :=
    mkListing (new_id st) None None None None None None None None None None
              [] [] (Some true) (clock st) in
  (Ok (assign (mkDoc blank []) b), st).

(** The validators declared by [listingSchema]. *)
Definition validate (l : Listing) : list string :=
  Mongoose.required "owner" (owner l)
  ++ Mongoose.required_string "title" (title l)
  ++ Mongoose.required_string "description" (description l)
  ++ Mongoose.required_string "propertyType" (propertyType l)
  ++ Mongoose.enum "propertyType" PROPERTY_TYPES (propertyType l)
  ++ Mongoose.required_string "state" (state l)
  ++ Mongoose.required_string "city" (city l)
  ++ Mongoose.required "price" (price l).

(** [document.save()]. *)
Definition save (d : Doc) : M unit := λ st,
  let st := log (DbSave (_id (doc d))) st in
  match cast_errors d ++ validate (doc d) with
  | [] =>
      if write_fails st then (Throw MongoError, st)
      else (Ok tt, with_listings (<[ _id (doc d) := doc d ]> (listings st)) st)
  | errs => (Throw (ValidationError errs), st)
  end.

(** The document that [{ _id: id, owner: user }] selects. *)
Definition owned (id user : string) (st : Store) : option Listing :=
  match listings st !! id with
  | Some l => if bool_decide (owner l = Some user) then Some l else None
  | None => None
  end.

(** [Listing.findOne({ _id: id, owner: user })]; the condition on [owner]
    is cast to an ObjectId. *)
Definition findOne (id user : string) : M (option Doc) := λ st,
  let st := log (DbFindOne id user) st in
  if ObjectId_isValid user then
    (Ok ((λ l, mkDoc l []) <$> owned id user st), st)
  else (Throw (CastError "owner"), st).

(** [Listing.findOneAndDelete({ _id: id, owner: user })]: the selected
    document is removed and returned, in one call. *)
Definition findOneAndDelete (id user : string) : M (option Listing) := λ st,
  let st := log (DbFindOneAndDelete id user) st in
  if ObjectId_isValid user then
    if write_fails st then (Throw MongoError, st)
    else
      match owned id user st with
      | Some l => (Ok (Some l), with_listings (delete id (listings st)) st)
      | None => (Ok None, st)
      end
  else (Throw (CastError "owner"), st).

(** The checks of the numeric fields, shared by create and update but for
    the first: [!price || isNaN(price)] on create, [price && isNaN(price)]
    on update. *)
Definition createListing (req : Req) : Store → Response * Store :=
  handler (
    if negb (bool_decide (validation req = [])) then
      throw (AppError "Validation error" 400 (validation req))
    else
      let body := sanitize (body req) in
      (* Validate numeric fields *)
      if negb (truthy (b_price body)) || isNaN (b_price body) then
        throw (AppError "Invalid price" 400 [])
      else if truthy (b_bedrooms body) && isNaN (b_bedrooms body) then
        throw (AppError "Invalid bedrooms" 400 [])
      else if truthy (b_bathrooms body) && isNaN (b_bathrooms body) then
        throw (AppError "Invalid bathrooms" 400 [])
      else
        listing ← new (with_owner (Some (user req)) body);
        _ ← save listing;
        mret (Json 201 (PListing (doc listing)))).

(** [listing.updatedAt = Date.now()] sets a key that is no path of the
    schema: it is not stored, and is left out here. *)
Definition updateListing (req : Req) : Store → Response * Store :=
  handler (
    let id := sanitize (params_id req) in
    if negb (ObjectId_isValid id) then
      throw (AppError "Invalid listing ID" 400 [])
    else
      let body := sanitize (body req) in
      found ← findOne id (user req);
      match found with
      | None => throw (AppError "Listing not found or unauthorized" 404 [])
      | Some listing =>
          (* Validate numeric fields if updated *)
          if truthy (b_price body) && isNaN (b_price body) then
            throw (AppError "Invalid price" 400 [])
          else if truthy (b_bedrooms body) && isNaN (b_bedrooms body) then
            throw (AppError "Invalid bedrooms" 400 [])
          else if truthy (b_bathrooms body) && isNaN (b_bathrooms body) then
            throw (AppError "Invalid bathrooms" 400 [])
          else
            let listing := assign listing body in
            _ ← save listing;
            mret (Json 200 (PListing (doc listing)))
      end).

Definition deleteListing (req : Req) : Store → Response * Store :=
  handler (
    let id := sanitize (params_id req) in
    if negb (ObjectId_isValid id) then
      throw (AppError "Invalid listing ID" 400 [])
    else
      found ← findOneAndDelete id (user req);
      match found with
      | None => throw (AppError "Listing not found or unauthorized" 404 [])
      | Some _ =>
          mret (Json 200 (PMessage "success" "Listing deleted successfully"))
      end).

End Listings.

End Listings.

(** ** Vocabulary of the statements *)

(** The world [w] after some calls: new contents of the two stores, and
    the calls [t] added to the trace.  The clock and the oracles stay. *)
Definition evolve (w : World) (o : gset string) (c : gmap string Share)
           (t : list Call) : World :=
  mkWorld o c (trace w ++ t) (clock w) (new_id w)
          (upload_result w) (destroy_fails w) (write_fails w).

(** What a run of [handlePhotoUpload] on [files] does, given the answers
    [r] of the object store: the photos obtained before the first
    rejection, the file that was rejected, and the calls made. *)
Fixpoint uploaded (r : string → option Photo) (files : list string) : list Photo :=
  match files with
  | f :: rest =>
      match r f with
      | Some p => p :: uploaded r rest
      | None => []
      end
  | [] => []
  end.

Fixpoint rejected (r : string → option Photo) (files : list string) : option string :=
  match files with
  | f :: rest =>
      match r f with
      | Some _ => rejected r rest
      | None => Some f
      end
  | [] => None
  end.

Fixpoint upload_calls (r : string → option Photo) (files : list string) : list Call :=
  match files with
  | f :: rest =>
      CloudUpload f ::
      match r f with
      | Some _ => FsUnlink f :: upload_calls r rest
      | None => []
      end
  | [] => []
  end.

(** What a run of [deletePhotos] does, given which deletions fail: the
    ids whose deletion was attempted, the ids actually removed, and the
    first id whose deletion failed. *)
Fixpoint attempted (fails : string → bool) (ps : list Photo) : list string :=
  match ps with
  | p :: rest =>
      publicId p :: (if fails (publicId p) then [] else attempted fails rest)
  | [] => []
  end.

Fixpoint removed (fails : string → bool) (ps : list Photo) : list string :=
  match ps with
  | p :: rest =>
      if fails (publicId p) then [] else publicId p :: removed fails rest
  | [] => []
  end.

Fixpoint first_failed (fails : string → bool) (ps : list Photo) : option string :=
  match ps with
  | p :: rest =>
      if fails (publicId p) then Some (publicId p) else first_failed fails rest
  | [] => None
  end.

Definition ids (ps : list Photo) : gset string := list_to_set (publicId <$> ps).

(** The clamping rule in the words of the specification: a page below 1,
    or unparsable, becomes 1; a page size outside [1, 100], or unparsable,
    becomes 10. *)
Definition spec_page (parsed : option Z) : Z :=
  match parsed with
  | Some n => if n <? 1 then 1 else n
  | None => 1
  end.

Definition spec_pageSize (parsed : option Z) : Z :=
  match parsed with
  | Some n => if (1 <=? n) && (n <=? 100) then n else 10
  | None => 10
  end.

(** The listing [id] is hidden from [caller]: it does not exist, or it
    belongs to somebody else. *)
Definition hidden_from (caller id : string) (w : World) : Prop :=
  match collection w !! id with
  | Some s => student s ≠ Some caller
  | None => True
  end.

(** In a trace, the record is removed before any media is released. *)
Definition removal_first (t : list Call) : Prop :=
  ∀ i j pid id,
    t !! i = Some (CloudDestroy pid) → t !! j = Some (DbDeleteOne id) →
    (j < i)%nat.

(** In a trace, no media is released before the record is committed. *)
Definition release_after_commit (t : list Call) : Prop :=
  ∀ i j pid id,
    t !! i = Some (CloudDestroy pid) → t !! j = Some (DbSave id) →
    (j < i)%nat.

(** What a caller gets for a listing that is hidden from it, and the
    world afterwards: at most one read of the record store. *)
Definition hidden_response {js : JsLib} (caller id : string) : Response :=
  if negb (ObjectId_isValid id) then
    Next (AppError "Invalid housing share ID" 400 [])
  else if ObjectId_isValid caller then
    Next (AppError "Housing share not found or unauthorized" 404 [])
  else Next (CastError "student").

Definition hidden_world {js : JsLib} (caller id : string) (w : World) : World :=
  if ObjectId_isValid id then log (DbFindOne id caller) w else w.

(** The calls of a run of [handlePhotoUpload] in which no upload fails. *)
Definition upload_pairs (files : list string) : list Call :=
  files ≫= λ f, [ CloudUpload f; FsUnlink f ].

(** The end of [updateHousingShare], from the check of the preferences
    on: what remains to do once the photos are dealt with. *)
Definition update_commit {js : JsLib} (share : Mongoose.Doc) (body : Body)
  : World → Response * World :=
  handler (
    body ← (if preferences_truthy body then
              body ← parsePreferences body;
              if negb (gender_ok body) then
                throw (AppError "Invalid gender preference" 400 [])
              else mret body
            else mret body);
    let share := Mongoose.assign share body in
    t ← now;
    let share := with_updatedAt t share in
    _ ← Mongoose.save share;
    mret (Json 200 (PShare (Mongoose.doc share)))).

(** The collection is well formed: every record sits under its own
    [_id] and passes the validators of the schema. *)
Definition well_formed (w : World) : Prop :=
  ∀ id s, collection w !! id = Some s → _id s = id ∧ Mongoose.validate s = [].

(** The record [s] with [updatedAt] set to [t]. *)
Definition touch (t : Z) (s : Share) : Share :=
  mkShare (_id s) (student s) (title s) (description s) (governorate s)
          (city s) (address s) (university s) (currentOccupants s)
          (totalCapacity s) (pricePerPerson s) (amenities s) (photos s)
          (preferences s) (status s) (createdAt s) t.

(** [a] is listed before [b]: it is not older. *)
Definition newer_first (a b : Share) : Prop := createdAt b ≤ createdAt a.

(** No space occurs in [s]. *)
Fixpoint no_space (s : string) : bool :=
  match s with
  | EmptyString => true
  | String c rest => negb (Ascii.eqb c " "%char) && no_space rest
  end.

(** The [Listing] collection is well formed: every listing sits under its
    own [_id] and passes the validators of its schema. *)
Definition listings_well_formed (st : Listings.Store) : Prop :=
  ∀ id l, Listings.listings st !! id = Some l →
          Listings._id l = id ∧ Listings.validate l = [].

(** ** A concrete library and concrete worlds, for the examples *)

Module Sample.

(** [Number] on the texts used below: decimal integers, and the empty
    text, which is [0].  The examples send [preferences] as an object, so
    [JSON.parse] is never reached. *)
Definition Number_dec (s : string) : option Q :=
  let t := Js.trim s in
  if String.eqb t "" then Some 0%Q else inject_Z <$> Routes.int_text t.

#[export] Instance lib : JsLib := {|
  Number := Number_dec;
  JSON_parse := λ _, None;
  ObjectId_isValid := Routes.isMongoId;
  isFloat_text := λ lo s, Js.num_le (Some lo) (Number_dec s)
|}.

Definition alice : string := "aaaaaaaaaaaaaaaaaaaaaaaa".
Definition bob : string := "bbbbbbbbbbbbbbbbbbbbbbbb".
Definition id1 : string := "111111111111111111111111".
Definition id2 : string := "222222222222222222222222".

(** The object store answers every upload but that of the file "bad". *)
Definition answers (path : string) : option Photo :=
  if String.eqb path "bad" then None
  else Some (mkPhoto ("https://cdn/" ++ path) ("housing-shares/" ++ path)).

Definition any_gender : Prefs := mkPrefs (Some "any") None None.

(** The listing of the scenario of the specification: two occupants, a
    capacity of four, 300 per person. *)
Definition fields (current total : jsval) : Body :=
  mkBody None (Some "Room") (Some "Near campus") (Some "Ariana")
         (Some "Raoued") (Some "1 rue A") (Some "ENIT")
         (Some current) (Some total) (Some (JNum 300)) None None
         (Some (PrefObj any_gender)) None.

(** The same listing as a multipart form sends it: every field is text. *)
Definition form (current total : string) : Body :=
  mkBody None (Some "Room") (Some "Near campus") (Some "Ariana")
         (Some "Raoued") (Some "1 rue A") (Some "ENIT")
         (Some (JStr current)) (Some (JStr total)) (Some (JStr "300")) None None
         (Some (PrefObj any_gender)) None.

Definition old1 : Photo := mkPhoto "https://cdn/o1" "housing-shares/o1".
Definition old2 : Photo := mkPhoto "https://cdn/o2" "housing-shares/o2".

Definition listing (owner : string) : Share :=
  mkShare id1 (Some owner) (Some "Room") (Some "Near campus") (Some "Ariana")
          (Some "Raoued") (Some "1 rue A") (Some "ENIT")
          (Some 2%Q) (Some 4%Q) (Some 300%Q) [] [old1; old2] any_gender
          (Some "available") 1000 1000.

(** Nothing stored yet. *)
Definition empty_world : World :=
  mkWorld ∅ ∅ [] 1000 id1 answers (λ _, false) false.

(** Alice's listing and its two photos are stored; [fails] tells which
    deletions the object store refuses. *)
Definition world_with_listing (fails : string → bool) : World :=
  mkWorld (ids [old1; old2]) {[ id1 := listing alice ]} [] 2000 id2
          answers fails false.

Definition only (f : Body → Body) : Body := f emptyBody.

Definition with_currentOccupants (v : jsval) (b : Body) : Body :=
  mkBody (b_student b) (b_title b) (b_description b) (b_governorate b)
         (b_city b) (b_address b) (b_university b) (Some v)
         (b_totalCapacity b) (b_pricePerPerson b) (b_amenities b)
         (b_photos b) (b_preferences b) (b_status b).

Definition with_status (v : string) (b : Body) : Body :=
  mkBody (b_student b) (b_title b) (b_description b) (b_governorate b)
         (b_city b) (b_address b) (b_university b) (b_currentOccupants b)
         (b_totalCapacity b) (b_pricePerPerson b) (b_amenities b)
         (b_photos b) (b_preferences b) (Some v).

End Sample.

Module Sample2.
Import Sample.
Definition id3 : string := "333333333333333333333333".

(** Bob's listing, newer and cheaper than Alice's, in another governorate. *)
Definition newer : Share :=
  mkShare id2 (Some bob) (Some "Flat") (Some "Two rooms") (Some "Bizerte")
          (Some "Menzel") (Some "2 rue B") (Some "FSB")
          (Some 1%Q) (Some 3%Q) (Some 150%Q) [] [] any_gender
          (Some "available") 3000 3000.

Definition two_listings : World :=
  mkWorld (ids [old1; old2]) (<[ id2 := newer ]> {[ id1 := listing alice ]})
          [] 4000 id3 answers (λ _, false) false.
End Sample2.

Module Sample3.
Import Sample.

(** The server knows two tokens: Alice's, a student, and Bob's, an owner. *)
#[export] Instance jwt : Auth.Jwt := {|
  Auth.jwt_verify := λ token,
    if String.eqb token "t-alice" then Some (Auth.mkDecoded alice "student")
    else if String.eqb token "t-bob" then Some (Auth.mkDecoded bob "owner")
    else None
|}.

(** Bob's flat, and the same flat once given to Alice. *)
Definition flat_of (owner : string) : Listings.Listing :=
  Listings.mkListing id1 (Some owner) (Some "Flat") (Some "Two rooms")
                     (Some "apartment") (Some "Tunis") (Some "Carthage") None
                     (Some 500%Q) None None [] [] (Some true) 1000.

(** The body that creates it; the [owner] it names is not the caller. *)
Definition offer (price : jsval) : Listings.Body :=
  Listings.mkBody (Some alice) (Some "Flat") (Some "Two rooms")
                  (Some "apartment") (Some "Tunis") (Some "Carthage") None
                  (Some price) None None None None None.

Definition give_to (owner : string) : Listings.Body :=
  Listings.with_owner (Some owner) Listings.emptyBody.

Definition no_listing : Listings.Store :=
  Listings.mkStore ∅ [] 1000 id1 false.

Definition one_listing : Listings.Store :=
  Listings.mkStore {[ id1 := flat_of bob ]} [] 2000 id2 false.

End Sample3.

(** * Properties *)

(** ** The monad and the worlds *)

Lemma evolve_id w : evolve w (objects w) (collection w) [] = w.
Proof. destruct w. unfold evolve. simpl. by rewrite app_nil_r. Qed.

Lemma evolve_evolve w o c t o' c' t' :
  evolve (evolve w o c t) o' c' t' = evolve w o' c' (t ++ t').
Proof. unfold evolve. simpl. by rewrite app_assoc. Qed.

(** Two worlds built by [mkWorld] are equal when their stores and traces are. *)
Ltac same_world :=
  unfold evolve, log, with_objects, with_collection, ids; cbn;
  f_equal; [ try set_solver .. ]; rewrite <- ?app_assoc; try done.

(** ** [handlePhotoUpload] and [deletePhotos], run to the end *)

Lemma uploadEach_run files : ∀ acc w,
  uploadEach files acc w =
    (match rejected (upload_result w) files with
     | None => Ok (acc ++ uploaded (upload_result w) files)
     | Some f => Throw (UploadError f)
     end,
     evolve w (ids (uploaded (upload_result w) files) ∪ objects w)
            (collection w) (upload_calls (upload_result w) files)).
Proof.
  induction files as [| f rest IH]; intros acc w.
  - simpl. rewrite app_nil_r. f_equal.
    rewrite <- (evolve_id w) at 1. same_world.
  - cbn [uploadEach rejected uploaded upload_calls].
    unfold mbind, M_bind, Cloudinary.upload, unlinkSync.
    cbn [upload_result log].
    destruct (upload_result w f) as [p |] eqn:E.
    + rewrite IH. cbn [upload_result log with_objects objects collection].
      rewrite <- app_assoc. f_equal. same_world.
    + f_equal. same_world.
Qed.

Lemma handlePhotoUpload_run files w :
  handlePhotoUpload files w =
    (match rejected (upload_result w) files with
     | None => Ok (uploaded (upload_result w) files)
     | Some f => Throw (UploadError f)
     end,
     evolve w (ids (uploaded (upload_result w) files) ∪ objects w)
            (collection w) (upload_calls (upload_result w) files)).
Proof. unfold handlePhotoUpload. by rewrite uploadEach_run. Qed.

Lemma deletePhotos_run ps : ∀ w,
  deletePhotos ps w =
    (match first_failed (destroy_fails w) ps with
     | None => Ok tt
     | Some pid => Throw (DestroyError pid)
     end,
     evolve w (objects w ∖ list_to_set (removed (destroy_fails w) ps))
            (collection w) (CloudDestroy <$> attempted (destroy_fails w) ps)).
Proof.
  induction ps as [| p rest IH]; intros w.
  - simpl. f_equal. rewrite <- (evolve_id w) at 1. same_world.
  - cbn [deletePhotos first_failed removed attempted].
    unfold mbind, M_bind, Cloudinary.destroy. cbn [destroy_fails log].
    destruct (destroy_fails w (publicId p)) eqn:E.
    + f_equal. same_world.
    + rewrite IH. cbn [destroy_fails log with_objects objects collection].
      f_equal. same_world.
Qed.

(** ** Pagination *)

Ltac bool_cases :=
  repeat match goal with
    | |- context [ (?a =? ?b)%Z ] => destruct (Z.eqb_spec a b)
    | |- context [ (?a <? ?b)%Z ] => destruct (Z.ltb_spec a b)
    | |- context [ (?a <=? ?b)%Z ] => destruct (Z.leb_spec a b)
    | |- context [ (?a >? ?b)%Z ] => rewrite (Z.gtb_ltb a b)
    end.

Lemma validatePagination_spec page limit :
  validatePagination page limit =
    (spec_page (Js.parseInt page), spec_pageSize (Js.parseInt limit)).
Proof.
  unfold validatePagination, spec_page, spec_pageSize, Js.num_or.
  destruct (Js.parseInt page) as [p |], (Js.parseInt limit) as [l |];
    bool_cases; cbn; f_equal; lia.
Qed.

Lemma spec_page_bounds parsed : 1 ≤ spec_page parsed.
Proof. unfold spec_page. destruct parsed; bool_cases; lia. Qed.

Lemma spec_pageSize_bounds parsed : 1 ≤ spec_pageSize parsed ≤ 100.
Proof. unfold spec_pageSize. destruct parsed; bool_cases; cbn; lia. Qed.

Example pagination_unparsable :
  validatePagination (Some "abc") (Some "500") = (1, 10).
Proof. reflexivity. Qed.

Example pagination_low :
  validatePagination (Some "-3") (Some "0") = (1, 10).
Proof. reflexivity. Qed.

Example pagination_kept :
  validatePagination (Some "7") (Some "100") = (7, 100).
Proof. reflexivity. Qed.

Example pagination_absent : validatePagination None None = (1, 10).
Proof. reflexivity. Qed.

(** C9.  The list handler clamps its pagination inputs before it queries:
    a page that is unparsable or below 1 becomes 1, a page size that is
    unparsable or outside [1, 100] becomes 10; [find] is called with the
    clamped values, and a page that is returned carries the clamped page
    as [currentPage].  (The only other outcome is the rejection of a [NaN]
    price bound.) *)
Theorem list_pagination_clamped {js : JsLib} (q : Query) (w : World) :
  let page := spec_page (Js.parseInt (q_page q)) in
  let limit := spec_pageSize (Js.parseInt (q_limit q)) in
  validatePagination (q_page q) (q_limit q) = (page, limit)
  ∧ 1 ≤ page ∧ 1 ≤ limit ≤ 100
  ∧ trace (Routes.GET q w).2
    = trace w ++ [ DbFind (buildFilter q) ((page - 1) * limit) limit;
                   DbCount (buildFilter q) ]
  ∧ ((Mongoose.cast_filter (buildFilter q) = Some (CastError "pricePerPerson")
      ∧ (Routes.GET q w).1 = Next (CastError "pricePerPerson"))
     ∨ (Mongoose.cast_filter (buildFilter q) = None
        ∧ ∃ shares total,
            (Routes.GET q w).1
            = Json 200 (PPage shares total (Math_ceil_div total limit) page)
            ∧ Z.of_nat (length shares) ≤ limit)).
Proof.
  intros page limit.
  split; [apply validatePagination_spec |].
  split; [apply spec_page_bounds |].
  split; [apply spec_pageSize_bounds |].
  unfold Routes.GET, getHousingShares, handler. cbn [query sanitize].
  rewrite validatePagination_spec. fold page limit.
  unfold mbind, M_bind, Promise_all, Mongoose.find, Mongoose.countDocuments.
  cbn [log trace].
  destruct (Mongoose.cast_filter (buildFilter q)) as [e |] eqn:E; cbn.
  - split; [by rewrite <- app_assoc |]. left.
    unfold Mongoose.cast_filter in E. repeat case_match; naive_solver.
  - split; [by rewrite <- app_assoc |]. right. split; [done |].
    eexists _, _. split; [done |].
    rewrite length_take.
    pose proof (spec_pageSize_bounds (Js.parseInt (q_limit q))) as Hl.
    fold limit in Hl. lia.
Qed.

(** ** Listing with a price range *)

Lemma truthy_nonempty s : s ≠ "" → Js.truthy (Some s) = true.
Proof.
  intros Hs. unfold Js.truthy. destruct (String.eqb_spec s ""); done.
Qed.

Lemma filter_none {A} (P : A → Prop) `{∀ x, Decision (P x)} (l : list A) :
  (∀ x, ¬ P x) → filter P l = [].
Proof.
  intros HP. induction l as [| x l IH]; [done |].
  rewrite filter_cons. destruct (decide (P x)); [by destruct (HP x) | done].
Qed.

Lemma selected_log f c w :
  Mongoose.selected f (log c w) = Mongoose.selected f w.
Proof. reflexivity. Qed.

(** No price lies in an inverted range. *)
Lemma inverted_bounds_match_nothing f a b s :
  f_gte f = Some (Some a) → f_lte f = Some (Some b) → (b < a)%Q →
  Mongoose.matches f s = false.
Proof.
  intros Hg Hl Hab. unfold Mongoose.matches. rewrite Hg, Hl.
  unfold Mongoose.gte_cond, Mongoose.lte_cond.
  destruct (pricePerPerson s) as [p |]; [| by rewrite !andb_false_r].
  destruct (Qle_bool a p) eqn:E1; [| by rewrite !andb_false_r].
  destruct (Qle_bool p b) eqn:E2; [| by rewrite !andb_false_r].
  apply Qle_bool_iff in E1, E2.
  exfalso. apply (Qlt_not_le _ _ Hab). by apply Qle_trans with p.
Qed.

(** C8.  A list request that supplies both price bounds with
    [minPrice > maxPrice] succeeds and returns no item: the route's check
    of the two bounds records an error that the handler never reads, and
    the filter that is built matches no document. *)
Theorem inverted_range_matches_nothing {js : JsLib} (q : Query) (w : World)
    (lo hi : string) (a b : Q) :
  q_minPrice q = Some lo → q_maxPrice q = Some hi →
  lo ≠ "" → hi ≠ "" →
  Number lo = Some a → Number hi = Some b → (b < a)%Q →
  (Routes.GET q w).1
  = Json 200 (PPage [] 0 0 (spec_page (Js.parseInt (q_page q))))
  ∧ objects (Routes.GET q w).2 = objects w
  ∧ collection (Routes.GET q w).2 = collection w
  ∧ "maxPrice" ∈ Routes.validateList q.
Proof.
  intros Hlo Hhi Nlo Nhi Na Nb Hab.
  assert (Hf : f_gte (buildFilter q) = Some (Some a)
               ∧ f_lte (buildFilter q) = Some (Some b)).
  { unfold buildFilter. cbn. rewrite Hlo, Hhi, !truthy_nonempty by done.
    cbn. by rewrite Na, Nb. }
  destruct Hf as [Hg Hl].
  assert (Hsel : Mongoose.selected (buildFilter q) w = []).
  { unfold Mongoose.selected. apply filter_none. intros s.
    by rewrite (inverted_bounds_match_nothing _ a b s Hg Hl Hab). }
  unfold Routes.GET, getHousingShares, handler. cbn [query sanitize].
  rewrite validatePagination_spec.
  unfold mbind, M_bind, Promise_all, Mongoose.find, Mongoose.countDocuments.
  unfold Mongoose.cast_filter. rewrite Hg, Hl.
  rewrite !selected_log, !Hsel. cbn.
  split; [| split; [done | split; [done |]]].
  - by rewrite drop_nil, take_nil.
  - unfold Routes.validateList, Routes.maxPrice_custom.
    rewrite Hlo, Hhi, truthy_nonempty, Na, Nb by done. cbn.
    assert (Qle_bool b a = true) as ->
      by (apply Qle_bool_iff; by apply Qlt_le_weak).
    rewrite !elem_of_app. do 3 right. left. by left.
Qed.

(** The example of the specification: [minPrice=100], [maxPrice=50], on a
    collection that holds a listing at 300. *)
Lemma inverted_range_witness :
  (Routes.GET (js := Sample.lib)
     (mkQuery None (Some "100") (Some "50") None None None None)
     (Sample.world_with_listing (λ _, false))).1
  = Json 200 (PPage [] 0 0 1).
Proof.
  refine (proj1 (inverted_range_matches_nothing (js := Sample.lib)
                   (mkQuery None (Some "100") (Some "50") None None None None)
                   (Sample.world_with_listing (λ _, false))
                   "100" "50" 100 50 _ _ _ _ _ _ _));
    try reflexivity; try discriminate.
Defined.


(** ** Creating a listing *)

(** [<=] on the two capacities: numbers compare as numbers, two texts as
    texts. *)
Example numbers_compare_by_value :
  Js.le (js := Sample.lib) (Some (JNum 9)) (Some (JNum 10)) = true.
Proof. reflexivity. Qed.

Example texts_compare_by_character :
  Js.le (js := Sample.lib) (Some (JStr "9")) (Some (JStr "10")) = false
  ∧ Js.le (js := Sample.lib) (Some (JStr "10")) (Some (JStr "2")) = true.
Proof. split; reflexivity. Qed.

Lemma parsePreferences_photos {js : JsLib} b w b' w' :
  parsePreferences b w = (Ok b', w') → b_photos b' = b_photos b ∧ w' = w.
Proof.
  unfold parsePreferences. repeat case_match; intros E; inversion E; subst; done.
Qed.

Lemma parsePreferences_throws {js : JsLib} b w e w' :
  parsePreferences b w = (Throw e, w') → w' = w.
Proof.
  unfold parsePreferences. repeat case_match; intros E; inversion E; subst; done.
Qed.

(** A document whose assignments were all cast holds, as [student], the
    value the body gave for it. *)
Lemma assign_student_cast {js : JsLib} d b u :
  b_student b = Some u → Mongoose.cast_errors (Mongoose.assign d b) = [] →
  student (Mongoose.doc (Mongoose.assign d b)) = Some u.
Proof.
  intros Hu. unfold Mongoose.assign. cbn. rewrite Hu. cbn.
  unfold Mongoose.cast_objectid. destruct (ObjectId_isValid u); [done |].
  cbn. intros E. apply app_eq_nil in E as [_ E]. discriminate.
Qed.

Lemma createHousingShare_owner {js : JsLib} (req : Req) (w w' : World)
    (code : Z) (s : Share) :
  createHousingShare req w = (Json code (PShare s), w') →
  student s = Some (user req) ∧ collection w' !! _id s = Some s.
Proof.
  unfold createHousingShare, handler.
  destruct (bool_decide (validation req = [])); cbn [negb]; [| by intros [=]].
  unfold mbind, M_bind.
  destruct (parsePreferences (sanitize (body req)) w) as [[b' | e] w1] eqn:EP;
    [| by intros [=]].
  destruct (gender_ok b'); cbn [negb]; [| by intros [=]].
  destruct ((if bool_decide (files req = []) then mret []
             else handlePhotoUpload (files req)) w1) as [[ps | e] w2] eqn:EU;
    [| by intros [=]].
  unfold Mongoose.new, Mongoose.save.
  set (d := Mongoose.assign _ _).
  destruct (Mongoose.cast_errors d ++ Mongoose.validate (Mongoose.doc d))
    eqn:EV; [| by intros [=]].
  cbn [log write_fails]. destruct (write_fails w2); [by intros [=] |].
  intros [= _ <- <-]. apply app_eq_nil in EV as [EC _]. split.
  - refine (assign_student_cast _ _ (user req) _ EC). reflexivity.
  - cbn [with_collection collection]. apply lookup_insert_eq.
Qed.

(** C10.  Every create that succeeds persists a record whose [student] is
    the authenticated caller, whatever [student] the body carried: the
    handler writes [req.user.userId] over the key after spreading the
    body. *)
Theorem create_owner_is_caller {js : JsLib} (optional : bool)
    (caller : string) (b : Body) (uploads : list string) (w : World)
    (code : Z) (s : Share) :
  (Routes.POST optional caller b uploads w).1 = Json code (PShare s) →
  student s = Some caller
  ∧ collection (Routes.POST optional caller b uploads w).2 !! _id s = Some s.
Proof.
  unfold Routes.POST.
  destruct (Routes.validateCreateShare optional b) as [b' errors].
  destruct (createHousingShare _ w) as [resp w'] eqn:E. cbn. intros ->.
  by apply createHousingShare_owner in E.
Qed.

(** Alice creates a listing with a body that names Bob as [student]: the
    listing stored is hers. *)
Lemma create_owner_witness :
  student (Sample.listing Sample.alice) = Some Sample.alice.
Proof.
  refine (proj1 (create_owner_is_caller (js := Sample.lib) false
                   Sample.alice
                   (with_student (Some Sample.bob)
                      (Sample.fields (JNum 2) (JNum 4)))
                   [ "o1"; "o2" ] Sample.empty_world 201
                   (Sample.listing Sample.alice) _)).
  vm_compute. reflexivity.
Defined.

(** What the create handler does get right: a request with a recorded
    validation error, or without a valid gender, is refused before any
    call to a store. *)
Lemma create_rejected_before_io {js : JsLib} req w :
  validation req ≠ [] →
  createHousingShare req w
  = (Next (AppError "Validation error" 400 (validation req)), w).
Proof.
  intros Hv. unfold createHousingShare, handler.
  by rewrite bool_decide_eq_false_2.
Qed.

Lemma create_invalid_gender_before_io {js : JsLib} req w :
  validation req = [] →
  (∀ s, b_preferences (body req) ≠ Some (PrefText s)) →
  gender_ok (body req) = false →
  createHousingShare req w
  = (Next (AppError "Invalid gender preference" 400 []), w).
Proof.
  intros Hv Hp Hg. unfold createHousingShare, handler, sanitize.
  rewrite bool_decide_eq_true_2 by done. cbn [negb].
  unfold mbind, M_bind.
  assert (parsePreferences (body req) w = (Ok (body req), w)) as ->.
  { unfold parsePreferences. destruct (b_preferences (body req)) as [[p | s] |];
      [done | by destruct (Hp s) | done]. }
  by rewrite Hg.
Qed.

(** A create whose two capacities are numbers, in the wrong order, is
    rejected by the route before any call to a store. *)
Lemma numeric_capacity_rejected {js : JsLib} optional caller b uploads w x y :
  b_totalCapacity b = Some (JNum x) → b_currentOccupants b = Some (JNum y) →
  (x <= y)%Q →
  Routes.POST optional caller b uploads w
  = (Next (AppError "Validation error" 400
             (Routes.validateCreateShare optional b).2), w)
  ∧ "totalCapacity" ∈ (Routes.validateCreateShare optional b).2.
Proof.
  intros Ht Hc Hxy.
  assert (Hin : "totalCapacity" ∈ (Routes.validateCreateShare optional b).2).
  { unfold Routes.validateCreateShare.
    repeat match goal with
      | |- context [ Routes.text_chain ?o ?c ?v ] =>
          destruct (Routes.text_chain o c v)
      end.
    cbn [snd]. unfold Routes.capacity_custom. rewrite Ht, Hc.
    rewrite bool_decide_eq_false_2, andb_false_r by done.
    unfold Js.le, Js.ToNumber, Js.num_le.
    apply Qle_bool_iff in Hxy. rewrite Hxy.
    rewrite !elem_of_app. do 7 right. left. right. by left. }
  split; [| done].
  unfold Routes.POST.
  destruct (Routes.validateCreateShare optional b) as [b' errors].
  cbn [snd] in *. apply create_rejected_before_io. cbn.
  intros ->. by apply elem_of_nil in Hin.
Qed.

(** ** Attaching photos *)

Lemma all_uploaded (r : string → option Photo) files new :
  Forall2 (λ f p, r f = Some p) files new →
  rejected r files = None
  ∧ uploaded r files = new
  ∧ upload_calls r files = upload_pairs files.
Proof.
  induction 1 as [| f p files new Hf _ (E1 & E2 & E3)]; [done |].
  cbn. by rewrite Hf, E1, E2, E3.
Qed.

Lemma upload_stops_at_rejection (r : string → option Photo) done f rest ps :
  Forall2 (λ g p, r g = Some p) done ps → r f = None →
  rejected r (done ++ f :: rest) = Some f
  ∧ uploaded r (done ++ f :: rest) = ps
  ∧ upload_calls r (done ++ f :: rest) = upload_pairs done ++ [ CloudUpload f ].
Proof.
  intros Hd Hf. induction Hd as [| g p done ps Hg _ (E1 & E2 & E3)].
  - cbn. by rewrite Hf.
  - cbn. by rewrite Hg, E1, E2, E3.
Qed.

(** C1, as the code has it.  When the files [done] are uploaded and the
    upload of the next file [f] is rejected, [handlePhotoUpload] throws
    that one rejection and stops: the files after [f] are not tried, no
    delete is issued, and the objects [ps] obtained for [done] stay in the
    object store next to what was there before the call.  Nothing new
    survives only when [f] is the first file. *)
Theorem failed_attach_keeps_uploaded (done : list string) (f : string)
    (rest : list string) (ps : list Photo) (w : World) :
  Forall2 (λ g p, upload_result w g = Some p) done ps →
  upload_result w f = None →
  handlePhotoUpload (done ++ f :: rest) w
  = (Throw (UploadError f),
     evolve w (ids ps ∪ objects w) (collection w)
            (upload_pairs done ++ [ CloudUpload f ]))
  ∧ (∀ pid, CloudDestroy pid ∉ upload_pairs done ++ [ CloudUpload f ])
  ∧ length ps = length done.
Proof.
  intros Hd Hf. rewrite handlePhotoUpload_run.
  destruct (upload_stops_at_rejection _ done f rest ps Hd Hf) as (-> & -> & ->).
  split; [done |]. split.
  - intros pid Hin. apply elem_of_app in Hin as [Hin | Hin].
    + unfold upload_pairs in Hin.
      apply list_elem_of_bind in Hin as (g & Hin & _). set_solver.
    + set_solver.
  - symmetry. by eapply Forall2_length.
Qed.

(** Three files, the second of which is rejected. *)
Lemma failed_attach_witness :
  handlePhotoUpload [ "f1"; "bad"; "f3" ] Sample.empty_world
  = (Throw (UploadError "bad"),
     evolve Sample.empty_world
       (ids [ mkPhoto "https://cdn/f1" "housing-shares/f1" ] ∪ ∅) ∅
       [ CloudUpload "f1"; FsUnlink "f1"; CloudUpload "bad" ]).
Proof.
  refine (proj1 (failed_attach_keeps_uploaded [ "f1" ] "bad" [ "f3" ]
                   [ mkPhoto "https://cdn/f1" "housing-shares/f1" ]
                   Sample.empty_world _ _)).
  - repeat constructor.
  - reflexivity.
Defined.

(** C1 as stated fails: with two files, the second rejected, the object
    store ends with one object more than before, and the trace holds no
    delete. *)
Lemma failed_attach_leaves_orphan :
  let r := handlePhotoUpload [ "f1"; "bad" ] Sample.empty_world in
  r.1 = Throw (UploadError "bad")
  ∧ trace r.2 = [ CloudUpload "f1"; FsUnlink "f1"; CloudUpload "bad" ]
  ∧ "housing-shares/f1" ∈ objects r.2
  ∧ objects r.2 ≠ objects Sample.empty_world.
Proof.
  assert (E : objects (handlePhotoUpload [ "f1"; "bad" ] Sample.empty_world).2
              = {[ "housing-shares/f1" ]}).
  { rewrite handlePhotoUpload_run. cbn. unfold ids. cbn. set_solver. }
  cbn zeta. rewrite E. split; [done |]. split; [done |].
  split; [set_solver |]. cbn. set_solver.
Qed.

(** The same through the create handler: the rejection reaches the
    caller as it is, and nothing is saved. *)
Lemma create_failed_attach {js : JsLib} req w done f rest ps p :
  validation req = [] →
  b_preferences (body req) = Some (PrefObj p) →
  gender_ok (body req) = true →
  files req = done ++ f :: rest →
  Forall2 (λ g q, upload_result w g = Some q) done ps →
  upload_result w f = None →
  createHousingShare req w
  = (Next (UploadError f),
     evolve w (ids ps ∪ objects w) (collection w)
            (upload_pairs done ++ [ CloudUpload f ])).
Proof.
  intros Hv Hp Hg Hfiles Hd Hf. unfold createHousingShare, handler, sanitize.
  rewrite bool_decide_eq_true_2 by done. cbn [negb].
  unfold mbind, M_bind, parsePreferences. rewrite Hp. cbn [mret M_ret].
  rewrite Hg. cbn [negb]. rewrite bool_decide_eq_false_2
    by (rewrite Hfiles; by destruct done).
  rewrite Hfiles, handlePhotoUpload_run.
  by destruct (upload_stops_at_rejection _ done f rest ps Hd Hf) as (-> & -> & ->).
Qed.

(** ** Validation and the stores *)

(** C4, evaluated where the code departs from it.

    First, a create sent as a multipart form: [totalCapacity] is the text
    "9" and [currentOccupants] the text "10".  The route compares the two
    texts, and "9" <= "10" is false for texts, so no error is recorded;
    the photo is uploaded and a record with a capacity of 9 for 10
    occupants is saved.

    Second, an update by the owner with a new photo and an invalid
    gender: the handler deletes the two stored photos and uploads the new
    one before it refuses the gender; the record still names the deleted
    photos. *)
Theorem validation_after_io (optional : bool) :
  (let r := Routes.POST (js := Sample.lib) optional Sample.alice
              (Sample.form "10" "9") [ "f1" ] Sample.empty_world in
   (∃ s, r.1 = Json 201 (PShare s))
   ∧ currentOccupants <$> collection r.2 !! Sample.id1 = Some (Some 10%Q)
   ∧ totalCapacity <$> collection r.2 !! Sample.id1 = Some (Some 9%Q)
   ∧ trace r.2 = [ CloudUpload "f1"; FsUnlink "f1"; DbSave Sample.id1 ])
  ∧ (let w := Sample.world_with_listing (λ _, false) in
     let r := Routes.PUT (js := Sample.lib) Sample.alice Sample.id1
                (Sample.only
                   (with_preferences
                      (Some (PrefObj (mkPrefs (Some "other") None None)))))
                [ "f9" ] w in
     r.1 = Next (AppError "Invalid gender preference" 400 [])
     ∧ trace r.2
       = [ DbFindOne Sample.id1 Sample.alice;
           CloudDestroy "housing-shares/o1"; CloudDestroy "housing-shares/o2";
           CloudUpload "f9"; FsUnlink "f9" ]
     ∧ elements (objects r.2) = [ "housing-shares/f9" ]
     ∧ photos <$> collection r.2 !! Sample.id1
       = Some [ Sample.old1; Sample.old2 ]).
Proof.
  cbn zeta. split.
  - destruct optional.
    + split; [eexists; vm_compute; reflexivity |]. by vm_compute.
    + split; [eexists; vm_compute; reflexivity |]. by vm_compute.
  - by vm_compute.
Qed.

(** ** Updating a listing *)

Lemma findOne_owned {js : JsLib} caller id w s :
  ObjectId_isValid caller = true →
  collection w !! id = Some s → student s = Some caller →
  Mongoose.findOne id caller w
  = (Ok (Some (Mongoose.mkDoc s [])), log (DbFindOne id caller) w).
Proof.
  intros Hc Hs Ho. unfold Mongoose.findOne. cbn [log collection].
  by rewrite Hc, Hs, bool_decide_eq_true_2.
Qed.

Lemma findOne_hidden {js : JsLib} caller id w :
  hidden_from caller id w →
  Mongoose.findOne id caller w
  = (if ObjectId_isValid caller then Ok None else Throw (CastError "student"),
     log (DbFindOne id caller) w).
Proof.
  unfold hidden_from, Mongoose.findOne. cbn [log collection].
  destruct (ObjectId_isValid caller); [| done].
  destruct (collection w !! id) as [s |]; [| done].
  intros Hs. by rewrite bool_decide_eq_false_2.
Qed.

Lemma all_destroyed fails ps :
  (∀ p, p ∈ ps → fails (publicId p) = false) →
  first_failed fails ps = None
  ∧ removed fails ps = publicId <$> ps
  ∧ attempted fails ps = publicId <$> ps.
Proof.
  induction ps as [| p ps IH]; intros Hp; [done |].
  cbn. rewrite (Hp p) by set_solver.
  destruct IH as (-> & -> & ->); [| done].
  intros q Hq. apply Hp. set_solver.
Qed.

Lemma update_commit_cases {js : JsLib} share body w :
  let id := _id (Mongoose.doc share) in
  ∃ resp c' rest,
    update_commit share body w = (resp, evolve w (objects w) c' rest)
    ∧ (rest = [] ∨ rest = [ DbSave id ])
    ∧ ((∃ s', resp = Json 200 (PShare s')
              ∧ photos s' = default (photos (Mongoose.doc share)) (b_photos body)
              ∧ c' = <[ id := s' ]> (collection w))
       ∨ (∃ e, resp = Next e ∧ c' = collection w)).
Proof.
  intros id. unfold update_commit, handler.
  unfold mbind at 1, M_bind at 1.
  match goal with
  | |- context [ (if preferences_truthy body then ?a else ?b) w ] =>
      set (check := (if preferences_truthy body then a else b) w)
  end.
  assert (Hc : (∃ e, check = (Throw e, w))
               ∨ (∃ b', check = (Ok b', w) ∧ b_photos b' = b_photos body)).
  { subst check. destruct (preferences_truthy body); [| right; by eexists].
    unfold mbind, M_bind.
    destruct (parsePreferences body w) as [[b' | e] w1] eqn:EP.
    - apply parsePreferences_photos in EP as [Hp ->].
      destruct (gender_ok b'); cbn [negb]; [right | left]; by eexists.
    - apply parsePreferences_throws in EP as ->. left. by eexists. }
  clearbody check. destruct Hc as [[e ->] | (b' & -> & Hp)].
  - exists (Next e), (collection w), []. rewrite evolve_id.
    split; [done |]. split; [by left |]. right. by eexists.
  - unfold mbind, M_bind, now, Mongoose.save. cbn [log write_fails].
    set (d := with_updatedAt _ _).
    assert (Hd : _id (Mongoose.doc d) = id) by done.
    assert (Hph : photos (Mongoose.doc d)
                  = default (photos (Mongoose.doc share)) (b_photos body))
      by (rewrite <- Hp; done).
    rewrite Hd. clearbody d.
    destruct (Mongoose.cast_errors d ++ Mongoose.validate (Mongoose.doc d))
      as [| x errs].
    + destruct (write_fails w) eqn:EW.
      * exists (Next MongoError), (collection w), [ DbSave id ].
        split; [done |]. split; [by right |]. right. by eexists.
      * exists (Json 200 (PShare (Mongoose.doc d))),
          (<[ id := Mongoose.doc d ]> (collection w)), [ DbSave id ].
        split; [done |]. split; [by right |]. left. by eexists.
    + exists (Next (ValidationError (x :: errs))), (collection w), [ DbSave id ].
      split; [done |]. split; [by right |]. right. by eexists.
Qed.

Lemma update_owned_with_files {js : JsLib} req w s new :
  ObjectId_isValid (params_id req) = true →
  ObjectId_isValid (user req) = true →
  collection w !! params_id req = Some s →
  student s = Some (user req) →
  files req ≠ [] →
  (∀ p, p ∈ photos s → destroy_fails w (publicId p) = false) →
  Forall2 (λ f p, upload_result w f = Some p) (files req) new →
  updateHousingShare req w
  = update_commit (Mongoose.mkDoc s []) (with_photos (Some new) (body req))
      (evolve w (ids new ∪ (objects w ∖ ids (photos s))) (collection w)
         ([ DbFindOne (params_id req) (user req) ]
          ++ (CloudDestroy <$> (publicId <$> photos s))
          ++ upload_pairs (files req))).
Proof.
  intros Hid Hu Hs Ho Hf Hd Hup.
  unfold updateHousingShare, update_commit, handler, sanitize.
  rewrite Hid. cbn [negb].
  unfold try_catch, mbind, M_bind.
  rewrite (findOne_owned _ _ _ s) by done.
  rewrite bool_decide_eq_false_2 by done. cbn [negb Mongoose.doc].
  rewrite deletePhotos_run. cbn [destroy_fails log].
  destruct (all_destroyed (destroy_fails w) (photos s) Hd) as (-> & -> & ->).
  rewrite handlePhotoUpload_run. cbn [upload_result evolve log].
  destruct (all_uploaded (upload_result w) (files req) new Hup) as (-> & -> & ->).
  cbn [mret M_ret]. rewrite evolve_evolve.
  cbn [objects collection evolve log].
  match goal with
  | |- context [ evolve ?a ?o ?c ?t ] =>
      replace (evolve a o c t)
        with (evolve w (ids new ∪ (objects w ∖ ids (photos s))) (collection w)
                ([ DbFindOne (params_id req) (user req) ]
                 ++ (CloudDestroy <$> (publicId <$> photos s))
                 ++ upload_pairs (files req)))
        by same_world
  end.
  done.
Qed.

(** C2, as the code has it.  An update by the owner that brings new files,
    the object store answering every call: the stored photos are deleted
    first, the new files are uploaded next, and the record is saved last,
    if at all.  So the new media is attached before the commit, and the
    old media is released before it too.  Whatever the commit does, the
    object store ends without the old photos and with the new ones; when
    the commit fails the collection is what it was, and nothing is rolled
    back. *)
Theorem update_replaces_media {js : JsLib} (req : Req) (w : World)
    (s : Share) (new : list Photo) :
  ObjectId_isValid (params_id req) = true →
  ObjectId_isValid (user req) = true →
  collection w !! params_id req = Some s →
  student s = Some (user req) →
  files req ≠ [] →
  (∀ p, p ∈ photos s → destroy_fails w (publicId p) = false) →
  Forall2 (λ f p, upload_result w f = Some p) (files req) new →
  let r := updateHousingShare req w in
  objects r.2 = ids new ∪ (objects w ∖ ids (photos s))
  ∧ (∃ rest,
       trace r.2
       = trace w ++ [ DbFindOne (params_id req) (user req) ]
         ++ (CloudDestroy <$> (publicId <$> photos s))
         ++ upload_pairs (files req) ++ rest
       ∧ (rest = [] ∨ rest = [ DbSave (_id s) ]))
  ∧ ((∃ s', r.1 = Json 200 (PShare s') ∧ photos s' = new
            ∧ collection r.2 = <[ _id s := s' ]> (collection w))
     ∨ (∃ e, r.1 = Next e ∧ collection r.2 = collection w)).
Proof.
  intros Hid Hu Hs Ho Hf Hd Hup r. subst r.
  rewrite (update_owned_with_files req w s new) by done.
  match goal with
  | |- context [ update_commit ?d ?b ?w1 ] =>
      destruct (update_commit_cases d b w1) as (resp & c' & rest & -> & Hr & Hc)
  end.
  cbn [fst snd objects collection trace evolve].
  split; [done |]. split; [| exact Hc].
  exists rest. split; [by rewrite <- !app_assoc | exact Hr].
Qed.

(** Alice replaces the two photos of her listing by one. *)
Lemma update_replaces_media_witness :
  objects (updateHousingShare (js := Sample.lib)
             (mkReq Sample.alice Sample.id1 emptyBody [ "f1" ] emptyQuery [])
             (Sample.world_with_listing (λ _, false))).2
  = ids [ mkPhoto "https://cdn/f1" "housing-shares/f1" ]
    ∪ (ids [ Sample.old1; Sample.old2 ] ∖ ids [ Sample.old1; Sample.old2 ]).
Proof.
  refine (proj1 (update_replaces_media (js := Sample.lib)
                   (mkReq Sample.alice Sample.id1 emptyBody [ "f1" ] emptyQuery [])
                   (Sample.world_with_listing (λ _, false))
                   (Sample.listing Sample.alice)
                   [ mkPhoto "https://cdn/f1" "housing-shares/f1" ]
                   _ _ _ _ _ _ _)).
  - reflexivity.
  - reflexivity.
  - reflexivity.
  - reflexivity.
  - discriminate.
  - reflexivity.
  - repeat constructor.
Defined.

(** C2 as stated fails: an update with one new photo and a status that
    the schema refuses.  The commit fails and the record is untouched, but
    the two old photos are gone, the new one is still there, and the
    deletions come before the save in the trace. *)
Lemma replace_releases_before_commit :
  let w := Sample.world_with_listing (λ _, false) in
  let r := Routes.PUT (js := Sample.lib) Sample.alice Sample.id1
             (Sample.only (Sample.with_status "occupied")) [ "f1" ] w in
  r.1 = Next (ValidationError [ "status" ])
  ∧ collection r.2 = collection w
  ∧ elements (objects w) = [ "housing-shares/o1"; "housing-shares/o2" ]
  ∧ elements (objects r.2) = [ "housing-shares/f1" ]
  ∧ ¬ release_after_commit (trace r.2).
Proof.
  cbn zeta. split; [by vm_compute |]. split; [by vm_compute |].
  split; [by vm_compute |]. split; [by vm_compute |].
  intros Hr. specialize (Hr 1%nat 5%nat "housing-shares/o1" Sample.id1).
  assert (5 < 1)%nat; [| lia]. apply Hr; by vm_compute.
Qed.

(** C3, evaluated where the code departs from it.  The stored listing has
    a capacity of 4; its owner sends only [currentOccupants = 5], as form
    text or as a JSON number.  The
    chains of the route record no error (the check of the two capacities
    belongs to [totalCapacity], which is absent, and the handler would not
    read the errors anyway), the update succeeds, and the record stored
    has 5 occupants for a capacity of 4. *)
Theorem update_breaks_capacity_order :
  let w := Sample.world_with_listing (λ _, false) in
  let b v := Sample.only (Sample.with_currentOccupants v) in
  let r v := Routes.PUT (js := Sample.lib) Sample.alice Sample.id1 (b v) [] w in
  let accepted v :=
    Routes.validateCreateShare (js := Sample.lib) true (b v) = (b v, [])
    ∧ (∃ s, (r v).1 = Json 200 (PShare s))
    ∧ currentOccupants <$> collection (r v).2 !! Sample.id1 = Some (Some 5%Q)
    ∧ totalCapacity <$> collection (r v).2 !! Sample.id1 = Some (Some 4%Q) in
  totalCapacity <$> collection w !! Sample.id1 = Some (Some 4%Q)
  ∧ accepted (JStr "5")
  ∧ accepted (JNum 5).
Proof.
  cbn zeta. split; [by vm_compute |].
  split; (split; [by vm_compute |]; split; [| split; by vm_compute];
          eexists; vm_compute; reflexivity).
Qed.

(** C6, evaluated where the code departs from it.  Alice updates her
    listing with a body whose only key is [student], naming Bob:
    [Object.assign] copies the key, the update succeeds, and the record
    stored belongs to Bob. *)
Theorem update_reassigns_owner :
  let w := Sample.world_with_listing (λ _, false) in
  let r := Routes.PUT (js := Sample.lib) Sample.alice Sample.id1
             (Sample.only (with_student (Some Sample.bob))) [] w in
  student <$> collection w !! Sample.id1 = Some (Some Sample.alice)
  ∧ (∃ s, r.1 = Json 200 (PShare s) ∧ student s = Some Sample.bob)
  ∧ student <$> collection r.2 !! Sample.id1 = Some (Some Sample.bob).
Proof.
  cbn zeta. split; [by vm_compute |]. split; [| by vm_compute].
  eexists. split; [vm_compute; reflexivity | reflexivity].
Qed.

(** The same for every update that succeeds: a [student] in the body is
    the [student] of the record afterwards. *)
Lemma update_commit_student {js : JsLib} share b w s u :
  (update_commit share b w).1 = Json 200 (PShare s) →
  b_student b = Some u → student s = Some u.
Proof.
  unfold update_commit, handler. unfold mbind at 1, M_bind at 1.
  match goal with
  | |- context [ (if preferences_truthy b then ?x else ?y) w ] =>
      destruct ((if preferences_truthy b then x else y) w)
        as [[b' | e] w1] eqn:EC
  end; [| by intros [=]].
  assert (Hb : b_student b' = b_student b).
  { destruct (preferences_truthy b); [| by inversion EC].
    unfold mbind, M_bind in EC.
    destruct (parsePreferences b w) as [[b1 | e] w2] eqn:EP; [| done].
    destruct (gender_ok b1); cbn [negb] in EC; [| done].
    inversion EC; subst. unfold parsePreferences in EP.
    repeat case_match; inversion EP; subst; done. }
  unfold mbind, M_bind, now, Mongoose.save. cbn [log write_fails].
  set (d := Mongoose.assign share b').
  destruct (Mongoose.cast_errors (with_updatedAt (clock w1) d)
            ++ Mongoose.validate (Mongoose.doc (with_updatedAt (clock w1) d)))
    eqn:EV; [| by intros [=]].
  destruct (write_fails w1); [by intros [=] |].
  cbn. intros [= <-] Hu. cbn.
  apply app_eq_nil in EV as [EV _]. cbn in EV.
  refine (assign_student_cast share b' u _ EV). by rewrite Hb.
Qed.

Lemma update_owned_without_files {js : JsLib} req w s :
  ObjectId_isValid (params_id req) = true →
  ObjectId_isValid (user req) = true →
  collection w !! params_id req = Some s →
  student s = Some (user req) →
  files req = [] →
  updateHousingShare req w
  = update_commit (Mongoose.mkDoc s []) (body req)
      (log (DbFindOne (params_id req) (user req)) w).
Proof.
  intros Hid Hu Hs Ho Hf.
  unfold updateHousingShare, update_commit, handler, sanitize.
  rewrite Hid. cbn [negb]. unfold mbind at 1, M_bind at 1.
  rewrite (findOne_owned _ _ _ s) by done.
  rewrite bool_decide_eq_true_2 by done. cbn [negb].
  unfold mbind at 1, M_bind at 1. by cbn [mret M_ret].
Qed.

(** Any owner can hand a listing over: an update without files whose body
    names [u] as [student] either fails or stores [u] as the owner. *)
Lemma update_assigns_student {js : JsLib} req w s s' u :
  ObjectId_isValid (params_id req) = true →
  ObjectId_isValid (user req) = true →
  collection w !! params_id req = Some s →
  student s = Some (user req) →
  files req = [] →
  b_student (body req) = Some u →
  (updateHousingShare req w).1 = Json 200 (PShare s') →
  student s' = Some u.
Proof.
  intros Hid Hu Hs Ho Hf Hb. rewrite (update_owned_without_files req w s) by done.
  intros Hr. by eapply update_commit_student.
Qed.

Lemma update_hidden {js : JsLib} req w :
  hidden_from (user req) (params_id req) w →
  updateHousingShare req w
  = (hidden_response (user req) (params_id req),
     hidden_world (user req) (params_id req) w).
Proof.
  intros Hh. unfold updateHousingShare, handler, hidden_response, hidden_world.
  unfold sanitize. destruct (ObjectId_isValid (params_id req)); cbn [negb]; [| done].
  unfold mbind, M_bind. rewrite findOne_hidden by done.
  by destruct (ObjectId_isValid (user req)).
Qed.

Lemma delete_hidden {js : JsLib} req w :
  hidden_from (user req) (params_id req) w →
  deleteHousingShare req w
  = (hidden_response (user req) (params_id req),
     hidden_world (user req) (params_id req) w).
Proof.
  intros Hh. unfold deleteHousingShare, handler, hidden_response, hidden_world.
  unfold sanitize. destruct (ObjectId_isValid (params_id req)); cbn [negb]; [| done].
  unfold mbind, M_bind. rewrite findOne_hidden by done.
  by destruct (ObjectId_isValid (user req)).
Qed.

(** C7.  A caller to whom a listing is hidden, because it does not exist
    or because it belongs to somebody else, gets the same response to an
    update, and to a delete, in both cases: the lookup is by id and owner
    at once, and a miss is answered by one message.  With valid ids the
    response is the 404 "not found or unauthorized". *)
Theorem hidden_listing_indistinguishable {js : JsLib} (caller id : string)
    (b : Body) (uploads : list string) (w1 w2 : World) :
  hidden_from caller id w1 → hidden_from caller id w2 →
  (Routes.PUT caller id b uploads w1).1 = (Routes.PUT caller id b uploads w2).1
  ∧ (Routes.DELETE caller id w1).1 = (Routes.DELETE caller id w2).1
  ∧ (Routes.PUT caller id b uploads w1).1 = hidden_response caller id
  ∧ (Routes.DELETE caller id w1).1 = hidden_response caller id.
Proof.
  intros H1 H2. unfold Routes.PUT, Routes.DELETE.
  destruct (Routes.validateCreateShare true b) as [b' errors].
  rewrite !update_hidden, !delete_hidden by done. done.
Qed.

(** Bob updates an id that does not exist, then Alice's listing. *)
Lemma hidden_listing_witness :
  (Routes.PUT (js := Sample.lib) Sample.bob Sample.id1
     (Sample.only (Sample.with_currentOccupants (JNum 3))) []
     Sample.empty_world).1
  = (Routes.PUT (js := Sample.lib) Sample.bob Sample.id1
       (Sample.only (Sample.with_currentOccupants (JNum 3))) []
       (Sample.world_with_listing (λ _, false))).1.
Proof.
  refine (proj1 (hidden_listing_indistinguishable (js := Sample.lib)
                   Sample.bob Sample.id1 _ [] Sample.empty_world
                   (Sample.world_with_listing (λ _, false)) _ _)).
  - vm_compute. exact I.
  - vm_compute. discriminate.
Defined.


(** ** Deleting a listing *)

Lemma delete_owned {js : JsLib} req w s :
  ObjectId_isValid (params_id req) = true →
  ObjectId_isValid (user req) = true →
  collection w !! params_id req = Some s →
  student s = Some (user req) →
  deleteHousingShare req w
  = (if write_fails w then Next MongoError
     else Json 200 (PMessage "success" "Housing share deleted successfully"),
     evolve w (objects w ∖ list_to_set (removed (destroy_fails w) (photos s)))
       (if write_fails w then collection w else delete (_id s) (collection w))
       ([ DbFindOne (params_id req) (user req) ]
        ++ (CloudDestroy <$> attempted (destroy_fails w) (photos s))
        ++ [ DbDeleteOne (_id s) ])).
Proof.
  intros Hid Hu Hs Ho.
  unfold deleteHousingShare, handler, sanitize. rewrite Hid. cbn [negb].
  unfold try_catch, mbind, M_bind.
  rewrite (findOne_owned _ _ _ s) by done. cbn [Mongoose.doc].
  rewrite deletePhotos_run. cbn [destroy_fails log].
  assert (Hend : ∀ w1, write_fails w1 = write_fails w →
            (let (o, w') := Mongoose.deleteOne (Mongoose.mkDoc s []) w1 in
             match o with
             | Ok _ => (Ok (Json 200 (PMessage "success"
                                "Housing share deleted successfully")), w')
             | Throw e => (Throw e, w')
             end)
            = (if write_fails w then Throw MongoError
               else Ok (Json 200 (PMessage "success"
                                "Housing share deleted successfully")),
               evolve w1 (objects w1)
                 (if write_fails w then collection w1
                  else delete (_id s) (collection w1))
                 [ DbDeleteOne (_id s) ])).
  { intros w1 Hw. unfold Mongoose.deleteOne. cbn [log write_fails Mongoose.doc].
    rewrite Hw. by destruct (write_fails w). }
  destruct (first_failed (destroy_fails w) (photos s)); cbn [mret M_ret];
    rewrite Hend by done; rewrite evolve_evolve;
    destruct (write_fails w); f_equal; same_world.
Qed.

(** C5, as the code has it.  A delete by the owner of a stored listing,
    the record store accepting the removal: the photos are released
    first, one by one up to the first deletion that fails, whose error is
    dropped; the record is removed after that; the caller gets the plain
    acknowledgement, which has no place for warnings.  The record is
    absent afterwards, whatever happened to the photos. *)
Theorem delete_releases_then_removes {js : JsLib} (req : Req) (w : World)
    (s : Share) :
  ObjectId_isValid (params_id req) = true →
  ObjectId_isValid (user req) = true →
  collection w !! params_id req = Some s →
  student s = Some (user req) →
  _id s = params_id req →
  write_fails w = false →
  deleteHousingShare req w
  = (Json 200 (PMessage "success" "Housing share deleted successfully"),
     evolve w (objects w ∖ list_to_set (removed (destroy_fails w) (photos s)))
       (delete (params_id req) (collection w))
       ([ DbFindOne (params_id req) (user req) ]
        ++ (CloudDestroy <$> attempted (destroy_fails w) (photos s))
        ++ [ DbDeleteOne (params_id req) ]))
  ∧ collection (deleteHousingShare req w).2 !! params_id req = None.
Proof.
  intros Hid Hu Hs Ho Hkey Hw.
  rewrite (delete_owned req w s) by done. rewrite Hw, Hkey.
  split; [done |]. cbn. apply lookup_delete_eq.
Qed.

(** Alice deletes her listing while the deletion of its second photo
    fails. *)
Lemma delete_witness :
  collection (deleteHousingShare (js := Sample.lib)
                (mkReq Sample.alice Sample.id1 emptyBody [] emptyQuery [])
                (Sample.world_with_listing
                   (λ pid, String.eqb pid "housing-shares/o2"))).2
  !! Sample.id1 = None.
Proof.
  refine (proj2 (delete_releases_then_removes (js := Sample.lib)
                   (mkReq Sample.alice Sample.id1 emptyBody [] emptyQuery [])
                   (Sample.world_with_listing
                      (λ pid, String.eqb pid "housing-shares/o2"))
                   (Sample.listing Sample.alice) _ _ _ _ _ _));
    reflexivity.
Defined.

(** C5 as stated fails: the deletion of the first photo is refused.  The
    caller gets the acknowledgement with no warning, the second photo is
    never tried and both objects stay, and the release comes before the
    removal of the record in the trace. *)
Lemma delete_releases_first_without_warnings :
  let w := Sample.world_with_listing
             (λ pid, String.eqb pid "housing-shares/o1") in
  let r := Routes.DELETE (js := Sample.lib) Sample.alice Sample.id1 w in
  r.1 = Json 200 (PMessage "success" "Housing share deleted successfully")
  ∧ trace r.2
    = [ DbFindOne Sample.id1 Sample.alice; CloudDestroy "housing-shares/o1";
        DbDeleteOne Sample.id1 ]
  ∧ elements (objects r.2) = [ "housing-shares/o1"; "housing-shares/o2" ]
  ∧ ¬ removal_first (trace r.2).
Proof.
  cbn zeta. split; [by vm_compute |]. split; [by vm_compute |].
  split; [by vm_compute |].
  intros Hr. specialize (Hr 1%nat 2%nat "housing-shares/o1" Sample.id1).
  assert (2 < 1)%nat; [| lia]. apply Hr; by vm_compute.
Qed.

(** * Further properties of the handlers *)

Lemma findOne_cases {js : JsLib} id user w :
  ∃ r, Mongoose.findOne id user w = (r, log (DbFindOne id user) w)
       ∧ (r = Throw (CastError "student") ∨ r = Ok None
          ∨ ∃ s, r = Ok (Some (Mongoose.mkDoc s []))
                 ∧ collection w !! id = Some s ∧ student s = Some user).
Proof.
  unfold Mongoose.findOne. cbn [log collection].
  destruct (ObjectId_isValid user); [| eexists; split; [done | by left]].
  destruct (collection w !! id) as [s |] eqn:E;
    [| eexists; split; [done | right; by left]].
  destruct (bool_decide (student s = Some user)) eqn:Eo.
  - apply bool_decide_eq_true in Eo. eexists. split; [done |].
    right. right. by exists s.
  - eexists. split; [done | right; by left].
Qed.

(** How [update_commit] ends: an error and no write, or a valid document
    written under the id it had. *)
Lemma update_commit_outcome {js : JsLib} share body w :
  ∃ r c t,
    update_commit share body w = (r, evolve w (objects w) c t)
    ∧ (t = [] ∨ t = [ DbSave (_id (Mongoose.doc share)) ])
    ∧ ((∃ e, r = Next e ∧ c = collection w)
       ∨ (∃ s', r = Json 200 (PShare s')
                ∧ c = <[ _id s' := s' ]> (collection w)
                ∧ _id s' = _id (Mongoose.doc share)
                ∧ Mongoose.validate s' = []
                ∧ updatedAt s' = clock w
                ∧ write_fails w = false)).
Proof.
  unfold update_commit, handler. unfold mbind at 1, M_bind at 1.
  match goal with
  | |- context [ (if preferences_truthy body then ?a else ?b) w ] =>
      set (check := (if preferences_truthy body then a else b) w)
  end.
  assert (Hc : (∃ e, check = (Throw e, w)) ∨ (∃ b', check = (Ok b', w))).
  { subst check. destruct (preferences_truthy body); [| right; by eexists].
    unfold mbind, M_bind.
    destruct (parsePreferences body w) as [[b' | e] w1] eqn:EP.
    - apply parsePreferences_photos in EP as [_ ->].
      destruct (gender_ok b'); cbn [negb]; [right | left]; by eexists.
    - apply parsePreferences_throws in EP as ->. left. by eexists. }
  clearbody check. destruct Hc as [[e ->] | (b' & ->)].
  - exists (Next e), (collection w), []. rewrite evolve_id.
    split; [done |]. split; [by left |]. left. by eexists.
  - unfold mbind, M_bind, now, Mongoose.save. cbn [log write_fails].
    set (d := with_updatedAt _ _).
    assert (Hd : _id (Mongoose.doc d) = _id (Mongoose.doc share)) by done.
    assert (Hu : updatedAt (Mongoose.doc d) = clock w) by done.
    clearbody d.
    destruct (Mongoose.cast_errors d ++ Mongoose.validate (Mongoose.doc d))
      as [| x errs] eqn:EV.
    + destruct (write_fails w) eqn:EW.
      * exists (Next MongoError), (collection w), [ DbSave (_id (Mongoose.doc share)) ].
        rewrite Hd. split; [done |]. split; [by right |]. left. by eexists.
      * apply app_eq_nil in EV as [_ EV].
        exists (Json 200 (PShare (Mongoose.doc d))),
          (<[ _id (Mongoose.doc d) := Mongoose.doc d ]> (collection w)),
          [ DbSave (_id (Mongoose.doc share)) ].
        rewrite Hd. split; [done |]. split; [by right |]. right.
        exists (Mongoose.doc d). by rewrite Hd.
    + exists (Next (ValidationError (x :: errs))), (collection w),
        [ DbSave (_id (Mongoose.doc share)) ].
      rewrite Hd. split; [done |]. split; [by right |]. left. by eexists.
Qed.

Lemma upload_calls_kinds r fs c :
  c ∈ upload_calls r fs → (∃ f, c = CloudUpload f) ∨ (∃ f, c = FsUnlink f).
Proof.
  induction fs as [| f fs IH]; cbn; [by intros ?%elem_of_nil |].
  intros [-> | Hc]%elem_of_cons; [left; by eexists |].
  destruct (r f); [| by apply elem_of_nil in Hc].
  apply elem_of_cons in Hc as [-> | Hc]; [right; by eexists | by apply IH].
Qed.

Lemma rejected_none_uploaded r fs :
  rejected r fs = None → Forall2 (λ f p, r f = Some p) fs (uploaded r fs).
Proof.
  induction fs as [| f fs IH]; cbn; [constructor |].
  destruct (r f) eqn:E; [| done]. intros Hr. constructor; [done | by apply IH].
Qed.

(** The photo handling of an update, run to its end: whatever happens,
    the collection is the one it found and no write to it is made. *)
Lemma update_photos_outcome {js : JsLib} (ps : list Photo) (fs : list string)
    (b : Body) w :
  ∃ r o t,
    try_catch
      (_ ← deletePhotos ps;
       newPhotos ← handlePhotoUpload fs;
       mret (with_photos (Some newPhotos) b))
      (λ _, throw (AppError "Error processing photos" 500 [])) w
    = (r, evolve w o (collection w) t)
    ∧ (∀ c, c ∈ t → (∃ x, c = CloudDestroy x) ∨ (∃ x, c = CloudUpload x)
                    ∨ (∃ x, c = FsUnlink x))
    ∧ ((r = Throw (AppError "Error processing photos" 500 [])
        ∧ (first_failed (destroy_fails w) ps ≠ None
           ∨ rejected (upload_result w) fs ≠ None))
       ∨ (∃ new, r = Ok (with_photos (Some new) b)
                 ∧ Forall2 (λ f p, upload_result w f = Some p) fs new
                 ∧ first_failed (destroy_fails w) ps = None)).
Proof.
  unfold try_catch, mbind, M_bind. rewrite deletePhotos_run.
  destruct (first_failed (destroy_fails w) ps) as [pid |] eqn:Ef.
  - eexists _, _, _. split; [reflexivity |]. split.
    + intros c (x & -> & _)%list_elem_of_fmap. left. by eexists.
    + left. split; [done | by left].
  - rewrite handlePhotoUpload_run. cbn [upload_result evolve objects collection].
    destruct (rejected (upload_result w) fs) as [f |] eqn:Er.
    + eexists _, _, _. rewrite evolve_evolve. split; [reflexivity |]. split.
      * intros c [(x & -> & _)%list_elem_of_fmap | Hc%upload_calls_kinds]%elem_of_app;
          [left; by eexists | right; exact Hc].
      * left. split; [done | by right].
    + eexists _, _, _. cbn [mret M_ret]. rewrite evolve_evolve.
      split; [reflexivity |]. split.
      * intros c [(x & -> & _)%list_elem_of_fmap | Hc%upload_calls_kinds]%elem_of_app;
          [left; by eexists | right; exact Hc].
      * right. eexists. split; [done |]. split; [| done].
        by apply rejected_none_uploaded.
Qed.

(** Every way an update can end: the collection is untouched and the
    answer is an error, or the caller's own listing was found and a valid
    document is written in its place.  No record is ever removed. *)
Lemma update_outcome {js : JsLib} req w r w' :
  updateHousingShare req w = (r, w') →
  ∃ o c t,
    w' = evolve w o c t
    ∧ (∀ id, DbDeleteOne id ∉ t)
    ∧ ((c = collection w ∧ ∃ e, r = Next e)
       ∨ (∃ s s', collection w !! params_id req = Some s
                  ∧ student s = Some (user req)
                  ∧ r = Json 200 (PShare s')
                  ∧ c = <[ _id s := s' ]> (collection w)
                  ∧ _id s' = _id s
                  ∧ Mongoose.validate s' = []
                  ∧ updatedAt s' = clock w)).
Proof.
  unfold updateHousingShare, handler, sanitize.
  destruct (ObjectId_isValid (params_id req)); cbn [negb].
  2:{ intros [= <- <-]. exists (objects w), (collection w), [].
      rewrite evolve_id. split; [done |]. split; [by intros ? ?%elem_of_nil |].
      left. split; [done | by eexists]. }
  unfold mbind at 1, M_bind at 1.
  destruct (findOne_cases (params_id req) (user req) w)
    as (r0 & -> & [-> | [-> | (s & -> & Hs & Ho)]]).
  - intros [= <- <-]. exists (objects w), (collection w), [ DbFindOne (params_id req) (user req) ].
    split; [reflexivity |]. split; [by intros ? [=]%list_elem_of_singleton |].
    left. split; [done | by eexists].
  - intros [= <- <-]. exists (objects w), (collection w), [ DbFindOne (params_id req) (user req) ].
    split; [reflexivity |]. split; [by intros ? [=]%list_elem_of_singleton |].
    left. split; [done | by eexists].
  - cbn [Mongoose.doc]. unfold mbind at 1, M_bind at 1.
    set (w1 := log (DbFindOne (params_id req) (user req)) w).
    match goal with
    | |- context [ (if negb (bool_decide (files req = [])) then ?a else ?b) w1 ] =>
        assert (Hph : ∃ rb o t,
                  (if negb (bool_decide (files req = [])) then a else b) w1
                  = (rb, evolve w1 o (collection w1) t)
                  ∧ (∀ c, c ∈ t → (∃ x, c = CloudDestroy x)
                                  ∨ (∃ x, c = CloudUpload x)
                                  ∨ (∃ x, c = FsUnlink x)))
    end.
    { destruct (bool_decide (files req = [])); cbn [negb].
      - exists (Ok (body req)), (objects w1), []. rewrite evolve_id.
        split; [done | by intros ? ?%elem_of_nil].
      - destruct (update_photos_outcome (photos s) (files req) (body req) w1)
          as (rb & o & t & E & Ht & _). by exists rb, o, t. }
    destruct Hph as (rb & o & t & -> & Ht).
    assert (Hnd : ∀ id, DbDeleteOne id ∉ t).
    { intros id Hin. apply Ht in Hin as [[x Hx] | [[x Hx] | [x Hx]]]; discriminate. }
    destruct rb as [b' | e].
    + intros E.
      change (update_commit (Mongoose.mkDoc s []) b'
                (evolve w1 o (collection w1) t) = (r, w')) in E.
      destruct (update_commit_outcome (Mongoose.mkDoc s []) b'
                  (evolve w1 o (collection w1) t))
        as (r1 & c & t' & E1 & Ht' & Hr).
      rewrite E1 in E. injection E as <- <-.
      exists o, c, ([ DbFindOne (params_id req) (user req) ] ++ t ++ t').
      split; [unfold w1, evolve, log; cbn; f_equal; by rewrite <- !app_assoc |].
      split.
      { intros id [[=]%list_elem_of_singleton | [Hin | Hin]%elem_of_app]%elem_of_app.
        - by apply (Hnd id).
        - destruct Ht' as [-> | ->]; [by apply elem_of_nil in Hin |].
          by apply list_elem_of_singleton in Hin. }
      destruct Hr as [(e & -> & ->) | (s' & -> & -> & Hid & Hv & Hu & _)].
      * left. split; [done | by eexists].
      * right. exists s, s'. cbn in Hid. rewrite Hid. done.
    + intros [= <- <-].
      exists o, (collection w), ([ DbFindOne (params_id req) (user req) ] ++ t).
      split; [unfold w1, evolve, log; cbn; f_equal; by rewrite <- !app_assoc |].
      split.
      { intros id [[=]%list_elem_of_singleton | Hin]%elem_of_app. by apply (Hnd id). }
      left. split; [done | by eexists].
Qed.

Lemma assign_blank_fields {js : JsLib} w0 (photos0 : list Photo) (u : string) b :
  let d := Mongoose.assign
             (Mongoose.mkDoc
                (mkShare (new_id w0) None None None None None None None None
                         None None [] [] (mkPrefs None None None)
                         (Some "available") (clock w0) (clock w0)) [])
             (with_photos (Some photos0) (with_student (Some u) b)) in
  _id (Mongoose.doc d) = new_id w0
  ∧ photos (Mongoose.doc d) = photos0
  ∧ status (Mongoose.doc d) = Some (default "available" (b_status b))
  ∧ governorate (Mongoose.doc d) = b_governorate b.
Proof. cbn. repeat split; by destruct (b_status b), (b_governorate b). Qed.

(** Every way a create can end: an error and an untouched collection, or
    one valid document added under a new id.  Nothing is ever deleted. *)
Lemma create_outcome {js : JsLib} req w r w' :
  createHousingShare req w = (r, w') →
  ∃ o c t,
    w' = evolve w o c t
    ∧ objects w ⊆ o
    ∧ (∀ x, x ∈ t → (∃ f, x = CloudUpload f) ∨ (∃ f, x = FsUnlink f)
                    ∨ x = DbSave (new_id w))
    ∧ ((c = collection w ∧ ∃ e, r = Next e)
       ∨ (∃ s, r = Json 201 (PShare s)
               ∧ c = <[ _id s := s ]> (collection w)
               ∧ _id s = new_id w
               ∧ Mongoose.validate s = []
               ∧ student s = Some (user req)
               ∧ validation req = []
               ∧ Forall2 (λ f p, upload_result w f = Some p) (files req) (photos s)
               ∧ o = ids (photos s) ∪ objects w
               ∧ (∃ b', parsePreferences (body req) w = (Ok b', w)
                        ∧ status s = Some (default "available" (b_status b'))
                        ∧ governorate s = b_governorate b'))).
Proof.
  unfold createHousingShare, handler, sanitize.
  destruct (bool_decide (validation req = [])) eqn:Ev; cbn [negb].
  2:{ intros [= <- <-]. exists (objects w), (collection w), []. rewrite evolve_id.
      split; [done |]. split; [done |]. split; [by intros ? ?%elem_of_nil |].
      left. split; [done | by eexists]. }
  apply bool_decide_eq_true in Ev.
  unfold mbind at 1, M_bind at 1.
  destruct (parsePreferences (body req) w) as [[b' | e] w1] eqn:EP.
  2:{ apply parsePreferences_throws in EP as ->. intros [= <- <-].
      exists (objects w), (collection w), []. rewrite evolve_id.
      split; [done |]. split; [done |]. split; [by intros ? ?%elem_of_nil |].
      left. split; [done | by eexists]. }
  pose proof EP as EP'. apply parsePreferences_photos in EP' as [_ ->].
  destruct (gender_ok b'); cbn [negb].
  2:{ intros [= <- <-]. exists (objects w), (collection w), []. rewrite evolve_id.
      split; [done |]. split; [done |]. split; [by intros ? ?%elem_of_nil |].
      left. split; [done | by eexists]. }
  unfold mbind at 1, M_bind at 1.
  assert (Hup : ∃ rp,
            (if bool_decide (files req = []) then mret []
             else handlePhotoUpload (files req)) w
            = (rp, evolve w (ids (uploaded (upload_result w) (files req)) ∪ objects w)
                     (collection w) (upload_calls (upload_result w) (files req)))
            ∧ ((∃ e, rp = Throw e)
               ∨ (rp = Ok (uploaded (upload_result w) (files req))
                  ∧ Forall2 (λ f p, upload_result w f = Some p) (files req)
                       (uploaded (upload_result w) (files req))))).
  { destruct (bool_decide (files req = [])) eqn:Ef.
    - apply bool_decide_eq_true in Ef. rewrite Ef. cbn.
      exists (Ok []). split; [| right; split; [done | constructor]].
      f_equal. rewrite <- (evolve_id w) at 1. same_world.
    - rewrite handlePhotoUpload_run.
      destruct (rejected (upload_result w) (files req)) eqn:Er.
      + eexists. split; [done |]. left. by eexists.
      + eexists. split; [done |]. right. split; [done |].
        by apply rejected_none_uploaded. }
  destruct Hup as (rp & -> & Hrp).
  set (o := ids (uploaded (upload_result w) (files req)) ∪ objects w).
  set (t := upload_calls (upload_result w) (files req)).
  assert (Ho : objects w ⊆ o) by (subst o; set_solver).
  assert (Ht : ∀ x, x ∈ t → (∃ f, x = CloudUpload f) ∨ (∃ f, x = FsUnlink f))
    by (intros x; apply upload_calls_kinds).
  destruct Hrp as [[e ->] | [-> Hf]].
  { intros [= <- <-]. exists o, (collection w), t.
    split; [done |]. split; [done |]. split; [naive_solver |].
    left. split; [done | by eexists]. }
  unfold mbind, M_bind, Mongoose.new, Mongoose.save.
  cbn [new_id clock evolve log write_fails collection].
  match goal with
  | |- context [ Mongoose.assign ?d0 ?b0 ] =>
      destruct (assign_blank_fields w (uploaded (upload_result w) (files req))
                  (user req) b') as (Hid & Hph & Hst & Hgo);
      set (d := Mongoose.assign d0 b0) in *
  end.
  assert (Hsave : ∀ x, x ∈ t ++ [ DbSave (_id (Mongoose.doc d)) ] →
            (∃ f, x = CloudUpload f) ∨ (∃ f, x = FsUnlink f) ∨ x = DbSave (new_id w)).
  { intros x [Hx | ->%list_elem_of_singleton]%elem_of_app;
      [naive_solver | rewrite Hid; auto]. }
  destruct (Mongoose.cast_errors d ++ Mongoose.validate (Mongoose.doc d))
    as [| x errs] eqn:EV.
  - destruct (write_fails w).
    + intros [= <- <-]. exists o, (collection w), (t ++ [ DbSave (_id (Mongoose.doc d)) ]).
      split; [by same_world |].
      split; [done |]. split; [done |]. left. split; [done | by eexists].
    + intros [= <- <-].
      apply app_eq_nil in EV as [EC EV].
      exists o, (<[ _id (Mongoose.doc d) := Mongoose.doc d ]> (collection w)),
        (t ++ [ DbSave (_id (Mongoose.doc d)) ]).
      split; [by same_world |].
      split; [done |]. split; [done |]. right.
      exists (Mongoose.doc d). split; [done |]. split; [done |].
      split; [done |]. split; [done |].
      split; [refine (assign_student_cast _ _ (user req) _ EC); reflexivity |].
      split; [done |]. rewrite Hph. split; [done |]. split; [done |].
      exists b'. done.
  - intros [= <- <-]. exists o, (collection w), (t ++ [ DbSave (_id (Mongoose.doc d)) ]).
    split; [by same_world |].
    split; [done |]. split; [done |]. left. split; [done | by eexists].
Qed.

(** Every way a delete can end: an error and an untouched collection, or
    the caller's own listing removed.  Nothing is uploaded or saved, and
    no object is added. *)
Lemma delete_outcome {js : JsLib} req w r w' :
  deleteHousingShare req w = (r, w') →
  ∃ o c t,
    w' = evolve w o c t
    ∧ o ⊆ objects w
    ∧ (∀ id, DbSave id ∉ t)
    ∧ ((c = collection w ∧ ∃ e, r = Next e)
       ∨ (∃ s, collection w !! params_id req = Some s
               ∧ student s = Some (user req)
               ∧ r = Json 200 (PMessage "success"
                                "Housing share deleted successfully")
               ∧ c = delete (_id s) (collection w))).
Proof.
  unfold deleteHousingShare at 1, handler, sanitize.
  destruct (ObjectId_isValid (params_id req)) eqn:Hid; cbn [negb].
  2:{ intros [= <- <-]. exists (objects w), (collection w), []. rewrite evolve_id.
      split; [done |]. split; [done |]. split; [by intros ? ?%elem_of_nil |].
      left. split; [done | by eexists]. }
  unfold mbind at 1, M_bind at 1.
  destruct (findOne_cases (params_id req) (user req) w)
    as (r0 & E0 & [-> | [-> | (s & -> & Hs & Ho)]]); rewrite E0.
  - intros [= <- <-]. exists (objects w), (collection w), [ DbFindOne (params_id req) (user req) ].
    split; [reflexivity |]. split; [done |].
    split; [by intros ? [=]%list_elem_of_singleton |].
    left. split; [done | by eexists].
  - intros [= <- <-]. exists (objects w), (collection w), [ DbFindOne (params_id req) (user req) ].
    split; [reflexivity |]. split; [done |].
    split; [by intros ? [=]%list_elem_of_singleton |].
    left. split; [done | by eexists].
  - intros E.
    assert (Hu : ObjectId_isValid (user req) = true).
    { unfold Mongoose.findOne in E0. destruct (ObjectId_isValid (user req)); [done |].
      discriminate. }
    assert (E' : deleteHousingShare req w = (r, w')).
    { unfold deleteHousingShare, handler, sanitize. rewrite Hid. cbn [negb].
      unfold mbind at 1, M_bind at 1. by rewrite E0. }
    rewrite (delete_owned req w s Hid Hu Hs Ho) in E'. injection E' as <- <-.
    eexists _, _, _. split; [reflexivity |]. split; [set_solver |]. split.
    { intros id [[=]
                | [(x & [=] & _)%list_elem_of_fmap | [=]%list_elem_of_singleton]%elem_of_app]%elem_of_cons. }
    destruct (write_fails w).
    + left. split; [done | by eexists].
    + right. by exists s.
Qed.

(** X1.  When the object store takes every file, [handlePhotoUpload]
    returns one photo per file, in the order of the files, each being the
    answer to its file; the new objects are exactly these photos, every
    temporary file is unlinked after its upload, and the collection is
    not touched. *)
Theorem attach_in_order (files : list string) (new : list Photo) (w : World) :
  Forall2 (λ f p, upload_result w f = Some p) files new →
  handlePhotoUpload files w
  = (Ok new, evolve w (ids new ∪ objects w) (collection w) (upload_pairs files))
  ∧ length new = length files
  ∧ (∀ i f, files !! i = Some f → new !! i = upload_result w f).
Proof.
  intros Hup. rewrite handlePhotoUpload_run.
  destruct (all_uploaded (upload_result w) files new Hup) as (-> & -> & ->).
  split; [done |]. split; [symmetry; by eapply Forall2_length |].
  intros i f Hf.
  destruct (Forall2_lookup_l _ _ _ _ _ Hup Hf) as (p & -> & Hp). by rewrite Hp.
Qed.

Lemma attach_in_order_witness :
  handlePhotoUpload [ "f1"; "f2" ] Sample.empty_world
  = (Ok [ mkPhoto "https://cdn/f1" "housing-shares/f1";
          mkPhoto "https://cdn/f2" "housing-shares/f2" ],
     evolve Sample.empty_world
       (ids [ mkPhoto "https://cdn/f1" "housing-shares/f1";
              mkPhoto "https://cdn/f2" "housing-shares/f2" ] ∪ ∅) ∅
       (upload_pairs [ "f1"; "f2" ])).
Proof.
  refine (proj1 (attach_in_order [ "f1"; "f2" ] _ Sample.empty_world _)).
  repeat constructor.
Defined.

Lemma release_run_split fails before p after :
  (∀ q, q ∈ before → fails (publicId q) = false) →
  fails (publicId p) = true →
  first_failed fails (before ++ p :: after) = Some (publicId p)
  ∧ removed fails (before ++ p :: after) = publicId <$> before
  ∧ attempted fails (before ++ p :: after) = (publicId <$> before) ++ [ publicId p ].
Proof.
  intros Hb Hp. induction before as [| q before IH]; cbn.
  - by rewrite Hp.
  - rewrite (Hb q) by set_solver.
    destruct IH as (-> & -> & ->); [| done]. intros x Hx. apply Hb. set_solver.
Qed.

(** X2.  [deletePhotos] stops at the first deletion that the object store
    refuses: the photos before it are gone, the refusal is thrown, and the
    photos after it are never tried, so they stay in the object store. *)
Theorem release_stops_at_failure (before : list Photo) (p : Photo)
    (after : list Photo) (w : World) :
  (∀ q, q ∈ before → destroy_fails w (publicId q) = false) →
  destroy_fails w (publicId p) = true →
  deletePhotos (before ++ p :: after) w
  = (Throw (DestroyError (publicId p)),
     evolve w (objects w ∖ ids before) (collection w)
            (CloudDestroy <$> ((publicId <$> before) ++ [ publicId p ])))
  ∧ (∀ q, q ∈ after → publicId q ∉ ids before → publicId q ∈ objects w →
          publicId q ∈ objects (deletePhotos (before ++ p :: after) w).2).
Proof.
  intros Hb Hp. rewrite deletePhotos_run.
  destruct (release_run_split (destroy_fails w) before p after Hb Hp)
    as (-> & -> & ->).
  split; [done |]. cbn. intros q _ Hn Hq. unfold ids in Hn. set_solver.
Qed.

Lemma release_stops_at_failure_witness :
  deletePhotos ([ Sample.old1 ] ++ Sample.old2 :: [])
    (Sample.world_with_listing (λ pid, String.eqb pid "housing-shares/o2"))
  = (Throw (DestroyError "housing-shares/o2"),
     evolve (Sample.world_with_listing (λ pid, String.eqb pid "housing-shares/o2"))
       (ids [ Sample.old1; Sample.old2 ] ∖ ids [ Sample.old1 ])
       {[ Sample.id1 := Sample.listing Sample.alice ]}
       (CloudDestroy <$> [ "housing-shares/o1"; "housing-shares/o2" ])).
Proof.
  refine (proj1 (release_stops_at_failure [ Sample.old1 ] Sample.old2 []
                   (Sample.world_with_listing
                      (λ pid, String.eqb pid "housing-shares/o2")) _ _)).
  - intros q ->%list_elem_of_singleton. reflexivity.
  - reflexivity.
Defined.

Lemma read_by_id {js : JsLib} id w errors :
  ObjectId_isValid id = true →
  getHousingShareById (mkReq "" id emptyBody [] emptyQuery errors) w
  = (match collection w !! id with
     | Some s => Json 200 (PShare s)
     | None => Next (AppError "Housing share not found" 404 [])
     end, w).
Proof.
  intros Hid. unfold getHousingShareById, handler, sanitize. cbn [params_id].
  rewrite Hid. cbn [negb]. unfold mbind, M_bind, Mongoose.findById.
  by destruct (collection w !! id).
Qed.



Lemma share_eta (s : Share) :
  mkShare (_id s) (student s) (title s) (description s) (governorate s)
          (city s) (address s) (university s) (currentOccupants s)
          (totalCapacity s) (pricePerPerson s) (amenities s) (photos s)
          (preferences s) (status s) (createdAt s) (updatedAt s) = s.
Proof. by destruct s. Qed.

Lemma update_commit_empty {js : JsLib} s w :
  Mongoose.validate s = [] → write_fails w = false →
  update_commit (Mongoose.mkDoc s []) emptyBody w
  = (Json 200 (PShare (touch (clock w) s)),
     evolve w (objects w) (<[ _id s := touch (clock w) s ]> (collection w))
            [ DbSave (_id s) ]).
Proof.
  intros Hv Hw. unfold update_commit, handler. cbn [preferences_truthy emptyBody b_preferences].
  unfold mbind, M_bind, now, Mongoose.save. cbn [mret M_ret].
  assert (Hd : with_updatedAt (clock w) (Mongoose.assign (Mongoose.mkDoc s []) emptyBody)
               = Mongoose.mkDoc (touch (clock w) s) []).
  { unfold with_updatedAt, Mongoose.assign, touch. by cbn. }
  rewrite Hd. cbn [Mongoose.doc Mongoose.cast_errors app log write_fails].
  assert (Mongoose.validate (touch (clock w) s) = []) as -> by exact Hv.
  by rewrite Hw.
Qed.

(** X4.  An update that brings nothing, by the owner of a valid record, changes
    the record in one place only: [updatedAt] becomes the time of the
    call.  The object store is not touched. *)
Theorem empty_update_touches_only_updatedAt {js : JsLib} (caller id : string)
    (w : World) (s : Share) :
  ObjectId_isValid id = true →
  ObjectId_isValid caller = true →
  collection w !! id = Some s →
  student s = Some caller →
  _id s = id →
  Mongoose.validate s = [] →
  write_fails w = false →
  Routes.PUT caller id emptyBody [] w
  = (Json 200 (PShare (touch (clock w) s)),
     evolve w (objects w) (<[ id := touch (clock w) s ]> (collection w))
            [ DbFindOne id caller; DbSave id ]).
Proof.
  intros Hid Hc Hs Ho Hk Hv Hw. unfold Routes.PUT.
  change (Routes.validateCreateShare true emptyBody) with (emptyBody, @nil string).
  cbv iota beta.
  match goal with
  | |- updateHousingShare ?req w = _ =>
      rewrite (update_owned_without_files req w s) by done
  end.
  cbn [body params_id user]. rewrite update_commit_empty by done.
  rewrite Hk. f_equal. by same_world.
Qed.

Lemma empty_update_witness :
  Routes.PUT (js := Sample.lib) Sample.alice Sample.id1 emptyBody []
    (Sample.world_with_listing (λ _, false))
  = (Json 200 (PShare (touch 2000 (Sample.listing Sample.alice))),
     evolve (Sample.world_with_listing (λ _, false))
       (ids [ Sample.old1; Sample.old2 ])
       (<[ Sample.id1 := touch 2000 (Sample.listing Sample.alice) ]>
          {[ Sample.id1 := Sample.listing Sample.alice ]})
       [ DbFindOne Sample.id1 Sample.alice; DbSave Sample.id1 ]).
Proof.
  refine (empty_update_touches_only_updatedAt (js := Sample.lib)
            Sample.alice Sample.id1 (Sample.world_with_listing (λ _, false))
            (Sample.listing Sample.alice) _ _ _ _ _ _ _); reflexivity.
Defined.

(** X5.  Once its owner has deleted a listing, it is gone for everybody: a
    read, an update and a second delete are all answered 404, and change
    nothing in the collection. *)
Theorem deleted_listing_is_gone {js : JsLib} (caller id : string) (w : World)
    (s : Share) (b : Body) (uploads : list string) :
  ObjectId_isValid id = true →
  ObjectId_isValid caller = true →
  collection w !! id = Some s →
  student s = Some caller →
  _id s = id →
  write_fails w = false →
  let w' := (Routes.DELETE caller id w).2 in
  (Routes.GET_id id w').1 = Next (AppError "Housing share not found" 404 [])
  ∧ (Routes.PUT caller id b uploads w').1
    = Next (AppError "Housing share not found or unauthorized" 404 [])
  ∧ (Routes.DELETE caller id w').1
    = Next (AppError "Housing share not found or unauthorized" 404 [])
  ∧ collection (Routes.PUT caller id b uploads w').2 = collection w'
  ∧ collection (Routes.DELETE caller id w').2 = collection w'.
Proof.
  intros Hid Hc Hs Ho Hk Hw w'.
  assert (Hgone : collection w' !! id = None).
  { subst w'. unfold Routes.DELETE.
    match goal with
    | |- context [ deleteHousingShare ?req w ] =>
        rewrite (delete_owned req w s) by done
    end.
    rewrite Hw, Hk. cbn. apply lookup_delete_eq. }
  assert (Hh : hidden_from caller id w') by (unfold hidden_from; by rewrite Hgone).
  clearbody w'. unfold Routes.GET_id, Routes.PUT, Routes.DELETE.
  destruct (Routes.validateCreateShare true b) as [b' errors].
  rewrite read_by_id, Hgone by done.
  rewrite update_hidden, delete_hidden by done.
  unfold hidden_response, hidden_world. cbn [params_id user]. rewrite Hid, Hc.
  done.
Qed.

Lemma deleted_listing_witness :
  (Routes.GET_id (js := Sample.lib) Sample.id1
     (Routes.DELETE (js := Sample.lib) Sample.alice Sample.id1
        (Sample.world_with_listing (λ _, false))).2).1
  = Next (AppError "Housing share not found" 404 []).
Proof.
  refine (proj1 (deleted_listing_is_gone (js := Sample.lib) Sample.alice
                   Sample.id1 (Sample.world_with_listing (λ _, false))
                   (Sample.listing Sample.alice) emptyBody [] _ _ _ _ _ _));
    reflexivity.
Defined.


Lemma sample_world_well_formed fails :
  well_formed (Sample.world_with_listing fails).
Proof.
  intros id s Hs. cbn in Hs. apply lookup_singleton_Some in Hs as [<- <-].
  split; reflexivity.
Qed.


Lemma well_formed_insert w s :
  well_formed w → Mongoose.validate s = [] →
  ∀ o t, well_formed (evolve w o (<[ _id s := s ]> (collection w)) t).
Proof.
  intros Hwf Hv o t id s0. cbn. intros [[<- <-] | [_ Hs]]%lookup_insert_Some.
  - done.
  - by apply Hwf.
Qed.

Lemma well_formed_delete w id0 :
  well_formed w → ∀ o t, well_formed (evolve w o (delete id0 (collection w)) t).
Proof.
  intros Hwf o t id s. cbn. intros [_ Hs]%lookup_delete_Some. by apply Hwf.
Qed.

Lemma well_formed_same w : well_formed w → ∀ o t, well_formed (evolve w o (collection w) t).
Proof. intros Hwf o t id s. cbn. apply Hwf. Qed.

(** X7.  The collection stays well formed under every route: each record sits
    under its own [_id] and passes the validators of the schema. *)
Theorem routes_keep_well_formed {js : JsLib} (optional : bool)
    (caller id : string) (b : Body) (uploads : list string) (q : Query)
    (w : World) :
  well_formed w →
  well_formed (Routes.POST optional caller b uploads w).2
  ∧ well_formed (Routes.PUT caller id b uploads w).2
  ∧ well_formed (Routes.DELETE caller id w).2
  ∧ well_formed (Routes.GET q w).2
  ∧ well_formed (Routes.GET_id id w).2.
Proof.
  intros Hwf. split; [| split; [| split; [| split]]].
  - unfold Routes.POST. destruct (Routes.validateCreateShare optional b) as [b' errors].
    destruct (createHousingShare _ w) as [r w'] eqn:E. cbn [snd].
    apply create_outcome in E as (o & c & t & -> & _ & _ & Hc).
    destruct Hc as [[-> _] | (s & _ & -> & _ & Hv & _)].
    + by apply well_formed_same.
    + by apply well_formed_insert.
  - unfold Routes.PUT. destruct (Routes.validateCreateShare true b) as [b' errors].
    destruct (updateHousingShare _ w) as [r w'] eqn:E. cbn [snd].
    apply update_outcome in E as (o & c & t & -> & _ & Hc).
    destruct Hc as [[-> _] | (s & s1 & _ & _ & _ & -> & Hid & Hv & _)].
    + by apply well_formed_same.
    + rewrite <- Hid. by apply well_formed_insert.
  - unfold Routes.DELETE. destruct (deleteHousingShare _ w) as [r w'] eqn:E.
    cbn [snd]. apply delete_outcome in E as (o & c & t & -> & _ & _ & Hc).
    destruct Hc as [[-> _] | (s & _ & _ & _ & ->)].
    + by apply well_formed_same.
    + by apply well_formed_delete.
  - unfold Routes.GET, getHousingShares, handler. cbn [query sanitize].
    destruct (validatePagination _ _) as [page limit].
    unfold mbind, M_bind, Promise_all, Mongoose.find, Mongoose.countDocuments.
    destruct (Mongoose.cast_filter _); cbn; intros i s; cbn; apply Hwf.
  - unfold Routes.GET_id, getHousingShareById, handler, sanitize. cbn [params_id].
    destruct (ObjectId_isValid id); cbn [negb]; [| done].
    unfold mbind, M_bind, Mongoose.findById. by destruct (collection w !! id).
Qed.

Lemma routes_keep_well_formed_witness :
  well_formed
    (Routes.PUT (js := Sample.lib) Sample.alice Sample.id1
       (Sample.only (Sample.with_currentOccupants (JNum 3))) []
       (Sample.world_with_listing (λ _, false))).2.
Proof.
  refine (proj1 (proj2 (routes_keep_well_formed (js := Sample.lib) false
                          Sample.alice Sample.id1
                          (Sample.only (Sample.with_currentOccupants (JNum 3)))
                          [] emptyQuery
                          (Sample.world_with_listing (λ _, false)) _))).
  apply sample_world_well_formed.
Defined.

Lemma includes_elem l x : Js.includes l x = true → x ∈ l.
Proof.
  unfold Js.includes. intros (y & Hy & ->%String.eqb_eq)%existsb_exists.
  by apply list_elem_of_In.
Qed.

(** What it means for a record to pass the validators of the schema. *)
Lemma validate_facts s :
  Mongoose.validate s = [] →
  is_Some (student s)
  ∧ (∃ q, currentOccupants s = Some q ∧ (1 <= q)%Q)
  ∧ (∃ q, totalCapacity s = Some q ∧ (2 <= q)%Q)
  ∧ is_Some (pricePerPerson s)
  ∧ (∃ g, governorate s = Some g ∧ g ∈ Mongoose.TUNISIAN_GOVERNORATES)
  ∧ (∃ g, gender (preferences s) = Some g ∧ g ∈ Mongoose.GENDERS)
  ∧ (∀ x, status s = Some x → x ∈ Mongoose.STATUSES).
Proof.
  unfold Mongoose.validate. intros H.
  repeat (apply app_eq_nil in H as [? H]).
  unfold Mongoose.required, Mongoose.required_string, Mongoose.enum, Mongoose.min in *.
  repeat split.
  - by destruct (student s).
  - destruct (currentOccupants s) as [q |]; [| done]. exists q. split; [done |].
    destruct (Qle_bool 1 q) eqn:E; [by apply Qle_bool_iff | done].
  - destruct (totalCapacity s) as [q |]; [| done]. exists q. split; [done |].
    destruct (Qle_bool 2 q) eqn:E; [by apply Qle_bool_iff | done].
  - by destruct (pricePerPerson s).
  - destruct (governorate s) as [g |]; [| done]. exists g. split; [done |].
    destruct (Js.includes Mongoose.TUNISIAN_GOVERNORATES g) eqn:E;
      [by apply includes_elem | done].
  - destruct (gender (preferences s)) as [g |]; [| done]. exists g. split; [done |].
    destruct (Js.includes Mongoose.GENDERS g) eqn:E; [by apply includes_elem | done].
  - intros x Hx. rewrite Hx in *.
    destruct (Js.includes Mongoose.STATUSES x) eqn:E; [by apply includes_elem | done].
Qed.

(** X8.  Whatever a create or an update answers as the record it wrote
    respects the schema: an owner, at least one occupant, a capacity of
    at least two, a price, and a governorate, a gender and a status taken
    from their lists. *)
Theorem written_records_respect_schema {js : JsLib} (optional : bool)
    (caller id : string) (b : Body) (uploads : list string) (w : World)
    (code : Z) (s : Share) :
  (Routes.POST optional caller b uploads w).1 = Json code (PShare s)
  ∨ (Routes.PUT caller id b uploads w).1 = Json code (PShare s) →
  is_Some (student s)
  ∧ (∃ q, currentOccupants s = Some q ∧ (1 <= q)%Q)
  ∧ (∃ q, totalCapacity s = Some q ∧ (2 <= q)%Q)
  ∧ is_Some (pricePerPerson s)
  ∧ (∃ g, governorate s = Some g ∧ g ∈ Mongoose.TUNISIAN_GOVERNORATES)
  ∧ (∃ g, gender (preferences s) = Some g ∧ g ∈ Mongoose.GENDERS)
  ∧ (∀ x, status s = Some x → x ∈ Mongoose.STATUSES).
Proof.
  intros H. apply validate_facts. destruct H as [H | H].
  - unfold Routes.POST in H.
    destruct (Routes.validateCreateShare optional b) as [b' errors].
    destruct (createHousingShare _ w) as [r w'] eqn:E. cbn [fst] in H. subst r.
    apply create_outcome in E as (o & c & t & _ & _ & _ & Hc).
    destruct Hc as [[_ [e [=]]] | (s0 & [= _ ->] & _ & _ & Hv & _)]. done.
  - unfold Routes.PUT in H.
    destruct (Routes.validateCreateShare true b) as [b' errors].
    destruct (updateHousingShare _ w) as [r w'] eqn:E. cbn [fst] in H. subst r.
    apply update_outcome in E as (o & c & t & _ & _ & Hc).
    destruct Hc as [[_ [e [=]]] | (s0 & s1 & _ & _ & [= _ ->] & _ & _ & Hv & _)].
    done.
Qed.

Lemma written_records_witness :
  ∃ q, currentOccupants (Sample.listing Sample.alice) = Some q ∧ (1 <= q)%Q.
Proof.
  refine (proj1 (proj2 (written_records_respect_schema (js := Sample.lib) false
                          Sample.alice Sample.id1
                          (Sample.fields (JNum 2) (JNum 4)) [ "o1"; "o2" ]
                          Sample.empty_world 201 (Sample.listing Sample.alice) _))).
  left. vm_compute. reflexivity.
Defined.

(** X9.  A create never changes a record that is already there under another
    id, never removes an object, and makes no call that deletes. *)
Theorem create_only_adds {js : JsLib} (optional : bool) (caller : string)
    (b : Body) (uploads : list string) (w : World) :
  let w' := (Routes.POST optional caller b uploads w).2 in
  (∀ id, id ≠ new_id w → collection w' !! id = collection w !! id)
  ∧ objects w ⊆ objects w'
  ∧ ∃ t, trace w' = trace w ++ t
         ∧ ∀ x, x ∈ t → (∃ f, x = CloudUpload f) ∨ (∃ f, x = FsUnlink f)
                        ∨ x = DbSave (new_id w).
Proof.
  unfold Routes.POST. destruct (Routes.validateCreateShare optional b) as [b' errors].
  destruct (createHousingShare _ w) as [r w'] eqn:E. cbn [snd].
  apply create_outcome in E as (o & c & t & -> & Ho & Ht & Hc). cbn.
  split; [| split; [done | by exists t]].
  intros id Hid. destruct Hc as [[-> _] | (s & _ & -> & Hs & _)]; [done |].
  rewrite Hs. by rewrite lookup_insert_ne.
Qed.

Lemma parsePreferences_keeps {js : JsLib} b w b' w' :
  parsePreferences b w = (Ok b', w') →
  b_status b' = b_status b ∧ b_governorate b' = b_governorate b.
Proof.
  unfold parsePreferences. repeat case_match; intros E; inversion E; subst; done.
Qed.

Lemma validated_body {js : JsLib} optional b :
  b_status (Routes.validateCreateShare optional b).1 = b_status b
  ∧ b_governorate (Routes.validateCreateShare optional b).1
    = Js.trim <$> b_governorate b.
Proof.
  unfold Routes.validateCreateShare.
  repeat match goal with
    | |- context [ Routes.text_chain ?o ?c ?v ] =>
        destruct (Routes.text_chain o c v) as [? ?] eqn:?
    end.
  cbn. split; [done |].
  match goal with
  | H : Routes.text_chain _ _ (b_governorate b) = _ |- _ =>
      unfold Routes.text_chain in H; destruct (b_governorate b);
      inversion H; subst; done
  end.
Qed.

Lemma validated_governorate {js : JsLib} optional b g :
  (Routes.validateCreateShare optional b).2 = [] →
  b_governorate (Routes.validateCreateShare optional b).1 = Some g →
  g ∈ Routes.GOVERNORATES.
Proof.
  unfold Routes.validateCreateShare.
  destruct (Routes.text_chain optional _ (b_title b)) as [v1 e1].
  destruct (Routes.text_chain optional _ (b_description b)) as [v2 e2].
  destruct (Routes.text_chain optional _ (b_governorate b)) as [v3 e3] eqn:E3.
  repeat match goal with
    | |- context [ Routes.text_chain ?o ?c ?v ] =>
        destruct (Routes.text_chain o c v) as [? ?]
    end.
  cbn [fst snd b_governorate]. intros He Hg. subst v3.
  apply app_eq_nil in He as [_ He]. apply app_eq_nil in He as [_ He].
  apply app_eq_nil in He as [He _]. subst e3.
  unfold Routes.text_chain in E3. destruct (b_governorate b) as [g0 |]; [| done].
  injection E3 as <- E3. apply app_eq_nil in E3 as [_ E3].
  unfold Routes.isIn in E3.
  destruct (Js.includes Routes.GOVERNORATES (Js.trim g0)) eqn:Ei; [| done].
  by apply includes_elem.
Qed.

(** X10.  What a successful create has stored: the photos are the answers of
    the object store to the uploaded files, in their order, and they are
    the only new objects; the status is the one sent, or "available". *)
Theorem created_record_media_and_status {js : JsLib} (optional : bool)
    (caller : string) (b : Body) (uploads : list string) (w : World)
    (s : Share) :
  (Routes.POST optional caller b uploads w).1 = Json 201 (PShare s) →
  Forall2 (λ f p, upload_result w f = Some p) uploads (photos s)
  ∧ objects (Routes.POST optional caller b uploads w).2
    = ids (photos s) ∪ objects w
  ∧ status s = Some (default "available" (b_status b)).
Proof.
  unfold Routes.POST.
  destruct (validated_body optional b) as [Hst _].
  destruct (Routes.validateCreateShare optional b) as [b' errors].
  destruct (createHousingShare _ w) as [r w'] eqn:E. cbn [fst snd] in *.
  intros ->. apply create_outcome in E as (o & c & t & -> & _ & _ & Hc).
  destruct Hc as [[_ [e [=]]] | (s0 & [= <-] & _ & _ & _ & _ & _ & Hf & -> & Hb)].
  cbn [files body] in *. split; [done |]. split; [done |].
  destruct Hb as (b2 & EP & -> & _). apply parsePreferences_keeps in EP as [-> _].
  by rewrite Hst.
Qed.

Lemma created_record_witness :
  status (Sample.listing Sample.alice) = Some "available".
Proof.
  refine (proj2 (proj2 (created_record_media_and_status (js := Sample.lib) false
                          Sample.alice (Sample.fields (JNum 2) (JNum 4))
                          [ "o1"; "o2" ] Sample.empty_world
                          (Sample.listing Sample.alice) _))).
  vm_compute. reflexivity.
Defined.

(** X11.  The create route knows four governorates only: a listing that it
    accepts is in Ariana, Béja, Ben Arous or Bizerte, although the schema
    lists twenty-four. *)
Theorem create_accepts_four_governorates {js : JsLib} (optional : bool)
    (caller : string) (b : Body) (uploads : list string) (w : World)
    (s : Share) :
  (Routes.POST optional caller b uploads w).1 = Json 201 (PShare s) →
  ∃ g, governorate s = Some g
       ∧ g ∈ [ "Ariana"; "Béja"; "Ben Arous"; "Bizerte" ].
Proof.
  unfold Routes.POST.
  pose proof (validated_governorate optional b) as Hg.
  destruct (Routes.validateCreateShare optional b) as [b' errors].
  destruct (createHousingShare _ w) as [r w'] eqn:E. cbn [fst snd] in *.
  intros ->. apply create_outcome in E as (o & c & t & _ & _ & _ & Hc).
  destruct Hc as [[_ [e [=]]] | (s0 & [= <-] & _ & _ & Hv & _ & He & _ & _ & Hb)].
  cbn [validation body] in *.
  destruct Hb as (b2 & EP & _ & Hgo). apply parsePreferences_keeps in EP as [_ Hb2].
  apply validate_facts in Hv as (_ & _ & _ & _ & (g & Hsg & _) & _).
  exists g. split; [done |]. apply Hg; [done |]. congruence.
Qed.

Lemma create_four_governorates_witness :
  ∃ g, governorate (Sample.listing Sample.alice) = Some g
       ∧ g ∈ [ "Ariana"; "Béja"; "Ben Arous"; "Bizerte" ].
Proof.
  refine (create_accepts_four_governorates (js := Sample.lib) false
            Sample.alice (Sample.fields (JNum 2) (JNum 4))
            [ "o1"; "o2" ] Sample.empty_world (Sample.listing Sample.alice) _).
  vm_compute. reflexivity.
Defined.

Lemma first_failed_none fails ps p :
  first_failed fails ps = None → p ∈ ps → fails (publicId p) = false.
Proof.
  induction ps as [| q ps IH]; cbn; [by intros _ ?%elem_of_nil |].
  destruct (fails (publicId q)) eqn:E; [done |].
  intros Hn [-> | Hp]%elem_of_cons; [done | by apply IH].
Qed.

(** X12.  An update whose photo handling fails, because the object store
    refuses to delete a stored photo or to take a new file, is answered
    500 "Error processing photos"; the record is left as it was and no
    save is attempted. *)
Theorem update_photo_failure {js : JsLib} (req : Req) (w : World) (s : Share) :
  ObjectId_isValid (params_id req) = true →
  ObjectId_isValid (user req) = true →
  collection w !! params_id req = Some s →
  student s = Some (user req) →
  files req ≠ [] →
  (∃ p, p ∈ photos s ∧ destroy_fails w (publicId p) = true)
  ∨ (∃ f, f ∈ files req ∧ upload_result w f = None) →
  (updateHousingShare req w).1 = Next (AppError "Error processing photos" 500 [])
  ∧ collection (updateHousingShare req w).2 = collection w
  ∧ ∃ t, trace (updateHousingShare req w).2 = trace w ++ t
         ∧ ∀ id, DbSave id ∉ t.
Proof.
  intros Hid Hu Hs Ho Hf Hfail.
  destruct (updateHousingShare req w) as [r w'] eqn:E. cbn [fst snd].
  unfold updateHousingShare, handler, sanitize in E. rewrite Hid in E. cbn [negb] in E.
  unfold mbind at 1, M_bind at 1 in E. rewrite (findOne_owned _ _ _ s) in E by done.
  rewrite bool_decide_eq_false_2 in E by done. cbn [negb Mongoose.doc] in E.
  unfold mbind at 1, M_bind at 1 in E.
  destruct (update_photos_outcome (photos s) (files req) (body req)
              (log (DbFindOne (params_id req) (user req)) w))
    as (r1 & o & t & E1 & Ht & Hr).
  rewrite E1 in E.
  destruct Hr as [[-> _] | (new & _ & Hall & Hnone)].
  - injection E as <- <-. split; [done |]. split; [done |].
    exists ([ DbFindOne (params_id req) (user req) ] ++ t). cbn.
    split; [by rewrite <- app_assoc |].
    intros id [[=] | H2]%elem_of_cons.
    apply Ht in H2 as [[x Hx] | [[x Hx] | [x Hx]]]; discriminate.
  - exfalso. destruct Hfail as [(p & Hp & Hd) | (f & Hin & Hr)].
    + pose proof (first_failed_none _ _ p Hnone Hp) as Hd'. cbn in Hd'. congruence.
    + apply list_elem_of_lookup in Hin as [i Hi].
      destruct (Forall2_lookup_l _ _ _ _ _ Hall Hi) as (p & _ & Hp).
      cbn in Hp. congruence.
Qed.

Lemma update_photo_failure_witness :
  (updateHousingShare (js := Sample.lib)
     (mkReq Sample.alice Sample.id1 emptyBody [ "bad" ] emptyQuery [])
     (Sample.world_with_listing (λ _, false))).1
  = Next (AppError "Error processing photos" 500 []).
Proof.
  refine (proj1 (update_photo_failure (js := Sample.lib)
                   (mkReq Sample.alice Sample.id1 emptyBody [ "bad" ] emptyQuery [])
                   (Sample.world_with_listing (λ _, false))
                   (Sample.listing Sample.alice) _ _ _ _ _ _));
    try reflexivity.
  - discriminate.
  - right. exists "bad". split; [apply list_elem_of_here | reflexivity].
Defined.

Lemma insert_desc_perm s l : Mongoose.insert_desc s l ≡ₚ s :: l.
Proof.
  induction l as [| x l IH]; cbn; [done |].
  destruct (createdAt x <? createdAt s); [done |].
  rewrite IH. apply Permutation_swap.
Qed.

Lemma sort_desc_perm l : Mongoose.sort_desc l ≡ₚ l.
Proof.
  induction l as [| x l IH]; cbn; [done |].
  fold (Mongoose.sort_desc l). rewrite insert_desc_perm. by rewrite IH.
Qed.

Lemma insert_desc_sorted s l :
  StronglySorted newer_first l → StronglySorted newer_first (Mongoose.insert_desc s l).
Proof.
  induction 1 as [| x l Hl IH Hx]; cbn; [repeat constructor |].
  destruct (Z.ltb_spec (createdAt x) (createdAt s)) as [Hlt | Hge].
  - constructor; [by constructor |].
    constructor; [unfold newer_first; lia |].
    eapply Forall_impl; [exact Hx |]. unfold newer_first. intros y. lia.
  - constructor; [done |].
    rewrite Forall_forall. intros y Hy.
    rewrite insert_desc_perm in Hy.
    apply elem_of_cons in Hy as [-> | Hy]; [unfold newer_first; lia |].
    rewrite Forall_forall in Hx. by apply Hx.
Qed.

Lemma sort_desc_sorted l : StronglySorted newer_first (Mongoose.sort_desc l).
Proof.
  induction l as [| x l IH]; cbn; [constructor |]. by apply insert_desc_sorted.
Qed.

Lemma sorted_lookup (l : list Share) i j a b :
  StronglySorted newer_first l → (i < j)%nat →
  l !! i = Some a → l !! j = Some b → newer_first a b.
Proof.
  intros Hl. revert i j. induction Hl as [| x l Hl IH Hx]; intros i j Hij Ha Hb;
    [done |].
  destruct j as [| j]; [lia |]. cbn in Hb. destruct i as [| i].
  - cbn in Ha. injection Ha as ->.
    rewrite Forall_forall in Hx. apply Hx. by eapply list_elem_of_lookup_2.
  - cbn in Ha. apply (IH i j); [lia | done | done].
Qed.

(** What the list route answers when it answers a page. *)
Lemma list_page {js : JsLib} q w code shares total pages page :
  (Routes.GET q w).1 = Json code (PPage shares total pages page) →
  let pg := spec_page (Js.parseInt (q_page q)) in
  let limit := spec_pageSize (Js.parseInt (q_limit q)) in
  let found := Mongoose.sort_desc (Mongoose.selected (buildFilter q) w) in
  shares = take (Z.to_nat limit) (drop (Z.to_nat ((pg - 1) * limit)) found)
  ∧ total = Z.of_nat (length found)
  ∧ pages = Math_ceil_div total limit
  ∧ page = pg.
Proof.
  unfold Routes.GET, getHousingShares, handler. cbn [query sanitize].
  rewrite validatePagination_spec.
  unfold mbind, M_bind, Promise_all, Mongoose.find, Mongoose.countDocuments.
  destruct (Mongoose.cast_filter (buildFilter q)); cbn; [by intros [=] |].
  rewrite !selected_log. intros [= _ <- <- <- <-].
  rewrite (Permutation_length (sort_desc_perm _)). done.
Qed.

(** X13.  A page of the list is ordered from the newest listing to the oldest. *)
Theorem list_page_newest_first {js : JsLib} (q : Query) (w : World) (code : Z)
    (shares : list Share) (total pages page : Z) (i j : nat) (a b : Share) :
  (Routes.GET q w).1 = Json code (PPage shares total pages page) →
  (i < j)%nat → shares !! i = Some a → shares !! j = Some b →
  createdAt b ≤ createdAt a.
Proof.
  intros Hr Hij Ha Hb. apply list_page in Hr as (-> & _).
  apply (sorted_lookup _ i j a b) in Ha; [exact Ha | | done | done].
  eapply StronglySorted_app_1_l. rewrite take_drop.
  eapply StronglySorted_app_1_r. rewrite take_drop. apply sort_desc_sorted.
Qed.

Lemma eq_cond_true c v x :
  Mongoose.eq_cond c v = true → c = Some x → v = Some x.
Proof.
  unfold Mongoose.eq_cond. intros H ->. destruct v as [y |]; [| done].
  by apply String.eqb_eq in H as ->.
Qed.

Lemma selected_elem f w s :
  s ∈ Mongoose.selected f w ↔
  (∃ id, collection w !! id = Some s) ∧ Mongoose.matches f s = true.
Proof.
  unfold Mongoose.selected. rewrite list_elem_of_filter, list_elem_of_fmap.
  split.
  - intros [Hm ([id s'] & -> & Hin)]. split; [| done]. exists id.
    by apply elem_of_map_to_list in Hin.
  - intros [[id Hs] Hm]. split; [done |]. exists (id, s). split; [done |].
    by apply elem_of_map_to_list.
Qed.

(** X14.  Every listing on a page of the list is stored and satisfies each key
    of the request: the governorate, the status and the gender asked for,
    and a price between the two bounds, both included. *)
Theorem list_items_satisfy_filter {js : JsLib} (q : Query) (w : World)
    (code : Z) (shares : list Share) (total pages page : Z) (s : Share) :
  (Routes.GET q w).1 = Json code (PPage shares total pages page) →
  s ∈ shares →
  (∃ id, collection w !! id = Some s)
  ∧ (∀ g, q_governorate q = Some g → g ≠ "" → governorate s = Some g)
  ∧ (∀ x, q_status q = Some x → x ≠ "" → status s = Some x)
  ∧ (∀ g, q_gender q = Some g → g ≠ "" → gender (preferences s) = Some g)
  ∧ (∀ lo a, q_minPrice q = Some lo → lo ≠ "" → Number lo = Some a →
             ∃ p, pricePerPerson s = Some p ∧ (a <= p)%Q)
  ∧ (∀ hi b, q_maxPrice q = Some hi → hi ≠ "" → Number hi = Some b →
             ∃ p, pricePerPerson s = Some p ∧ (p <= b)%Q).
Proof.
  intros Hr Hs. apply list_page in Hr as (-> & _).
  eapply elem_of_sublist in Hs; [| apply sublist_take].
  eapply elem_of_sublist in Hs; [| apply sublist_drop].
  rewrite sort_desc_perm in Hs. apply selected_elem in Hs as [Hst Hm].
  split; [done |].
  unfold Mongoose.matches in Hm.
  apply andb_true_iff in Hm as [Hm Hlte]. apply andb_true_iff in Hm as [Hm Hgte].
  apply andb_true_iff in Hm as [Hm Hgen]. apply andb_true_iff in Hm as [Hgov Hsta].
  unfold buildFilter in *. cbn [f_governorate f_status f_gender f_gte f_lte] in *.
  repeat split.
  - intros g Hq Hg. rewrite Hq, truthy_nonempty in Hgov by done.
    by eapply eq_cond_true.
  - intros x Hq Hx. rewrite Hq, truthy_nonempty in Hsta by done.
    by eapply eq_cond_true.
  - intros g Hq Hg. rewrite Hq, truthy_nonempty in Hgen by done.
    by eapply eq_cond_true.
  - intros lo a Hq Hlo Ha. rewrite Hq, truthy_nonempty, Ha in Hgte by done.
    cbn in Hgte. destruct (pricePerPerson s) as [p |]; [| done].
    exists p. split; [done | by apply Qle_bool_iff].
  - intros hi b Hq Hhi Hb. rewrite Hq, truthy_nonempty, Hb in Hlte by done.
    rewrite orb_true_r in Hlte.
    cbn in Hlte. destruct (pricePerPerson s) as [p |]; [| done].
    exists p. split; [done | by apply Qle_bool_iff].
Qed.

Lemma list_newest_first_witness :
  createdAt (Sample.listing Sample.alice) ≤ createdAt Sample2.newer.
Proof.
  refine (list_page_newest_first (js := Sample.lib) emptyQuery
            Sample2.two_listings 200
            [ Sample2.newer; Sample.listing Sample.alice ] 2 1 1 0%nat 1%nat
            Sample2.newer (Sample.listing Sample.alice) _ _ _ _).
  - vm_compute. reflexivity.
  - lia.
  - reflexivity.
  - reflexivity.
Defined.

Lemma list_filter_witness :
  ∃ id, collection Sample2.two_listings !! id = Some Sample2.newer.
Proof.
  refine (proj1 (list_items_satisfy_filter (js := Sample.lib)
                   (mkQuery (Some "Bizerte") (Some "100") (Some "200") None None None None)
                   Sample2.two_listings 200 [ Sample2.newer ] 1 1 1
                   Sample2.newer _ _)).
  - vm_compute. reflexivity.
  - apply list_elem_of_here.
Defined.

(** X15.  A request without filter whose page is large enough gets every stored
    listing, each one once, and their number as the total. *)
Theorem list_without_filter_returns_all {js : JsLib} (q : Query) (w : World) :
  q_governorate q = None → q_status q = None → q_gender q = None →
  q_minPrice q = None → q_maxPrice q = None →
  spec_page (Js.parseInt (q_page q)) = 1 →
  Z.of_nat (size (collection w)) ≤ spec_pageSize (Js.parseInt (q_limit q)) →
  ∃ shares pages,
    (Routes.GET q w).1
    = Json 200 (PPage shares (Z.of_nat (size (collection w))) pages 1)
    ∧ shares ≡ₚ (snd <$> map_to_list (collection w)).
Proof.
  intros Hg Hs Hge Hlo Hhi Hp Hsize.
  assert (Hf : buildFilter q = mkFilter None None None None None).
  { unfold buildFilter. by rewrite Hg, Hs, Hge, Hlo, Hhi. }
  assert (Hsel : Mongoose.selected (buildFilter q) w
                 = snd <$> map_to_list (collection w)).
  { rewrite Hf. unfold Mongoose.selected.
    induction (snd <$> map_to_list (collection w)) as [| x l IH]; [done |].
    rewrite filter_cons_True by done. by rewrite IH. }
  assert (Hlen : length (snd <$> map_to_list (collection w)) = size (collection w)).
  { by rewrite length_fmap, length_map_to_list. }
  unfold Routes.GET, getHousingShares, handler. cbn [query sanitize].
  rewrite validatePagination_spec, Hp.
  unfold mbind, M_bind, Promise_all, Mongoose.find, Mongoose.countDocuments.
  assert (Mongoose.cast_filter (buildFilter q) = None) as ->
    by (by rewrite Hf).
  rewrite !selected_log, Hsel, Hlen. cbn [mret M_ret fst].
  eexists _, _. split; [reflexivity |].
  replace ((1 - 1) * spec_pageSize (Js.parseInt (q_limit q))) with 0 by lia.
  change (Z.to_nat 0) with 0%nat. rewrite drop_0.
  rewrite take_ge; [apply sort_desc_perm |].
  rewrite (Permutation_length (sort_desc_perm _)), Hlen. lia.
Qed.

Lemma list_without_filter_witness :
  ∃ shares pages,
    (Routes.GET (js := Sample.lib) emptyQuery Sample2.two_listings).1
    = Json 200 (PPage shares (Z.of_nat (size (collection Sample2.two_listings)))
                  pages 1)
    ∧ shares ≡ₚ (snd <$> map_to_list (collection Sample2.two_listings)).
Proof.
  refine (list_without_filter_returns_all (js := Sample.lib) emptyQuery
            Sample2.two_listings _ _ _ _ _ _ _); try reflexivity.
  vm_compute. discriminate.
Defined.

Lemma ceil_div_bounds total limit :
  1 ≤ limit →
  (Math_ceil_div total limit - 1) * limit < total ≤ Math_ceil_div total limit * limit.
Proof.
  intros Hl. unfold Math_ceil_div.
  pose proof (Z.div_mod (- total) limit ltac:(lia)) as Hdm.
  pose proof (Z.mod_pos_bound (- total) limit ltac:(lia)) as Hb.
  nia.
Qed.

(** X16.  The number of pages answered is the number needed: the pages before
    the last do not hold all the matches, the last one does; and a page
    beyond the last is empty. *)
Theorem list_page_count {js : JsLib} (q : Query) (w : World) (code : Z)
    (shares : list Share) (total pages page : Z) :
  (Routes.GET q w).1 = Json code (PPage shares total pages page) →
  let limit := spec_pageSize (Js.parseInt (q_limit q)) in
  0 ≤ total
  ∧ (pages - 1) * limit < total ≤ pages * limit
  ∧ Z.of_nat (length shares) = Z.max 0 (Z.min limit (total - (page - 1) * limit))
  ∧ (pages < page → shares = []).
Proof.
  intros Hr limit. apply list_page in Hr as (-> & -> & -> & ->). fold limit.
  pose proof (spec_pageSize_bounds (Js.parseInt (q_limit q))) as Hl. fold limit in Hl.
  pose proof (spec_page_bounds (Js.parseInt (q_page q))) as Hp.
  set (pg := spec_page (Js.parseInt (q_page q))) in *.
  set (found := Mongoose.sort_desc _).
  pose proof (ceil_div_bounds (Z.of_nat (length found)) limit ltac:(lia)) as Hc.
  split; [lia |]. split; [done |].
  assert (Hlen : Z.of_nat (length (take (Z.to_nat limit)
                                     (drop (Z.to_nat ((pg - 1) * limit)) found)))
                 = Z.max 0 (Z.min limit (Z.of_nat (length found) - (pg - 1) * limit))).
  { rewrite length_take, length_drop. nia. }
  split; [done |].
  intros Hlt. apply length_zero_iff_nil. nia.
Qed.

Lemma list_page_count_witness :
  0 ≤ 2 ∧ (1 - 1) * 10 < 2 ≤ 1 * 10.
Proof.
  refine (let H := list_page_count (js := Sample.lib) emptyQuery
                     Sample2.two_listings 200
                     [ Sample2.newer; Sample.listing Sample.alice ] 2 1 1 _ in
          conj (proj1 H) (proj1 (proj2 H))).
  vm_compute. reflexivity.
Defined.







(** ** Refusals of a create *)





(** ** The guards *)

Lemma split_first (s : string) :
  ∃ first, no_space first = true
    ∧ ((s = first ∧ Auth.split s = [ first ])
       ∨ ∃ rest, s = (first ++ " " ++ rest)%string
                 ∧ Auth.split s = first :: Auth.split rest).
Proof.
  induction s as [| c s IH].
  - exists "". split; [done |]. by left.
  - cbn [Auth.split]. destruct (Ascii.eqb c " ") eqn:Hc.
    + apply Ascii.eqb_eq in Hc as ->. exists "". split; [done |].
      right. by exists s.
    + destruct IH as (first & Hf & [[-> Hs] | (rest & -> & Hs)]).
      * exists (String c first). split; [by cbn; rewrite Hc, Hf |].
        left. by rewrite Hs.
      * exists (String c first). split; [by cbn; rewrite Hc, Hf |].
        right. exists rest. by rewrite Hs.
Qed.

Lemma append_empty (s : string) : (s ++ "")%string = s.
Proof.
  induction s as [| c s IH]; [done |].
  change (String c (s +:+ "") = String c s). by rewrite IH.
Qed.

Lemma split_no_space (s : string) :
  no_space s = true → Auth.split s = [ s ].
Proof.
  induction s as [| c s IH]; [done |]. cbn.
  destruct (Ascii.eqb c " "); [done |]. cbn. intros Hs. by rewrite IH.
Qed.

Lemma split_word (a rest : string) :
  no_space a = true → Auth.split (a ++ " " ++ rest)%string = a :: Auth.split rest.
Proof.
  induction a as [| c a IH]; [done |]. intros Ha. cbn [no_space] in Ha.
  apply andb_prop in Ha as [Hc Ha]. apply negb_true_iff in Hc.
  change (Auth.split (String c (a +:+ " " +:+ rest))
          = String c a :: Auth.split rest).
  cbn [Auth.split]. by rewrite Hc, IH.
Qed.

(** The second word of the header, as [split(' ')[1]] reads it. *)
Lemma bearer_spec (h : option string) (token : string) :
  Auth.bearer h = Some token
  ↔ ∃ scheme rest, h = Some (scheme ++ " " ++ token ++ rest)%string
      ∧ no_space scheme = true ∧ no_space token = true
      ∧ (rest = "" ∨ ∃ r, rest = (" " ++ r)%string).
Proof.
  split.
  - destruct h as [s |]; [| done]. cbn.
    destruct (split_first s) as (scheme & Hs & [[-> Hsp] | (r1 & -> & Hsp)]);
      rewrite Hsp; [done |]. cbn.
    destruct (split_first r1) as (tok & Ht & [[-> Hsp1] | (r2 & -> & Hsp1)]);
      rewrite Hsp1; cbn; intros [= <-].
    + exists scheme, "". repeat split; try done; [| by left].
      by rewrite append_empty.
    + exists scheme, (" " ++ r2)%string. repeat split; try done. right. by exists r2.
  - intros (scheme & rest & -> & Hs & Ht & Hr). cbn.
    rewrite split_word by done. cbn.
    destruct Hr as [-> | (r & ->)].
    + by rewrite append_empty, split_no_space.
    + by rewrite split_word.
Qed.

Lemma authenticate_cases {jwt : Auth.Jwt} (h : option string) :
  (∃ token d, Auth.bearer h = Some token ∧ token ≠ ""
              ∧ Auth.jwt_verify token = Some d ∧ Auth.authenticate h = inr d)
  ∨ ((∀ token d, Auth.bearer h = Some token → token ≠ "" →
                 Auth.jwt_verify token ≠ Some d)
     ∧ Auth.authenticate h = inl (AppError "Invalid token" 401 [])).
Proof.
  unfold Auth.authenticate, Auth.decode.
  destruct (Auth.bearer h) as [token |] eqn:Hb; cbn; [| by right].
  destruct (String.eqb_spec token "") as [-> | Hne]; cbn.
  { right. split; [| done]. by intros ?? [= <-]. }
  destruct (Auth.jwt_verify token) as [d |] eqn:Hv.
  - left. by exists token, d.
  - right. split; [| done]. intros ?? [= <-] _. congruence.
Qed.

Lemma guarded_cases {jwt : Auth.Jwt} {S R : Type} (next : Err → R)
      (roles : list string) (h : option string)
      (handler : string → S → R * S) (st : S) :
  (∃ d, Auth.authenticate h = inr d ∧ Js.includes roles (Auth.role d) = true
        ∧ Auth.guarded next roles h handler st = handler (Auth.userId d) st)
  ∨ ((∀ d, Auth.authenticate h = inr d →
           Js.includes roles (Auth.role d) = false)
     ∧ (Auth.guarded next roles h handler st
        = (next (AppError "Invalid token" 401 []), st)
        ∨ Auth.guarded next roles h handler st
          = (next (AppError "Unauthorized access" 403 []), st))).
Proof.
  unfold Auth.guarded, Auth.authorize.
  destruct (authenticate_cases h) as [(token & d & _ & _ & _ & ->) | [_ ->]].
  - destruct (Js.includes roles (Auth.role d)) eqn:Hr; cbn.
    + left. by exists d.
    + right. split; [by intros ? [= <-] | by right].
  - right. split; [done | by left].
Qed.

Lemma includes_one (x y : string) :
  Js.includes [ x ] y = true ↔ y = x.
Proof.
  unfold Js.includes. cbn. rewrite orb_false_r. apply String.eqb_eq.
Qed.

(** X19.  [authenticate] lets a request through exactly when its header
    reads as a first word, one space, and a second word that is a token
    [jwt.verify] accepts; the first word is not looked at, and what
    follows a further space is ignored.  [req.user] is then the payload
    of the token. *)
Theorem authenticate_passes_iff {jwt : Auth.Jwt} (h : option string)
        (d : Auth.Decoded) :
  Auth.authenticate h = inr d
  ↔ ∃ scheme token rest,
      h = Some (scheme ++ " " ++ token ++ rest)%string
      ∧ no_space scheme = true ∧ no_space token = true ∧ token ≠ ""
      ∧ (rest = "" ∨ ∃ r, rest = (" " ++ r)%string)
      ∧ Auth.jwt_verify token = Some d.
Proof.
  split.
  - intros Ha.
    destruct (authenticate_cases h) as [(token & d' & Hb & Hne & Hv & Hd) | [_ Hd]];
      [| congruence].
    assert (d' = d) as -> by congruence.
    apply bearer_spec in Hb as (scheme & rest & -> & Hs & Ht & Hr).
    by exists scheme, token, rest.
  - intros (scheme & token & rest & -> & Hs & Ht & Hne & Hr & Hv).
    assert (Hb : Auth.bearer (Some (scheme ++ " " ++ token ++ rest)%string) = Some token).
    { apply bearer_spec. by exists scheme, rest. }
    destruct (authenticate_cases (Some (scheme ++ " " ++ token ++ rest)%string))
      as [(token' & d' & Hb' & _ & Hv' & Hd) | [Hno _]].
    + congruence.
    + by destruct (Hno token d Hb Hne).
Qed.

Lemma authenticate_passes_witness :
  Auth.authenticate (jwt := Sample3.jwt) (Some "Basic t-alice extra")
  = inr (Auth.mkDecoded Sample.alice "student").
Proof.
  apply (proj2 (authenticate_passes_iff (jwt := Sample3.jwt)
                  (Some "Basic t-alice extra")
                  (Auth.mkDecoded Sample.alice "student"))).
  exists "Basic", "t-alice", " extra".
  repeat split; [done | right; by exists "extra"].
Defined.



(** X21.  Without a token that verifies and carries the role "student",
    the create, update and delete routes answer 401 or 403 and leave both
    stores and the trace as they are. *)
Theorem guarded_routes_need_student {js : JsLib} {jwt : Auth.Jwt}
        (h : option string) (optional : bool) (id : string) (b : Body)
        (uploads : list string) (w : World) :
  (∀ d, Auth.authenticate h = inr d → Auth.role d ≠ "student") →
  ∃ e, (e = AppError "Invalid token" 401 []
        ∨ e = AppError "Unauthorized access" 403 [])
       ∧ Secured.POST h optional b uploads w = (Next e, w)
       ∧ Secured.PUT h id b uploads w = (Next e, w)
       ∧ Secured.DELETE h id w = (Next e, w).
Proof.
  intros Hno. unfold Secured.POST, Secured.PUT, Secured.DELETE, Auth.guarded.
  destruct (authenticate_cases h) as [(token & d & _ & _ & _ & Hd) | [_ Hd]];
    rewrite Hd.
  - unfold Auth.authorize.
    destruct (Js.includes [ "student" ] (Auth.role d)) eqn:Hr.
    + apply includes_one in Hr. by destruct (Hno d Hd).
    + cbn. eexists. split; [by right | done].
  - eexists. split; [by left | done].
Qed.

Lemma guarded_routes_witness :
  ∃ e, (e = AppError "Invalid token" 401 []
        ∨ e = AppError "Unauthorized access" 403 [])
       ∧ Secured.POST (js := Sample.lib) (jwt := Sample3.jwt)
           (Some "Bearer t-bob") false (Sample.fields (JNum 2) (JNum 4))
           [ "o1" ] Sample.empty_world
         = (Next e, Sample.empty_world)
       ∧ Secured.PUT (js := Sample.lib) (jwt := Sample3.jwt)
           (Some "Bearer t-bob") Sample.id1 emptyBody [ "o1" ]
           Sample.empty_world
         = (Next e, Sample.empty_world)
       ∧ Secured.DELETE (js := Sample.lib) (jwt := Sample3.jwt)
           (Some "Bearer t-bob") Sample.id1 Sample.empty_world
         = (Next e, Sample.empty_world).
Proof.
  apply (guarded_routes_need_student (js := Sample.lib) (jwt := Sample3.jwt)
           (Some "Bearer t-bob") false Sample.id1
           (Sample.fields (JNum 2) (JNum 4)) [ "o1" ] Sample.empty_world).
  intros d. vm_compute. intros [= <-]. discriminate.
Defined.

(** X22.  A listing created through the guarded route belongs to the
    user of the token, who is a student. *)
Theorem guarded_create_owner {js : JsLib} {jwt : Auth.Jwt}
        (h : option string) (optional : bool) (b : Body)
        (uploads : list string) (w : World) (code : Z) (s : Share) :
  (Secured.POST h optional b uploads w).1 = Json code (PShare s) →
  ∃ d, Auth.authenticate h = inr d ∧ Auth.role d = "student"
       ∧ student s = Some (Auth.userId d).
Proof.
  unfold Secured.POST. intros Hr.
  destruct (guarded_cases Next [ "student" ] h
              (λ caller, Routes.POST optional caller b uploads) w)
    as [(d & Ha & Hin & Hg) | [_ [Hg | Hg]]]; rewrite Hg in Hr; [| done | done].
  exists d. split; [done |]. split; [by apply includes_one |].
  unfold Routes.POST in Hr.
  destruct (Routes.validateCreateShare optional b) as [b' errors].
  destruct (createHousingShare _ w) as [r w'] eqn:E. cbn in Hr. subst r.
  apply createHousingShare_owner in E as [Hs _]. exact Hs.
Qed.

Lemma guarded_create_owner_witness :
  ∃ d, Auth.authenticate (jwt := Sample3.jwt) (Some "Bearer t-alice") = inr d
       ∧ Auth.role d = "student"
       ∧ student (Sample.listing Sample.alice) = Some (Auth.userId d).
Proof.
  apply (guarded_create_owner (js := Sample.lib) (jwt := Sample3.jwt)
           (Some "Bearer t-alice") false (Sample.fields (JNum 2) (JNum 4))
           [ "o1"; "o2" ] Sample.empty_world 201 (Sample.listing Sample.alice)).
  vm_compute. reflexivity.
Defined.

(** ** The listing controller *)

Lemma listing_save_outcome (d : Listings.Doc)
      (st : Listings.Store) (r : Outcome unit) (st' : Listings.Store) :
  Listings.save d st = (r, st') →
  Listings.trace st' = Listings.trace st
                       ++ [ Listings.DbSave (Listings._id (Listings.doc d)) ]
  ∧ ((r = Ok tt
      ∧ Listings.cast_errors d = [] ∧ Listings.validate (Listings.doc d) = []
      ∧ Listings.listings st'
        = <[ Listings._id (Listings.doc d) := Listings.doc d ]>
            (Listings.listings st))
     ∨ ((r = Throw MongoError ∨ ∃ errs, r = Throw (ValidationError errs))
        ∧ Listings.listings st' = Listings.listings st)).
Proof.
  unfold Listings.save.
  destruct (Listings.cast_errors d ++ Listings.validate (Listings.doc d))
    as [| x errs] eqn:Ev.
  - apply app_eq_nil in Ev as [Hc Hv]. cbn.
    destruct (Listings.write_fails st); intros [= <- <-]; (split; [done |]).
    + right. split; [by left | done].
    + by left.
  - intros [= <- <-]. split; [done |]. right. split; [right; by eexists | done].
Qed.

Lemma listing_owned_spec (id user : string) (st : Listings.Store)
      (l : Listings.Listing) :
  Listings.owned id user st = Some l
  ↔ Listings.listings st !! id = Some l ∧ Listings.owner l = Some user.
Proof.
  unfold Listings.owned. destruct (Listings.listings st !! id) as [l' |];
    [| by split; [| intros [? _]]].
  case_bool_decide as Ho.
  - split; [by intros [= <-] | by intros [[= <-] _]].
  - split; [done |]. intros [[= <-] ?]. done.
Qed.

(** What [createListing] can end with. *)
Lemma create_listing_outcome {js : JsLib} (req : Listings.Req)
      (st : Listings.Store) (r : Listings.Response) (st' : Listings.Store) :
  Listings.createListing req st = (r, st') →
  (st' = st ∧ ∃ m errs, r = Listings.Next (AppError m 400 errs))
  ∨ (Listings.validation req = []
     ∧ Listings.truthy (Listings.b_price (Listings.body req)) = true
     ∧ Listings.isNaN (Listings.b_price (Listings.body req)) = false
     ∧ ∃ d, Listings.new (Listings.with_owner (Some (Listings.user req))
                                              (Listings.body req)) st
            = (Ok d, st)
            ∧ Listings.trace st'
              = Listings.trace st ++ [ Listings.DbSave (Listings.new_id st) ]
            ∧ ((r = Listings.Json 201 (Listings.PListing (Listings.doc d))
                ∧ Listings.cast_errors d = []
                ∧ Listings.validate (Listings.doc d) = []
                ∧ Listings.listings st'
                  = <[ Listings.new_id st := Listings.doc d ]>
                      (Listings.listings st))
               ∨ ((r = Listings.Next MongoError
                   ∨ ∃ errs, r = Listings.Next (ValidationError errs))
                  ∧ Listings.listings st' = Listings.listings st))).
Proof.
  unfold Listings.createListing, Listings.handler, sanitize.
  case_bool_decide as Hv; cbn [negb];
    [| intros [= <- <-]; left; split; [done | by do 2 eexists]].
  destruct (Listings.truthy (Listings.b_price _)) eqn:Hp; cbn [negb orb];
    [| intros [= <- <-]; left; split; [done | by do 2 eexists]].
  destruct (Listings.isNaN (Listings.b_price _)) eqn:Hn;
    [intros [= <- <-]; left; split; [done | by do 2 eexists] |].
  destruct (_ && _);
    [intros [= <- <-]; left; split; [done | by do 2 eexists] |].
  destruct (_ && _);
    [intros [= <- <-]; left; split; [done | by do 2 eexists] |].
  unfold mbind, Listings.M_bind.
  destruct (Listings.new _ st) as [rd st0] eqn:En.
  unfold Listings.new in En. injection En as <- <-.
  set (d := Listings.assign _ _).
  destruct (Listings.save d st) as [rs st1] eqn:Es.
  apply listing_save_outcome in Es as [Ht Hs]. intros E.
  right. repeat (split; [done |]). exists d. split; [done |].
  split; [by destruct rs; injection E as <- <- |].
  destruct Hs as [(-> & Hc & Hvd & Hl) | [[-> | [errs ->]] Hl]];
    injection E as <- <-.
  - by left.
  - right. split; [by left | done].
  - right. split; [right; by eexists | done].
Qed.

(** What [updateListing] can end with. *)
Lemma update_listing_outcome {js : JsLib} (req : Listings.Req)
      (st : Listings.Store) (r : Listings.Response) (st' : Listings.Store) :
  Listings.updateListing req st = (r, st') →
  (Listings.listings st' = Listings.listings st ∧ ∃ e, r = Listings.Next e)
  ∨ (∃ l d, Listings.listings st !! Listings.params_id req = Some l
            ∧ Listings.owner l = Some (Listings.user req)
            ∧ d = Listings.assign (Listings.mkDoc l []) (Listings.body req)
            ∧ r = Listings.Json 200 (Listings.PListing (Listings.doc d))
            ∧ Listings.cast_errors d = []
            ∧ Listings.validate (Listings.doc d) = []
            ∧ Listings.listings st'
              = <[ Listings._id l := Listings.doc d ]> (Listings.listings st)).
Proof.
  unfold Listings.updateListing, Listings.handler, sanitize.
  destruct (ObjectId_isValid (Listings.params_id req)); cbn [negb];
    [| intros [= <- <-]; left; split; [done | by eexists]].
  unfold mbind at 1, Listings.M_bind at 1, Listings.findOne.
  destruct (ObjectId_isValid (Listings.user req));
    [| intros [= <- <-]; left; split; [done | by eexists]].
  destruct (Listings.owned _ _ _) as [l |] eqn:Ho; cbn [fmap option_fmap option_map];
    [| intros [= <- <-]; left; split; [done | by eexists]].
  change (Listings.owned (Listings.params_id req) (Listings.user req) st
          = Some l) in Ho.
  apply listing_owned_spec in Ho as [Hl Hu].
  destruct (_ && _);
    [intros [= <- <-]; left; split; [done | by eexists] |].
  destruct (_ && _);
    [intros [= <- <-]; left; split; [done | by eexists] |].
  destruct (_ && _);
    [intros [= <- <-]; left; split; [done | by eexists] |].
  unfold mbind, Listings.M_bind.
  set (d := Listings.assign _ _).
  destruct (Listings.save d _) as [rs st1] eqn:Es.
  apply listing_save_outcome in Es as [Ht Hs]. intros E.
  destruct Hs as [(-> & Hc & Hvd & Hls) | [[-> | [errs ->]] Hls]];
    injection E as <- <-.
  - right. exists l, d. by repeat (split; [done |]).
  - left. split; [done | by eexists].
  - left. split; [done | by eexists].
Qed.

(** What [deleteListing] can end with. *)
Lemma delete_listing_outcome {js : JsLib} (req : Listings.Req)
      (st : Listings.Store) (r : Listings.Response) (st' : Listings.Store) :
  Listings.deleteListing req st = (r, st') →
  (Listings.listings st' = Listings.listings st ∧ ∃ e, r = Listings.Next e)
  ∨ (∃ l, Listings.listings st !! Listings.params_id req = Some l
          ∧ Listings.owner l = Some (Listings.user req)
          ∧ r = Listings.Json 200 (Listings.PMessage "success"
                                     "Listing deleted successfully")
          ∧ Listings.listings st'
            = delete (Listings.params_id req) (Listings.listings st)
          ∧ Listings.trace st'
            = Listings.trace st
              ++ [ Listings.DbFindOneAndDelete (Listings.params_id req)
                                               (Listings.user req) ]).
Proof.
  unfold Listings.deleteListing, Listings.handler, sanitize.
  destruct (ObjectId_isValid (Listings.params_id req)); cbn [negb];
    [| intros [= <- <-]; left; split; [done | by eexists]].
  unfold mbind, Listings.M_bind, Listings.findOneAndDelete.
  destruct (ObjectId_isValid (Listings.user req));
    [| intros [= <- <-]; left; split; [done | by eexists]].
  cbn [Listings.write_fails Listings.log].
  destruct (Listings.write_fails st);
    [intros [= <- <-]; left; split; [done | by eexists] |].
  destruct (Listings.owned _ _ _) as [l |] eqn:Ho;
    [| intros [= <- <-]; left; split; [done | by eexists]].
  change (Listings.owned (Listings.params_id req) (Listings.user req) st
          = Some l) in Ho.
  apply listing_owned_spec in Ho as [Hl Hu].
  intros [= <- <-]. right. by exists l.
Qed.

Lemma listing_assign_id {js : JsLib} (d : Listings.Doc) (b : Listings.Body) :
  Listings._id (Listings.doc (Listings.assign d b))
  = Listings._id (Listings.doc d).
Proof. done. Qed.

Lemma sample_store_well_formed : listings_well_formed Sample3.one_listing.
Proof.
  intros id l Hl. cbn in Hl. apply lookup_singleton_Some in Hl as [<- <-].
  split; reflexivity.
Qed.

(** X23.  Every 400 that [createListing] answers is decided before any
    call on the collection: the store and the trace are as they were. *)
Theorem listing_create_400_before_store {js : JsLib} (req : Listings.Req)
        (st : Listings.Store) (m : string) (errs : list string) :
  (Listings.createListing req st).1 = Listings.Next (AppError m 400 errs) →
  (Listings.createListing req st).2 = st.
Proof.
  destruct (Listings.createListing req st) as [r st'] eqn:E. cbn. intros ->.
  apply create_listing_outcome in E
    as [[-> _] | (_ & _ & _ & d & _ & _ & [(? & _) | [[? | [? ?]] _]])]; done.
Qed.

Lemma listing_create_400_witness :
  (Listings.createListing (js := Sample.lib)
     (Listings.mkReq Sample.bob "" (Sample3.offer (JNum 0)) [])
     Sample3.no_listing).2
  = Sample3.no_listing.
Proof.
  refine (listing_create_400_before_store (js := Sample.lib)
            (Listings.mkReq Sample.bob "" (Sample3.offer (JNum 0)) [])
            Sample3.no_listing "Invalid price" [] _).
  vm_compute. reflexivity.
Defined.

(** X24.  A listing that [createListing] answers belongs to the caller,
    whatever [owner] the body names, is stored under its id, and has for
    price the number that the body's price reads as; a body whose price
    is the number 0 is never accepted. *)
Theorem created_listing_owner_and_price {js : JsLib} (req : Listings.Req)
        (st : Listings.Store) (code : Z) (l : Listings.Listing) :
  (Listings.createListing req st).1 = Listings.Json code (Listings.PListing l) →
  Listings.owner l = Some (Listings.user req)
  ∧ Listings.listings (Listings.createListing req st).2 !! Listings._id l
    = Some l
  ∧ (∃ q, Listings.price l = Some q
          ∧ Js.ToNumber (Listings.b_price (Listings.body req)) = Some q)
  ∧ (∀ q, Listings.b_price (Listings.body req) = Some (JNum q) → ¬ (q == 0)%Q).
Proof.
  destruct (Listings.createListing req st) as [r st'] eqn:E. cbn. intros ->.
  apply create_listing_outcome in E
    as [[_ (? & ? & ?)] | (_ & Hp & Hn & d & Hd & _ & [(Hr & Hc & Hv & Hl) | [[? | [? ?]] _]])];
    try done.
  injection Hr as -> ->. unfold Listings.new in Hd. injection Hd as Hd.
  split; [| split; [| split]].
  - subst d. unfold Listings.assign in Hc |- *. cbn in Hc |- *.
    unfold Mongoose.cast_objectid in *.
    destruct (ObjectId_isValid (Listings.user req)); [done |].
    cbn in Hc. discriminate.
  - rewrite Hl. subst d. cbn. by rewrite lookup_insert_eq.
  - subst d. unfold Listings.assign in Hc |- *. cbn in Hc |- *.
    unfold Listings.isNaN, Listings.truthy, Js.ToNumber in *.
    destruct (Listings.b_price (Listings.body req)) as [[q | s] |]; [| | done].
    + by exists q.
    + cbn. unfold Mongoose.cast_number.
      destruct (String.eqb s ""); [done |].
      destruct (Number s) as [q |]; [by exists q | done].
  - intros q Hq Hz. rewrite Hq in Hp. cbn in Hp.
    apply Qeq_bool_iff in Hz. by rewrite Hz in Hp.
Qed.

Lemma created_listing_witness :
  Listings.owner (Sample3.flat_of Sample.bob) = Some Sample.bob
  ∧ Listings.price (Sample3.flat_of Sample.bob) = Some 500%Q.
Proof.
  destruct (created_listing_owner_and_price (js := Sample.lib)
              (Listings.mkReq Sample.bob "" (Sample3.offer (JStr "500")) [])
              Sample3.no_listing 201 (Sample3.flat_of Sample.bob))
    as (Ho & _ & _ & _).
  - vm_compute. reflexivity.
  - split; [exact Ho | reflexivity].
Defined.



(** X26.  The owner's delete removes the listing, and that listing only,
    in a single call; a second delete of it is answered 404. *)
Theorem listing_deleted_once {js : JsLib} (caller id : string)
        (st : Listings.Store) (l : Listings.Listing) :
  ObjectId_isValid id = true →
  ObjectId_isValid caller = true →
  Listings.listings st !! id = Some l →
  Listings.owner l = Some caller →
  Listings.write_fails st = false →
  let req := Listings.mkReq caller id Listings.emptyBody [] in
  let st' := (Listings.deleteListing req st).2 in
  (Listings.deleteListing req st).1
  = Listings.Json 200 (Listings.PMessage "success" "Listing deleted successfully")
  ∧ Listings.listings st' = delete id (Listings.listings st)
  ∧ Listings.trace st' = Listings.trace st ++ [ Listings.DbFindOneAndDelete id caller ]
  ∧ (Listings.deleteListing req st').1
    = Listings.Next (AppError "Listing not found or unauthorized" 404 []).
Proof.
  intros Hid Hc Hl Ho Hw req st'.
  assert (E : Listings.deleteListing req st
              = (Listings.Json 200 (Listings.PMessage "success"
                                      "Listing deleted successfully"),
                 Listings.with_listings (delete id (Listings.listings st))
                   (Listings.log (Listings.DbFindOneAndDelete id caller) st))).
  { unfold Listings.deleteListing, Listings.handler, sanitize, req. cbn.
    rewrite Hid. cbn [negb].
    unfold mbind, Listings.M_bind, Listings.findOneAndDelete.
    rewrite Hc. cbn [Listings.write_fails Listings.log]. rewrite Hw.
    unfold Listings.owned. cbn [Listings.listings Listings.log].
    rewrite Hl. rewrite bool_decide_eq_true_2 by done.
    done. }
  subst st'. rewrite E. cbn [fst snd].
  split; [done |]. split; [done |]. split; [done |].
  unfold Listings.deleteListing, Listings.handler, sanitize, req. cbn.
  rewrite Hid. cbn [negb].
  unfold mbind, Listings.M_bind, Listings.findOneAndDelete.
  rewrite Hc. cbn. rewrite Hw.
  unfold Listings.owned. cbn. by rewrite lookup_delete_eq.
Qed.

Lemma listing_deleted_once_witness :
  (Listings.deleteListing (js := Sample.lib)
     (Listings.mkReq Sample.bob Sample.id1 Listings.emptyBody [])
     Sample3.one_listing).1
  = Listings.Json 200 (Listings.PMessage "success" "Listing deleted successfully").
Proof.
  refine (proj1 (listing_deleted_once (js := Sample.lib) Sample.bob Sample.id1
                   Sample3.one_listing (Sample3.flat_of Sample.bob) _ _ _ _ _));
    reflexivity.
Defined.

(** X27.  An update by the owner gives the listing to whoever the body
    names as [owner]: the handler assigns every key of the body, so the
    stored owner is the body's when it carries one, and the caller's
    otherwise. *)
Theorem listing_update_owner_follows_body {js : JsLib} (req : Listings.Req)
        (st : Listings.Store) (code : Z) (l : Listings.Listing) :
  listings_well_formed st →
  (Listings.updateListing req st).1 = Listings.Json code (Listings.PListing l) →
  Listings.owner l
  = Some (default (Listings.user req) (Listings.b_owner (Listings.body req)))
  ∧ Listings.listings (Listings.updateListing req st).2 !! Listings.params_id req
    = Some l.
Proof.
  intros Hwf.
  destruct (Listings.updateListing req st) as [r st'] eqn:E. cbn. intros ->.
  apply update_listing_outcome in E
    as [[_ [? ?]] | (l0 & d & Hl & Hu & Hd & Hr & Hc & Hv & ->)]; [done |].
  injection Hr as _ ->. destruct (Hwf _ _ Hl) as [-> _].
  split; [| by rewrite lookup_insert_eq].
  subst d. unfold Listings.assign in Hc |- *. cbn in Hc |- *.
  destruct (Listings.b_owner (Listings.body req)) as [u |]; cbn in *; [| done].
  unfold Mongoose.cast_objectid in *.
  destruct (ObjectId_isValid u); [done |]. cbn in Hc. discriminate.
Qed.

Lemma listing_update_owner_witness :
  Listings.owner (Sample3.flat_of Sample.alice) = Some Sample.alice.
Proof.
  refine (proj1 (listing_update_owner_follows_body (js := Sample.lib)
                   (Listings.mkReq Sample.bob Sample.id1
                                   (Sample3.give_to Sample.alice) [])
                   Sample3.one_listing 200 (Sample3.flat_of Sample.alice) _ _)).
  - apply sample_store_well_formed.
  - vm_compute. reflexivity.
Defined.

(** X28.  The three handlers keep the collection well formed. *)
Theorem listing_handlers_keep_well_formed {js : JsLib} (req : Listings.Req)
        (st : Listings.Store) :
  listings_well_formed st →
  listings_well_formed (Listings.createListing req st).2
  ∧ listings_well_formed (Listings.updateListing req st).2
  ∧ listings_well_formed (Listings.deleteListing req st).2.
Proof.
  intros Hwf. split; [| split].
  - destruct (Listings.createListing req st) as [r st'] eqn:E. cbn.
    apply create_listing_outcome in E
      as [[-> _] | (_ & _ & _ & d & Hd & _ & [(_ & _ & Hv & Hl) | [_ Hl]])];
      [done | |]; intros id l; rewrite Hl; [| apply Hwf].
    unfold Listings.new in Hd. injection Hd as Hd.
    destruct (decide (id = Listings.new_id st)) as [-> | Hne].
    + rewrite lookup_insert_eq. intros [= <-]. split; [by subst d | done].
    + rewrite lookup_insert_ne by done. apply Hwf.
  - destruct (Listings.updateListing req st) as [r st'] eqn:E. cbn.
    apply update_listing_outcome in E
      as [[Hl _] | (l0 & d & Hl0 & _ & Hd & _ & _ & Hv & Hl)];
      intros id l; rewrite Hl; [apply Hwf |].
    destruct (decide (id = Listings._id l0)) as [-> | Hne].
    + rewrite lookup_insert_eq. intros [= <-]. split; [by subst d | done].
    + rewrite lookup_insert_ne by done. apply Hwf.
  - destruct (Listings.deleteListing req st) as [r st'] eqn:E. cbn.
    apply delete_listing_outcome in E
      as [[Hl _] | (l0 & _ & _ & _ & Hl & _)];
      intros id l; rewrite Hl; [apply Hwf |].
    intros [_ ?]%lookup_delete_Some. by apply Hwf.
Qed.

Lemma listing_well_formed_witness :
  listings_well_formed
    (Listings.createListing (js := Sample.lib)
       (Listings.mkReq Sample.alice "" (Sample3.offer (JNum 700)) [])
       Sample3.one_listing).2.
Proof.
  refine (proj1 (listing_handlers_keep_well_formed (js := Sample.lib)
                   (Listings.mkReq Sample.alice "" (Sample3.offer (JNum 700)) [])
                   Sample3.one_listing _)).
  apply sample_store_well_formed.
Defined.
